(** * Autostart Manager: the registration and batch-lifecycle core of AutoLoad.py

    A shallow embedding of the non-presentational part of [AutoLoad.py]:
    the path and name validity checks, the persisted batch list, the
    tracking map of launched processes, settings import, and removal of
    autostart entries.  Python exceptions are values of an error monad,
    the operating system (files, the Run registry key, the task scheduler,
    the command interpreter) is an explicit [world], and everything the
    program shows to the user or asks of the operating system is appended
    to a trace of [event]s. *)

From Stdlib Require Import String Ascii List ZArith Bool Lia.
From stdpp Require Import gmap strings list fin_maps.

Local Open Scope string_scope.

(** ** Python strings

    A [str] is modelled as a [string] of 8-bit characters; the functions
    below are the fragments of [str] and [ntpath] that the program calls. *)
Module Py.

Definition newline : ascii := ascii_of_nat 10.

Definition in_range (lo hi : nat) (c : ascii) : bool :=
  let n := nat_of_ascii c in (lo <=? n)%nat && (n <=? hi)%nat.

(** [str.lower] on one character: only [A-Z] move. *)
Definition lower_char (c : ascii) : ascii :=
  if in_range 65 90 c then ascii_of_nat (nat_of_ascii c + 32) else c.

Fixpoint lower (s : string) : string :=
  match s with
  | EmptyString => EmptyString
  | String c s' => String (lower_char c) (lower s')
  end.

(** [s.endswith(suffix)] *)
Definition endswith (s suffix : string) : bool :=
  let n := String.length s in
  let m := String.length suffix in
  (m <=? n)%nat && String.eqb (substring (n - m) m s) suffix.

(** [c in s] for a single character [c] *)
Fixpoint contains (c : ascii) (s : string) : bool :=
  match s with
  | EmptyString => false
  | String d s' => Ascii.eqb c d || contains c s'
  end.

(** [any(c in s for c in chars)] *)
Fixpoint any_in (chars s : string) : bool :=
  match chars with
  | EmptyString => false
  | String c cs => contains c s || any_in cs s
  end.

Definition backslash : ascii := ascii_of_nat 92.

Definition is_sep (c : ascii) : bool :=
  Ascii.eqb c backslash || Ascii.eqb c "/".

(** The text after the last separator of [s]; [acc] is the text read since
    the last separator seen. *)
Fixpoint tail_after_sep (s acc : string) : string :=
  match s with
  | EmptyString => acc
  | String c s' =>
      if is_sep c then tail_after_sep s' EmptyString else tail_after_sep s' (acc +:+ String c EmptyString)
  end.

(** [str.upper] on one character: only [a-z] move. *)
Definition upper_char (c : ascii) : ascii :=
  if in_range 97 122 c then ascii_of_nat (nat_of_ascii c - 32) else c.

Fixpoint upper (s : string) : string :=
  match s with
  | EmptyString => EmptyString
  | String c s' => String (upper_char c) (upper s')
  end.

(** [p.replace('/', '\')] *)
Fixpoint normalize_seps (p : string) : string :=
  match p with
  | EmptyString => EmptyString
  | String c p' => String (if Ascii.eqb c "/" then backslash else c) (normalize_seps p')
  end.

(** [s[:n]] and [s[n:]] *)
Definition str_take (n : nat) (s : string) : string := substring 0 n s.

Fixpoint str_drop (n : nat) (s : string) : string :=
  match n, s with
  | O, _ => s
  | S n', String _ s' => str_drop n' s'
  | S _, EmptyString => EmptyString
  end.

(** The index of the first separator of [s], if there is one. *)
Fixpoint find_sep (s : string) : option nat :=
  match s with
  | EmptyString => None
  | String c s' => if is_sep c then Some O else option_map S (find_sep s')
  end.

(** [normp.find(sep, start)], where [normp] is [p] with every [/] replaced
    by [\]: the index of the first separator of [p] at or after [start]. *)
Definition find_sep_from (start : nat) (p : string) : option nat :=
  option_map (Nat.add start) (find_sep (str_drop start p)).

(** The prefix [\\?\UNC\] of an extended UNC path. *)
Definition unc_prefix : string :=
  String backslash (String backslash (String "?" (String backslash
    (String "U" (String "N" (String "C" (String backslash EmptyString))))))).

(** [ntpath.splitdrive] (CPython 3.11): a path that begins with two
    separators is a UNC or device path, whose drive runs up to the second
    separator after the prefix and is the whole path when there are fewer;
    otherwise a second character [:] ends a drive letter. *)
Definition splitdrive (p : string) : string * string :=
  match p with
  | String c0 (String c1 r) =>
      if is_sep c0 && is_sep c1 then
        let start :=
          if String.eqb (upper (str_take 8 (normalize_seps p))) unc_prefix
          then 8 else 2 in
        match find_sep_from start p with
        | None => (p, EmptyString)
        | Some index =>
            match find_sep_from (index + 1) p with
            | None => (p, EmptyString)
            | Some index2 => (str_take index2 p, str_drop index2 p)
            end
        end
      else if Ascii.eqb c1 ":" then (str_take 2 p, r)
      else (EmptyString, p)
  | _ => (EmptyString, p)
  end.

(** [ntpath.basename], that is [ntpath.split(p)[1]]: the drive is split
    off, then the part after the last [\] or [/] of the rest is kept. *)
Definition basename (p : string) : string :=
  tail_after_sep (splitdrive p).2 EmptyString.

End Py.

(** ** Exceptions and subprocess results *)

Inductive exn_type :=
| FileNotFoundError | PermissionError | JSONDecodeError
| TypeError | AttributeError | KeyError | PlainException.

(** An exception: its class and [str(e)]. *)
Record exn := Exn { exc_type : exn_type; exc_str : string }.

Inductive res (A : Type) :=
| Ok (a : A)
| Raise (e : exn).
Arguments Ok {A} a.
Arguments Raise {A} e.

(** What [subprocess.run(cmd, shell=True, capture_output=True, text=True)]
    can do: complete with an exit code and the captured stderr, or raise. *)
Inductive run_outcome :=
| Completed (returncode : Z) (stderr : string)
| RunRaised (e : exn).

(** ** JSON documents

    The value [json.load] returns.  Arrays hold strings (the only arrays
    the file formats of the program use); [JScalar] stands for [null], a
    number or a boolean; an object is the [dict] built from it, as its
    items in insertion order. *)
#[local] Set Warnings "-register-all".
Inductive json :=
| JScalar
| JStr (s : string)
| JArr (items : list string)
| JObj (members : list (string * json)).

(** A file holds a JSON document or something [json.load] rejects: a text
    the program wrote that is not JSON (an XML task definition), or any
    other content (an executable, truncated text). *)
Inductive content :=
| Json (j : json)
| Blob
| Text (text : string).

(** What the task scheduler makes of a task definition file: it rejects
    the document with a diagnostic, or it reads the command of the action
    the task is to run. *)
Inductive definition_reading :=
| Rejected (stderr : string)
| Runs (command : string).

(** [d.get(key, default)] on the members of an object *)
Fixpoint members_get (key : string) (ms : list (string * json)) (default : json) : json :=
  match ms with
  | [] => default
  | (k, v) :: ms' => if String.eqb k key then v else members_get key ms' default
  end.

Fixpoint chars (s : string) : list string :=
  match s with
  | EmptyString => []
  | String c s' => String c EmptyString :: chars s'
  end.

(** ** The operating system and the application state *)

Inductive level := INFO | WARNING | ERROR.
Inductive box := Information | Warning | Critical.

(** What the program does to its surroundings, in order: log records,
    message boxes, and the requests made to a backend. *)
Inductive event :=
| Logged (lvl : level) (msg : string)
| MessageBox (b : box) (title text : string)
| FileWritten (path : string) (c : content)
| FileRemoved (path : string)
| RegOpenKey
| RegSetValue (name command : string)
| RegDeleteValue (name : string)
| ShellCommand (cmd : string).

(** A request to an autostart store, to the file system or to the command
    interpreter, as opposed to a log record or a dialog. *)
Definition is_backend_call (e : event) : bool :=
  match e with
  | Logged _ _ | MessageBox _ _ _ => false
  | _ => true
  end.

Record world := World {
  files : gmap string content;          (* what [os.path.exists] and [open] see *)
  readonly : gset string;               (* paths [open(_, 'w')] is refused on *)
  run_key : option (gmap string string);(* values of HKCU\...\Run, if the key opens *)
  tasks : gmap string string;           (* scheduled tasks: name -> command *)
  sched_denied : option string;         (* stderr of a scheduler that refuses requests *)
  shell_available : bool;               (* can the command interpreter be spawned? *)
  taskkill_outcome : nat -> string -> run_outcome;
                                        (* what taskkill does, by time and image name *)
  login : string;                       (* what [os.getlogin()] returns *)
  read_definition : content -> definition_reading
                                        (* how the scheduler reads a task definition file *)
}.

Inductive status := Stopped | Running.

Record app := App {
  batch_table : list (string * status); (* rows of the batch table: path, status *)
  processes : gmap string string;       (* self.processes: path -> image name *)
  current_theme : string
}.

Record state := State {
  ui : app;
  os : world;
  trace : list event
}.

Definition paths (st : state) : list string := map fst (batch_table (ui st)).

Definition set_ui (f : app -> app) (st : state) : state :=
  State (f (ui st)) (os st) (trace st).
Definition set_os (f : world -> world) (st : state) : state :=
  State (ui st) (f (os st)) (trace st).

Definition with_table (t : list (string * status)) (a : app) : app :=
  App t (processes a) (current_theme a).
Definition with_processes (m : gmap string string) (a : app) : app :=
  App (batch_table a) m (current_theme a).
Definition with_theme (t : string) (a : app) : app :=
  App (batch_table a) (processes a) t.

Definition with_files (f : gmap string content) (w : world) : world :=
  World f (readonly w) (run_key w) (tasks w) (sched_denied w)
        (shell_available w) (taskkill_outcome w) (login w) (read_definition w).
Definition with_run_key (k : option (gmap string string)) (w : world) : world :=
  World (files w) (readonly w) k (tasks w) (sched_denied w)
        (shell_available w) (taskkill_outcome w) (login w) (read_definition w).
Definition with_tasks (t : gmap string string) (w : world) : world :=
  World (files w) (readonly w) (run_key w) t (sched_denied w)
        (shell_available w) (taskkill_outcome w) (login w) (read_definition w).

(** ** The monad of the program: state passing with exceptions

    A raised exception keeps the state reached so far, as in Python. *)
Definition M (A : Type) : Type := state -> res A * state.

Definition ret {A} (a : A) : M A := fun st => (Ok a, st).
Definition raise {A} (e : exn) : M A := fun st => (Raise e, st).
Definition bind {A B} (m : M A) (k : A -> M B) : M B :=
  fun st => match m st with
            | (Ok a, st') => k a st'
            | (Raise e, st') => (Raise e, st')
            end.

Notation "'let*' x := m 'in' k" := (bind m (fun x => k))
  (at level 10, x name, m at level 100, k at level 200, only parsing).
Notation "m >> k" := (bind m (fun _ => k))
  (at level 100, k at level 200, right associativity, only parsing).

(** [try: body / except Exception as e: handler e] *)
Definition try_except {A} (body : M A) (handler : exn -> M A) : M A :=
  fun st => match body st with
            | (Ok a, st') => (Ok a, st')
            | (Raise e, st') => handler e st'
            end.

(** [try: body / finally: cleanup] *)
Definition try_finally {A} (body : M A) (cleanup : M unit) : M A :=
  fun st => match body st with
            | (r, st') => match cleanup st' with
                          | (Ok _, st'') => (r, st'')
                          | (Raise e, st'') => (Raise e, st'')
                          end
            end.

Definition get : M state := fun st => (Ok st, st).
Definition modify (f : state -> state) : M unit := fun st => (Ok tt, f st).
Definition emit (e : event) : M unit :=
  modify (fun st => State (ui st) (os st) (trace st ++ [e])).

(** [for x in l: body x] *)
Fixpoint for_each {A} (l : list A) (body : A -> M unit) : M unit :=
  match l with
  | [] => ret tt
  | x :: l' => body x >> for_each l' body
  end.

Definition logger_info (msg : string) : M unit := emit (Logged INFO msg).
Definition logger_warning (msg : string) : M unit := emit (Logged WARNING msg).
Definition logger_error (msg : string) : M unit := emit (Logged ERROR msg).
Definition QMessageBox_information (title text : string) : M unit :=
  emit (MessageBox Information title text).
Definition QMessageBox_warning (title text : string) : M unit :=
  emit (MessageBox Warning title text).
Definition QMessageBox_critical (title text : string) : M unit :=
  emit (MessageBox Critical title text).

(** ** Checks on paths and names *)

Definition path_exists (w : world) (p : string) : bool :=
  bool_decide (is_Some (files w !! p)).

(** [DragDropLineEdit.is_valid_file] *)
Definition is_valid_file (w : world) (file_path : string) : bool :=
  path_exists w file_path
  && (Py.endswith (Py.lower file_path) ".exe"
      || Py.endswith (Py.lower file_path) ".bat"
      || Py.endswith (Py.lower file_path) ".cmd")
  && negb (Py.any_in "<>|&" file_path).

(** A character of the class [[a-zA-Z0-9_-]]. *)
Definition name_char (c : ascii) : bool :=
  Py.in_range 97 122 c || Py.in_range 65 90 c || Py.in_range 48 57 c
  || Ascii.eqb c "_" || Ascii.eqb c "-".

Fixpoint skip_name_chars (s : string) : string :=
  match s with
  | EmptyString => EmptyString
  | String c s' => if name_char c then skip_name_chars s' else s
  end.

(** [re.match(r'^[a-zA-Z0-9_-]+$', s)] as a truth value: at least one
    character of the class, then the end of [s]; without [re.MULTILINE],
    [$] matches at the end of the string and also just before a newline
    that is the last character of the string. *)
Definition re_match_app_name (s : string) : bool :=
  match s with
  | EmptyString => false
  | String c _ =>
      name_char c
      && match skip_name_chars s with
         | EmptyString => true
         | String d EmptyString => Ascii.eqb d Py.newline
         | _ => false
         end
  end.

(** [AutostartManager.validate_app_name] *)
Definition validate_app_name (app_name : string) : bool * string :=
  if String.eqb app_name EmptyString then
    (false, "Application name cannot be empty")
  else if negb (re_match_app_name app_name) then
    (false, "Application name can only contain letters, numbers, underscores, or hyphens")
  else (true, EmptyString).

(** ** Requests to the operating system *)

(** The double quote, for command lines and quoted commands. *)
Definition dq : string := String (ascii_of_nat 34) EmptyString.

Definition not_found : exn :=
  Exn FileNotFoundError "[WinError 2] The system cannot find the file specified".

(** [with open(path, 'w') as f: json.dump(j, f)], and any other whole-file
    write: refused on a read-only path, otherwise the file is replaced. *)
Definition write_file (path : string) (c : content) : M unit :=
  let* st := get in
  if bool_decide (path ∈ readonly (os st)) then
    raise (Exn PermissionError ("[Errno 13] Permission denied: '" +:+ path +:+ "'"))
  else
    modify (set_os (with_files (<[path := c]> (files (os st))))) >>
    emit (FileWritten path c).

(** [with open(path, 'r') as f: json.load(f)] *)
Definition json_load (path : string) : M json :=
  let* st := get in
  match files (os st) !! path with
  | None =>
      raise (Exn FileNotFoundError
               ("[Errno 2] No such file or directory: '" +:+ path +:+ "'"))
  | Some Blob | Some (Text _) =>
      raise (Exn JSONDecodeError "Expecting value: line 1 column 1 (char 0)")
  | Some (Json j) => ret j
  end.

(** [os.remove(path)] *)
Definition os_remove (path : string) : M unit :=
  let* st := get in
  match files (os st) !! path with
  | None => raise not_found
  | Some _ =>
      modify (set_os (with_files (delete path (files (os st))))) >>
      emit (FileRemoved path)
  end.

(** [winreg.OpenKey(HKEY_CURRENT_USER, r"Software\...\Run", 0, access)] *)
Definition winreg_OpenKey : M (gmap string string) :=
  emit RegOpenKey >>
  let* st := get in
  match run_key (os st) with
  | None => raise not_found
  | Some values => ret values
  end.

(** [winreg.SetValueEx(key, name, 0, REG_SZ, command)] *)
Definition winreg_SetValueEx (name command : string) : M unit :=
  emit (RegSetValue name command) >>
  modify (set_os (fun w => with_run_key (insert name command <$> run_key w) w)).

(** [winreg.DeleteValue(key, name)] *)
Definition winreg_DeleteValue (name : string) : M unit :=
  emit (RegDeleteValue name) >>
  let* st := get in
  match run_key (os st) ≫= lookup name with
  | None => raise not_found
  | Some _ => modify (set_os (fun w => with_run_key (delete name <$> run_key w) w))
  end.

(** Handing a command line to the command interpreter ([shell=True]): the
    interpreter is spawned with the command line as its argument, so this
    raises only when the interpreter itself cannot be started; whether the
    command line names an existing file is the interpreter's business. *)
Definition spawn_shell (cmd : string) : M unit :=
  emit (ShellCommand cmd) >>
  let* st := get in
  if shell_available (os st) then ret tt else raise not_found.

(** [subprocess.Popen(cmd, shell=True)] *)
Definition Popen_shell (cmd : string) : M unit := spawn_shell cmd.

(** [schtasks /Create /XML "temp_xml" /TN "task_name"]: the scheduler reads
    the definition file.  A refusing scheduler exits with 1 and its
    diagnostic, and so does one that rejects the document; a name already
    taken is not replaced. *)
Definition schtasks_create (temp_xml task_name : string) : M (Z * string) :=
  spawn_shell ("schtasks /Create /XML " +:+ dq +:+ temp_xml +:+ dq
               +:+ " /TN " +:+ dq +:+ task_name +:+ dq) >>
  let* st := get in
  match sched_denied (os st) with
  | Some err => ret (1%Z, err)
  | None =>
      match files (os st) !! temp_xml with
      | None => ret (1%Z, "ERROR: The system cannot find the file specified.")
      | Some definition =>
          match read_definition (os st) definition with
          | Rejected err => ret (1%Z, err)
          | Runs command =>
              match tasks (os st) !! task_name with
              | Some _ =>
                  ret (1%Z, "ERROR: Cannot create a file when that file already exists.")
              | None =>
                  modify (set_os (with_tasks (<[task_name := command]> (tasks (os st))))) >>
                  ret (0%Z, EmptyString)
              end
          end
      end
  end.

(** [schtasks /Delete /TN "name" /F]: exit code and what it prints on stderr. *)
Definition schtasks_delete (name : string) : M (Z * string) :=
  spawn_shell ("schtasks /Delete /TN " +:+ dq +:+ name +:+ dq +:+ " /F") >>
  let* st := get in
  match sched_denied (os st) with
  | Some err => ret (1%Z, err)
  | None =>
      match tasks (os st) !! name with
      | None => ret (1%Z, "ERROR: The system cannot find the file specified.")
      | Some _ =>
          modify (set_os (with_tasks (delete name (tasks (os st))))) >>
          ret (0%Z, EmptyString)
      end
  end.

(** [taskkill /IM "process_name" /F] with captured output. *)
Definition taskkill (process_name : string) : M (Z * string) :=
  let* st0 := get in
  spawn_shell ("taskkill /IM " +:+ dq +:+ process_name +:+ dq +:+ " /F") >>
  match taskkill_outcome (os st0) (length (trace st0)) process_name with
  | Completed returncode stderr => ret (returncode, stderr)
  | RunRaised e => raise e
  end.

(** ** The batch table *)

Definition batch_list_file : string := "batch_list.json".
Definition config_file : string := "config.json".

(** [self.batch_table.setRowCount(0)] *)
Definition clear_rows : M unit := modify (set_ui (with_table [])).

(** [insertRow(rowCount())] followed by the two [setItem] calls. *)
Definition append_row (file_path : string) (s : status) : M unit :=
  modify (set_ui (fun a => with_table (batch_table a ++ [(file_path, s)]) a)).

(** [self.batch_table.setItem(row, 1, QTableWidgetItem(s))] *)
Definition set_status (row : nat) (s : status) : M unit :=
  modify (set_ui (fun a => with_table (alter (fun r => (r.1, s)) row (batch_table a)) a)).

(** [AutostartManager.load_logs]: the log text shown in the Logs tab is
    presentation; what remains is the log record it leaves. *)
Definition load_logs : M unit := logger_info "Loaded logs".

(** [AutostartManager.save_batch_list] *)
Definition save_batch_list : M unit :=
  let* st := get in
  let batch_items := paths st in
  try_except
    (write_file batch_list_file (Json (JArr batch_items)) >>
     logger_info "Saved batch list")
    (fun e =>
       logger_error ("Failed to save batch list: " +:+ exc_str e) >>
       QMessageBox_critical "Error" ("Failed to save batch list: " +:+ exc_str e)).

(** [for item in j]: the items of an array, the characters of a string,
    the keys of an object; anything else is not iterable. *)
Definition iterate (j : json) : M (list string) :=
  match j with
  | JArr items => ret items
  | JStr s => ret (chars s)
  | JObj members => ret (members.*1)
  | JScalar => raise (Exn TypeError "object is not iterable")
  end.

(** [settings.get(key, default)] *)
Definition dict_get (settings : json) (key : string) (default : json) : M json :=
  match settings with
  | JObj members => ret (members_get key members default)
  | _ => raise (Exn AttributeError "object has no attribute 'get'")
  end.

(** The body of the loop of [load_batch_list] for one item of the file. *)
Definition load_item (item : string) : M unit :=
  let* st := get in
  if is_valid_file (os st) item then
    append_row item
      (if bool_decide (is_Some (processes (ui st) !! item)) then Running else Stopped)
  else ret tt.

(** [AutostartManager.load_batch_list] *)
Definition load_batch_list : M unit :=
  try_except
    (let* st := get in
     if path_exists (os st) batch_list_file then
       let* batch_items := json_load batch_list_file in
       clear_rows >>
       let* items := iterate batch_items in
       for_each items load_item >>
       logger_info "Loaded batch list"
     else ret tt)
    (fun e =>
       logger_error ("Failed to load batch list: " +:+ exc_str e) >>
       QMessageBox_critical "Error" ("Failed to load batch list: " +:+ exc_str e)).

(** [AutostartManager.add_batch_file]; [file_path] is what the file dialog
    returned (empty when it was cancelled). *)
Definition add_batch_file (file_path : string) : M unit :=
  let* st := get in
  if negb (String.eqb file_path EmptyString) && is_valid_file (os st) file_path then
    if existsb (String.eqb file_path) (paths st) then
      logger_warning ("Attempted to add duplicate batch file: " +:+ file_path)
    else
      append_row file_path Stopped >>
      save_batch_list >>
      logger_info ("Added batch file: " +:+ file_path)
  else ret tt.

(** [QTableWidget.insertRow(row)] with the row's items set: a row index
    past the end is ignored by the widget. *)
Definition insert_row (row : nat) (r : string * status) (t : list (string * status))
  : list (string * status) :=
  if (row <=? length t)%nat then take row t ++ r :: drop row t else t.

(** The row move of [DragDropTableWidget.dropEvent] (lines 88-103), from
    the selected row [from_row] to the drop row [to_row]. *)
Definition reorder (from_row to_row : nat) : M unit :=
  if (from_row =? to_row)%nat || (from_row + 1 =? to_row)%nat then ret tt
  else
    let* st := get in
    match batch_table (ui st) !! from_row with
    | None => ret tt                (* a selected row is a row of the table *)
    | Some items =>
        let removed := delete from_row (batch_table (ui st)) in
        let to_row := if (from_row <? to_row)%nat then to_row - 1 else to_row in
        modify (set_ui (with_table (insert_row to_row items removed))) >>
        save_batch_list
    end.

(** [DragDropTableWidget.dropEvent] for a drag that started in the table
    itself: [selected_rows] are the rows of [selectedIndexes()], [rowAt]
    is the row under the cursor ([None] for the -1 below the last row). *)
Definition dropEvent (selected_rows : list nat) (rowAt : option nat) : M unit :=
  match selected_rows with
  | [] => ret tt
  | from_row :: _ =>
      let* st := get in
      let to_row := match rowAt with
                    | Some r => r
                    | None => length (batch_table (ui st))
                    end in
      reorder from_row to_row
  end.

(** ** The tracking map of launched processes *)

(** [self.processes[file_path] = process_name] *)
Definition track (file_path process_name : string) : M unit :=
  modify (set_ui (fun a => with_processes (<[file_path := process_name]> (processes a)) a)).

(** [del self.processes[file_path]] *)
Definition untrack (file_path : string) : M unit :=
  let* st := get in
  match processes (ui st) !! file_path with
  | None => raise (Exn KeyError ("'" +:+ file_path +:+ "'"))
  | Some _ => modify (set_ui (with_processes (delete file_path (processes (ui st)))))
  end.

(** The body of the loop of [start_all_batch] for one row. *)
Definition start_row (row : nat) : M unit :=
  let* st := get in
  match batch_table (ui st) !! row with
  | None => raise (Exn AttributeError "'NoneType' object has no attribute 'text'")
  | Some (file_path, _) =>
      let process_name := Py.basename file_path in
      try_except
        (Popen_shell file_path >>
         track file_path process_name >>
         set_status row Running >>
         logger_info ("Started batch process: " +:+ process_name))
        (fun e =>
           logger_error ("Failed to start batch process: " +:+ process_name
                         +:+ " - " +:+ exc_str e) >>
           QMessageBox_critical "Error"
             ("Failed to start " +:+ process_name +:+ ": " +:+ exc_str e) >>
           set_status row Stopped)
  end.

(** [AutostartManager.start_all_batch] *)
Definition start_all_batch : M unit :=
  modify (set_ui (with_processes ∅)) >>
  logger_info "Starting all batch processes" >>
  let* st := get in
  for_each (seq 0 (length (batch_table (ui st)))) start_row >>
  load_logs.

(** The body of the loop of [stop_all_batch] for one tracked process. *)
Definition stop_one (entry : string * string) : M unit :=
  let '(file_path, process_name) := entry in
  try_except
    (let* result := taskkill process_name in
     (if negb (result.1 =? 0)%Z then
        logger_warning ("Could not stop batch process: " +:+ process_name
                        +:+ " - " +:+ result.2) >>
        QMessageBox_warning "Warning"
          ("Could not stop " +:+ process_name +:+ ": " +:+ result.2)
      else
        logger_info ("Stopped batch process: " +:+ process_name)) >>
     untrack file_path)
    (fun e =>
       logger_error ("Failed to stop batch process: " +:+ process_name
                     +:+ " - " +:+ exc_str e) >>
       QMessageBox_critical "Error"
         ("Failed to stop " +:+ process_name +:+ ": " +:+ exc_str e) >>
       untrack file_path).

(** [AutostartManager.stop_all_batch].  The loop runs over a snapshot of
    the map, [list(self.processes.items())]; the map is a [gmap], so the
    snapshot is in key order where Python's is in insertion order. *)
Definition stop_all_batch : M unit :=
  logger_info "Stopping all batch processes" >>
  let* st := get in
  for_each (map_to_list (processes (ui st))) stop_one >>
  let* st := get in
  for_each (seq 0 (length (batch_table (ui st)))) (fun row => set_status row Stopped) >>
  load_logs.

(** ** Autostart entries *)

(** [AutostartManager.load_autostart_processes]: the rows of the autostart
    table are presentation; what remains are the two queries it sends (a
    Run key that does not open is skipped) and its log record. *)
Definition load_autostart_processes : M unit :=
  try_except (winreg_OpenKey >> ret tt)
             (fun e => match exc_type e with
                       | FileNotFoundError => ret tt
                       | _ => raise e
                       end) >>
  spawn_shell "schtasks /Query /FO CSV /V" >>
  logger_info "Loaded autostart processes".

(** [AutostartManager.add_to_registry] *)
Definition add_to_registry (file_path app_name : string) : M unit :=
  winreg_OpenKey >>
  let command := dq +:+ file_path +:+ dq in
  winreg_SetValueEx app_name command.

(** The task definition of [add_to_task_scheduler] (lines 677-717): the
    application name, the login name and the file path are pasted into the
    text as they are. *)
Definition task_xml (user_id file_path app_name : string) : string :=
  String.concat (String Py.newline EmptyString)
    [ "<?xml version=" +:+ dq +:+ "1.0" +:+ dq +:+ " encoding=" +:+ dq +:+ "UTF-16" +:+ dq +:+ "?>";
      "<Task version=" +:+ dq +:+ "1.2" +:+ dq +:+ " xmlns=" +:+ dq
        +:+ "http://schemas.microsoft.com/windows/2004/02/mit/task" +:+ dq +:+ ">";
      "  <RegistrationInfo>";
      "    <Description>Autostart task for " +:+ app_name +:+ "</Description>";
      "  </RegistrationInfo>";
      "  <Triggers>";
      "    <LogonTrigger>";
      "      <Enabled>true</Enabled>";
      "    </LogonTrigger>";
      "  </Triggers>";
      "  <Principals>";
      "    <Principal id=" +:+ dq +:+ "Author" +:+ dq +:+ ">";
      "      <RunLevel>HighestAvailable</RunLevel>";
      "      <UserId>" +:+ user_id +:+ "</UserId>";
      "    </Principal>";
      "  </Principals>";
      "  <Settings>";
      "    <MultipleInstancesPolicy>IgnoreNew</MultipleInstancesPolicy>";
      "    <DisallowStartIfOnBatteries>false</DisallowStartIfOnBatteries>";
      "    <StopIfGoingOnBatteries>false</StopIfGoingOnBatteries>";
      "    <AllowHardTerminate>true</AllowHardTerminate>";
      "    <StartWhenAvailable>false</StartWhenAvailable>";
      "    <RunOnlyIfNetworkAvailable>false</RunOnlyIfNetworkAvailable>";
      "    <IdleSettings>";
      "      <StopOnIdleEnd>true</StopOnIdleEnd>";
      "      <RestartOnIdle>false</RestartOnIdle>";
      "    </IdleSettings>";
      "    <AllowStartOnDemand>true</AllowStartOnDemand>";
      "    <Enabled>true</Enabled>";
      "    <Hidden>false</Hidden>";
      "    <RunOnlyIfIdle>false</RunOnlyIfIdle>";
      "    <WakeToRun>false</WakeToRun>";
      "    <ExecutionTimeLimit>PT72H</ExecutionTimeLimit>";
      "    <Priority>7</Priority>";
      "  </Settings>";
      "  <Actions Context=" +:+ dq +:+ "Author" +:+ dq +:+ ">";
      "    <Exec>";
      "      <Command>" +:+ dq +:+ file_path +:+ dq +:+ "</Command>";
      "    </Exec>";
      "  </Actions>";
      "</Task>" ].

(** [AutostartManager.add_to_task_scheduler]; [token] is
    [uuid.uuid4().hex[:8]]. *)
Definition add_to_task_scheduler (token file_path app_name : string) : M unit :=
  let task_name := "Autostart_" +:+ app_name +:+ "_" +:+ token in
  let* st := get in
  let task_xml := task_xml (login (os st)) file_path app_name in
  let temp_xml := task_name +:+ ".xml" in
  try_finally
    (write_file temp_xml (Text task_xml) >>
     let* result := schtasks_create temp_xml task_name in
     if negb (result.1 =? 0)%Z then
       raise (Exn PlainException ("Task creation error: " +:+ result.2))
     else ret tt)
    (let* st := get in
     if path_exists (os st) temp_xml then os_remove temp_xml else ret tt).

(** [AutostartManager.add_to_autostart]; the three widget values it reads
    are its arguments. *)
Definition add_to_autostart (token file_path app_name : string) (run_as_admin : bool)
  : M unit :=
  if String.eqb file_path EmptyString then
    logger_error "Attempted to add to autostart with missing file path" >>
    QMessageBox_critical "Error" "Specify file path!"
  else
    let '(is_valid, error_msg) := validate_app_name app_name in
    if negb is_valid then
      logger_error ("Invalid application name: " +:+ app_name +:+ " - " +:+ error_msg) >>
      QMessageBox_critical "Error" error_msg
    else
      let* st := get in
      if negb (path_exists (os st) file_path) then
        logger_error ("Attempted to add non-existent file to autostart: " +:+ file_path) >>
        QMessageBox_critical "Error" "The specified file does not exist!"
      else
        try_except
          ((if run_as_admin then
              add_to_task_scheduler token file_path app_name >>
              logger_info ("Added to autostart (Task Scheduler): " +:+ app_name
                           +:+ " - " +:+ file_path)
            else
              add_to_registry file_path app_name >>
              logger_info ("Added to autostart (Registry): " +:+ app_name
                           +:+ " - " +:+ file_path)) >>
           QMessageBox_information "Success"
             ("Application '" +:+ app_name +:+ "' added to autostart!") >>
           load_autostart_processes)
          (fun e =>
             logger_error ("Failed to add to autostart: " +:+ app_name +:+ " - "
                           +:+ file_path +:+ " - " +:+ exc_str e) >>
             QMessageBox_critical "Error" ("Failed to add to autostart: " +:+ exc_str e)).

(** [AutostartManager.remove_process]; [reply_yes] is the answer to the
    confirmation question. *)
Definition remove_process (reply_yes : bool) (source name : string) : M unit :=
  if negb reply_yes then ret tt
  else
    try_except
      ((if String.eqb source "Registry" then
          winreg_OpenKey >>
          winreg_DeleteValue name
        else if String.eqb source "Scheduler" then
          schtasks_delete name >> ret tt
        else ret tt) >>
       logger_info ("Removed from autostart: " +:+ name +:+ " (" +:+ source +:+ ")") >>
       QMessageBox_information "Success"
         ("Application '" +:+ name +:+ "' removed from autostart!") >>
       load_autostart_processes)
      (fun e =>
         logger_error ("Failed to remove from autostart: " +:+ name +:+ " - " +:+ exc_str e) >>
         QMessageBox_critical "Error" ("Failed to remove from autostart: " +:+ exc_str e)).

(** ** Settings export and import *)

(** [AutostartManager.apply_theme]: the style sheet is presentation. *)
Definition apply_theme : M unit :=
  let* st := get in
  logger_info ("Applied " +:+ current_theme (ui st) +:+ " theme").

(** [AutostartManager.save_theme] *)
Definition save_theme : M unit :=
  let* st := get in
  try_except
    (write_file config_file (Json (JObj [("theme", JStr (current_theme (ui st)))])) >>
     logger_info ("Saved theme preference: " +:+ current_theme (ui st)))
    (fun e =>
       logger_error ("Failed to save theme preference: " +:+ exc_str e) >>
       QMessageBox_critical "Error" ("Failed to save theme preference: " +:+ exc_str e)).

(** [AutostartManager.export_settings]; [file_path] is what the file dialog
    returned (empty when it was cancelled). *)
Definition export_settings (file_path : string) : M unit :=
  if String.eqb file_path EmptyString then ret tt
  else
    let* st := get in
    let settings := JObj [("batch_list", JArr (paths st));
                          ("theme", JStr (current_theme (ui st)))] in
    try_except
      (write_file file_path (Json settings) >>
       logger_info ("Exported settings to " +:+ file_path) >>
       QMessageBox_information "Success" "Settings exported successfully!")
      (fun e =>
         logger_error ("Failed to export settings: " +:+ exc_str e) >>
         QMessageBox_critical "Error" ("Failed to export settings: " +:+ exc_str e)).

(** The body of the loop of [import_settings] for one item of the bundle. *)
Definition import_item (item : string) : M unit :=
  let* st := get in
  if is_valid_file (os st) item then append_row item Stopped else ret tt.

(** [AutostartManager.import_settings]; [file_path] is what the file dialog
    returned (empty when it was cancelled). *)
Definition import_settings (file_path : string) : M unit :=
  if String.eqb file_path EmptyString then ret tt
  else
    try_except
      (let* settings := json_load file_path in
       clear_rows >>
       let* batch_list := dict_get settings "batch_list" (JArr []) in
       let* items := iterate batch_list in
       for_each items import_item >>
       save_batch_list >>
       let* theme := dict_get settings "theme" (JStr "light") in
       (match theme with
        | JStr t =>
            if String.eqb t "light" || String.eqb t "dark" then
              modify (set_ui (with_theme t)) >>
              apply_theme >>
              save_theme
            else ret tt
        | _ => ret tt
        end) >>
       logger_info ("Imported settings from " +:+ file_path) >>
       QMessageBox_information "Success" "Settings imported successfully!")
      (fun e =>
         logger_error ("Failed to import settings: " +:+ exc_str e) >>
         QMessageBox_critical "Error" ("Failed to import settings: " +:+ exc_str e)).

(** ** Further operations of the program *)

(** [except FileNotFoundError: handler] around [body]; any other exception
    passes through. *)
Definition try_except_FileNotFoundError {A} (body : M A) (handler : M A) : M A :=
  try_except body (fun e => match exc_type e with
                            | FileNotFoundError => handler
                            | _ => raise e
                            end).

(** [winreg.QueryValueEx(key, name)] *)
Definition winreg_QueryValueEx (name : string) : M string :=
  let* st := get in
  match run_key (os st) ≫= lookup name with
  | None => raise not_found
  | Some command => ret command
  end.

(** [AutostartManager.toggle_self_autostart]; [current_exe] is the path of
    the running program and [reply_yes] the answer to the confirmation
    question. *)
Definition toggle_self_autostart (current_exe : string) (reply_yes : bool) : M unit :=
  let app_name := "AutostartManager" in
  try_except
    (winreg_OpenKey >>
     try_except_FileNotFoundError
       (winreg_QueryValueEx app_name >>
        if reply_yes then
          winreg_OpenKey >>
          winreg_DeleteValue app_name >>
          logger_info "Removed Autostart Manager from autostart" >>
          QMessageBox_information "Success" "Autostart Manager removed from autostart!"
        else ret tt)
       (if reply_yes then
          winreg_OpenKey >>
          winreg_SetValueEx app_name (dq +:+ current_exe +:+ dq) >>
          logger_info "Added Autostart Manager to autostart" >>
          QMessageBox_information "Success" "Autostart Manager added to autostart!"
        else ret tt) >>
     load_autostart_processes)
    (fun e =>
       logger_error ("Failed to modify Autostart Manager autostart: " +:+ exc_str e) >>
       QMessageBox_critical "Error" ("Failed to modify autostart: " +:+ exc_str e)).

(** [AutostartManager.toggle_theme] *)
Definition toggle_theme : M unit :=
  let* st := get in
  let old_theme := current_theme (ui st) in
  modify (set_ui (with_theme (if String.eqb old_theme "light" then "dark" else "light"))) >>
  apply_theme >>
  save_theme >>
  let* st' := get in
  logger_info ("Toggled theme from " +:+ old_theme +:+ " to " +:+ current_theme (ui st')).

(** [sorted(set(rows), reverse=True)]: insertion of one row into a list
    that is strictly decreasing. *)
Fixpoint insert_desc (x : nat) (l : list nat) : list nat :=
  match l with
  | [] => [x]
  | y :: l' =>
      if (y <? x)%nat then x :: l
      else if (x =? y)%nat then l
      else y :: insert_desc x l'
  end.

Definition sorted_set_desc (l : list nat) : list nat := foldr insert_desc [] l.

(** The body of the loop of [remove_batch_file] for one row. *)
Definition remove_row (row : nat) : M unit :=
  let* st := get in
  match batch_table (ui st) !! row with
  | None => raise (Exn AttributeError "'NoneType' object has no attribute 'text'")
  | Some (file_path, _) =>
      modify (set_ui (with_table (delete row (batch_table (ui st))))) >>
      logger_info ("Removed batch file: " +:+ file_path)
  end.

(** [AutostartManager.remove_batch_file]; [selected] are the rows of
    [selectedIndexes()], one per selected cell. *)
Definition remove_batch_file (selected : list nat) : M unit :=
  let selected_rows := sorted_set_desc selected in
  match selected_rows with
  | [] =>
      logger_warning "No batch files selected for removal" >>
      QMessageBox_warning "Warning" "No items selected to remove!"
  | _ =>
      for_each selected_rows remove_row >>
      save_batch_list
  end.

(** [AutostartManager.remove_all_batch_files]; [reply_yes] is the answer to
    the confirmation question. *)
Definition remove_all_batch_files (reply_yes : bool) : M unit :=
  if reply_yes then
    clear_rows >>
    save_batch_list >>
    logger_info "Removed all batch files"
  else ret tt.

(** [DragDropTableWidget.dropEvent] for files dropped from outside the
    table (lines 105-126); [urls] are the local paths of the dropped files.
    A file already in the table ends the whole event. *)
Fixpoint dropEvent_files (urls : list string) : M unit :=
  match urls with
  | [] => ret tt
  | file_path :: rest =>
      let* st := get in
      if is_valid_file (os st) file_path then
        if existsb (String.eqb file_path) (paths st) then
          logger_warning ("Duplicate file dropped for batch: " +:+ file_path)
        else
          append_row file_path Stopped >>
          logger_info ("Dropped file for batch: " +:+ file_path) >>
          save_batch_list >>
          dropEvent_files rest
      else
        logger_warning ("Invalid file dropped for batch: " +:+ file_path) >>
        QMessageBox_warning "Warning"
          ("Invalid file: " +:+ file_path +:+ String Py.newline EmptyString
           +:+ "Only .exe, .bat, .cmd files are allowed.") >>
        dropEvent_files rest
  end.

(** ** Observations on a run *)

(** The events a computation adds to the trace when run from [st]. *)
Definition emitted {A} (m : M A) (st : state) : list event :=
  drop (length (trace st)) (trace (m st).2).

Definition is_success_box (e : event) : bool :=
  match e with
  | MessageBox Information _ _ => true
  | _ => false
  end.

Definition is_error_box (e : event) : bool :=
  match e with
  | MessageBox Critical _ _ => true
  | _ => false
  end.

(** ** Notions used in the statements *)

(** The characters [is_valid_file] refuses in a path. *)
Definition forbidden : list ascii := ["<"; ">"; "|"; "&"]%char.

(** The extension test of [is_valid_file]. *)
Definition approved_extension (p : string) : bool :=
  Py.endswith (Py.lower p) ".exe" || Py.endswith (Py.lower p) ".bat"
  || Py.endswith (Py.lower p) ".cmd".

(** Every character of [s] is in the class [[a-zA-Z0-9_-]]. *)
Fixpoint all_name_chars (s : string) : bool :=
  match s with
  | EmptyString => true
  | String c s' => name_char c && all_name_chars s'
  end.

(** The one-character string holding a newline. *)
Definition nl : string := String Py.newline EmptyString.

(** The common shape of [load_item] and [import_item]: a valid item gets a
    row whose status [g] computes from the application state. *)
Definition keep_valid (g : app -> string -> status) (item : string) : M unit :=
  let* st := get in
  if is_valid_file (os st) item then append_row item (g (ui st) item) else ret tt.

(** The status [load_batch_list] gives a row: [Running] for a tracked path. *)
Definition tracked_status (a : app) (item : string) : status :=
  if bool_decide (is_Some (processes a !! item)) then Running else Stopped.

(** Table rows for [items], with the status [g] gives each of them. *)
Definition rows (g : string -> status) (items : list string) : list (string * status) :=
  map (fun p => (p, g p)) items.

(** What [for item in j] runs over, when [j] is iterable. *)
Definition items_of (j : json) : list string :=
  match j with
  | JArr items => items
  | JStr s => chars s
  | JObj members => members.*1
  | JScalar => []
  end.

(** The operating system once the table of [st] is written to the batch file. *)
Definition saved_world (st : state) : world :=
  with_files (<[batch_list_file := Json (JArr (paths st))]> (files (os st))) (os st).

(** [Save] on the current table followed by [Load]. *)
Definition save_then_load (st : state) : state :=
  (load_batch_list (save_batch_list st).2).2.

(** The theme after an import whose bundle carries [v] under ["theme"]. *)
Definition imported_theme (v : json) (current : string) : string :=
  match v with
  | JStr t => if String.eqb t "light" || String.eqb t "dark" then t else current
  | _ => current
  end.

(** A settings bundle as the file formats describe it: an object whose
    [batch_list] member is an array of strings and whose [theme] member is
    a string. *)
Definition well_formed_bundle (j : json) (items : list string) (theme : string) : Prop :=
  exists members,
    j = JObj members
    /\ members_get "batch_list" members JScalar = JArr items
    /\ members_get "theme" members JScalar = JStr theme.

(** The box that ends a successful import. *)
Definition success_box : event :=
  MessageBox Information "Success" "Settings imported successfully!".

(** A row after its launch. *)
Definition set_running (r : string * status) : string * status := (r.1, Running).

(** The tracking map after launching every row of [t] in turn. *)
Definition track_all (t : list (string * status)) (m : gmap string string)
  : gmap string string :=
  foldl (fun m r => <[r.1 := Py.basename r.1]> m) m t.

(** The map left when the keys of [l] are deleted one after the other. *)
Fixpoint delete_keys (l : list (string * string)) (m : gmap string string)
  : gmap string string :=
  match l with
  | [] => m
  | kv :: l' => delete_keys l' (delete kv.1 m)
  end.

(** The operating system after one confirmed [remove_process]. *)
Definition after_remove (source name : string) (w : world) : world :=
  if String.eqb source "Registry" then
    match run_key w with
    | Some values => with_run_key (Some (delete name values)) w
    | None => w
    end
  else if String.eqb source "Scheduler" then
    if shell_available w then
      match sched_denied w with
      | None => with_tasks (delete name (tasks w)) w
      | Some _ => w
      end
    else w
  else w.

(** The box [remove_process] shows when the backend raised [e]. *)
Definition remove_failed_box (e : exn) : event :=
  MessageBox Critical "Error" ("Failed to remove from autostart: " +:+ exc_str e).

(** ** Sample machines for the examples *)

(** The text of [s] between the first [opening] and the [closing] that
    follows it. *)
Definition between (opening closing s : string) : option string :=
  match index 0 opening s with
  | None => None
  | Some i =>
      let rest := Py.str_drop (i + String.length opening) s in
      match index 0 closing rest with
      | None => None
      | Some j => Some (Py.str_take j rest)
      end
  end.

(** A scheduler that takes the text of the [Command] element as the
    command when it holds neither [<] nor [&], and rejects the document
    otherwise. *)
Definition plain_reader (c : content) : definition_reading :=
  match c with
  | Text xml =>
      match between "<Command>" "</Command>" xml with
      | Some command =>
          if Py.any_in "<&" command
          then Rejected "ERROR: The task XML is malformed."
          else Runs command
      | None => Rejected "ERROR: The task XML is malformed."
      end
  | _ => Rejected "ERROR: The task XML is malformed."
  end.

(** A machine with no files, an empty Run key, a willing scheduler that
    reads definitions as [plain_reader] does, a command interpreter, and a
    taskkill that always succeeds. *)
Definition quiet_world : world :=
  World ∅ ∅ (Some ∅) ∅ None true (fun _ _ => Completed 0 EmptyString)
        "me" plain_reader.

(** An executable that is on disk in the sample machines below. *)
Definition good_exe : string := "C:\Tools\good.exe".

(** An executable that is on no disk. *)
Definition gone_exe : string := "C:\Tools\gone.exe".

(** An executable with an ampersand in its name. *)
Definition amp_exe : string := "C:\Tools\R&D.exe".

(** A file that holds a settings bundle. *)
Definition settings_file : string := "C:\Users\me\settings.json".

(** A file that holds no JSON document. *)
Definition broken_file : string := "C:\Users\me\broken.json".

(** The name of a scheduled task the program created. *)
Definition my_app_task : string := "Autostart_MyApp_0a1b2c3d".

(** The name [abc] followed by a newline. *)
Definition name_with_newline : string := "abc" +:+ nl.

(** The same machine with [good_exe] on disk. *)
Definition tools_world : world := with_files {[ good_exe := Blob ]} quiet_world.

(** A session whose table lists a file that is no longer on disk. *)
Definition st_gone : state :=
  State (App [(gone_exe, Stopped)] ∅ "light") quiet_world [].

(** A session whose table lists one file, present on disk. *)
Definition st_good : state :=
  State (App [(good_exe, Stopped)] ∅ "light") tools_world [].

(** The batch list of the specification's reorder example. *)
Definition st_two : state :=
  State (App [("C:\a.exe", Stopped); ("C:\b.exe", Stopped)] ∅ "light") quiet_world [].

(** A batch of one launchable file and one file that does not exist. *)
Definition st_batch : state :=
  State (App [(good_exe, Stopped); (gone_exe, Stopped)] ∅ "light") tools_world [].

(** The same batch on a machine whose command interpreter cannot be started. *)
Definition st_no_shell : state :=
  State (ui st_batch)
        (World (files tools_world) ∅ (Some ∅) ∅ None false
               (fun _ _ => Completed 0 EmptyString) "me" plain_reader)
        [].

(** The bundle of the specification's example. *)
Definition example_bundle : json :=
  JObj [("batch_list", JArr [good_exe; "C:\missing.txt"]); ("theme", JStr "dark")].

(** A session with [good_exe] in the table and on disk, next to an
    executable with an ampersand in its name, the example bundle, a file
    that is not JSON, and a saved batch list naming both executables. *)
Definition st_import : state :=
  State (App [(good_exe, Stopped)] ∅ "light")
        (with_files (<[settings_file := Json example_bundle]>
                     (<[broken_file := Blob]>
                      (<[amp_exe := Blob]>
                       (<[batch_list_file := Json (JArr [amp_exe; good_exe])]>
                        (files tools_world)))))
                    tools_world)
        [].

(** A session that tracks [good_exe], on a machine where taskkill finds no
    such process. *)
Definition st_stubborn : state :=
  State (App [(good_exe, Running)] {[ good_exe := "good.exe" ]} "light")
        (World (files tools_world) ∅ (Some ∅) ∅ None true
               (fun _ _ => Completed 128 "ERROR: The process was not found.")
               "me" plain_reader)
        [].

(** A machine with one Run value, [MyApp]. *)
Definition st_registry : state :=
  State (App [] ∅ "light")
        (with_run_key (Some {[ "MyApp" := dq +:+ good_exe +:+ dq ]}) tools_world)
        [].

(** A machine with one scheduled task of the program, whose scheduler
    refuses requests. *)
Definition st_denied : state :=
  State (App [] ∅ "light")
        (World (files tools_world) ∅ (Some ∅)
               {[ my_app_task := dq +:+ good_exe +:+ dq ]}
               (Some "ERROR: Access is denied.") true
               (fun _ _ => Completed 0 EmptyString) "me" plain_reader)
        [].

(** The name [add_to_task_scheduler] gives the task of [app_name]. *)
Definition task_name_of (app_name token : string) : string :=
  "Autostart_" +:+ app_name +:+ "_" +:+ token.

(** The box that ends a successful [add_to_autostart]. *)
Definition added_box (app_name : string) : event :=
  MessageBox Information "Success" ("Application '" +:+ app_name +:+ "' added to autostart!").

(** A row after a failed launch, or after [stop_all_batch]. *)
Definition set_stopped (r : string * status) : string * status := (r.1, Stopped).

(** The batch file holds exactly the paths of the table, in order. *)
Definition in_sync (st : state) : Prop :=
  files (os st) !! batch_list_file = Some (Json (JArr (paths st))).


(** A session like [st_import] whose table lists the two executables of
    its batch file, the first one tracked. *)
Definition st_tracking : state :=
  State (App [(good_exe, Running)] {[ good_exe := "good.exe" ]} "dark")
        (with_files (<[batch_list_file := Json (JArr [good_exe; gone_exe])]>
                       (files tools_world))
                    tools_world)
        [].


(** The rows of [t] whose index, counted from [i], is not in [sel]. *)
Fixpoint omit_from {A} (i : nat) (sel : list nat) (t : list A) : list A :=
  match t with
  | [] => []
  | x :: t' =>
      if bool_decide (i ∈ sel) then omit_from (S i) sel t'
      else x :: omit_from (S i) sel t'
  end.

(** The rows of [t] whose index is not in [sel]. *)
Definition omit {A} (sel : list nat) (t : list A) : list A := omit_from 0 sel t.

(** A list of rows in strictly decreasing order. *)
Fixpoint decreasing (l : list nat) : Prop :=
  match l with
  | [] => True
  | x :: l' => Forall (fun y => (y < x)%nat) l' /\ decreasing l'
  end.

(** A JSON document [import_settings] cannot take a batch list from: not
    an object, or an object whose [batch_list] is [null], a number or a
    boolean. *)
Definition no_batch_list (j : json) : Prop :=
  match j with
  | JObj members => members_get "batch_list" members (JArr []) = JScalar
  | _ => True
  end.



(** The value the program keeps in the Run key for itself. *)
Definition self_name : string := "AutostartManager".

(** The theme [toggle_theme] switches to from [t]. *)
Definition other_theme (t : string) : string :=
  if String.eqb t "light" then "dark" else "light".

(** The path of the running program in the examples. *)
Definition manager_exe : string := "C:\Tools\AutostartManager.exe".

(** The command line [stop_all_batch] runs for the image [process_name]. *)
Definition taskkill_command (process_name : string) : string :=
  "taskkill /IM " +:+ dq +:+ process_name +:+ dq +:+ " /F".

(** * Properties *)


(** ** The checks on small inputs *)

Example basename_drive : Py.basename "C:\Tools\good.exe" = "good.exe".
Proof. reflexivity. Qed.

Example basename_slash : Py.basename "tools/run.bat" = "run.bat".
Proof. reflexivity. Qed.

Example valid_upper_case_extension :
  is_valid_file (with_files {[ "C:\RUN.CMD" := Blob ]} quiet_world) "C:\RUN.CMD" = true.
Proof. vm_compute. reflexivity. Qed.

Example invalid_text_file :
  is_valid_file (with_files {[ "C:\notes.txt" := Blob ]} quiet_world) "C:\notes.txt" = false.
Proof. vm_compute. reflexivity. Qed.

Example invalid_missing_file : is_valid_file tools_world gone_exe = false.
Proof. vm_compute. reflexivity. Qed.

Example name_with_space_rejected : (validate_app_name "my app").1 = false.
Proof. reflexivity. Qed.

Example name_with_slash_rejected : (validate_app_name "a/b").1 = false.
Proof. reflexivity. Qed.

Example plain_name_accepted : validate_app_name "My_App-2" = (true, EmptyString).
Proof. reflexivity. Qed.

(** ** Validity of paths *)

Lemma contains_In (c : ascii) (s : string) :
  Py.contains c s = true <-> In c (list_ascii_of_string s).
Proof.
  induction s as [|d s IH]; simpl.
  - split; [discriminate | tauto].
  - rewrite orb_true_iff, IH, Ascii.eqb_eq. split; intros [H|H]; auto.
Qed.

Lemma forbidden_char_found (c : ascii) (p : string) :
  In c forbidden -> In c (list_ascii_of_string p) -> Py.any_in "<>|&" p = true.
Proof.
  intros Hc Hp. apply contains_In in Hp.
  unfold forbidden in Hc. simpl in Hc. simpl.
  destruct Hc as [<-|[<-|[<-|[<-|[]]]]]; rewrite Hp; simpl;
    rewrite ?orb_true_r; reflexivity.
Qed.

Lemma is_valid_file_spec (w : world) (p : string) :
  is_valid_file w p = path_exists w p && approved_extension p && negb (Py.any_in "<>|&" p).
Proof. reflexivity. Qed.

Lemma forbidden_char_invalid (w : world) (c : ascii) (p : string) :
  In c forbidden -> In c (list_ascii_of_string p) -> is_valid_file w p = false.
Proof.
  intros Hc Hp. rewrite is_valid_file_spec, (forbidden_char_found c p Hc Hp).
  apply andb_false_r.
Qed.

(** Writing a file that has no approved extension changes the validity of
    no path. *)
Lemma is_valid_file_write (w : world) (f : string) (c : content) (p : string) :
  approved_extension f = false ->
  is_valid_file (with_files (<[f := c]> (files w)) w) p = is_valid_file w p.
Proof.
  intros Hf. rewrite !is_valid_file_spec.
  destruct (decide (p = f)) as [->|Hne].
  - rewrite Hf. now rewrite !andb_false_r.
  - unfold path_exists. simpl. now rewrite lookup_insert_ne.
Qed.

(** Unfolding the monad and the record updates, once the state is a
    constructor application. *)
Ltac run_m :=
  repeat progress
    (cbv beta iota zeta delta
       [bind get ret raise try_except try_finally modify emit
        set_ui set_os with_table with_processes with_theme paths
        append_row clear_rows set_status track
        logger_info logger_warning logger_error
        QMessageBox_information QMessageBox_warning QMessageBox_critical];
     cbn [ui os trace batch_table processes current_theme fst snd]).

(** ** Loops that keep the valid items *)

Lemma load_item_keep_valid : load_item = keep_valid tracked_status.
Proof. reflexivity. Qed.

Lemma import_item_keep_valid : import_item = keep_valid (fun _ _ => Stopped).
Proof. reflexivity. Qed.

Lemma rows_paths g items : (rows g items).*1 = items.
Proof.
  unfold rows. rewrite <- list_fmap_compose.
  induction items as [|x l IH]; csimpl; [done | by rewrite IH].
Qed.

Lemma for_each_keep_valid g items st :
  (forall a t, g (with_table t a) = g a) ->
  for_each items (keep_valid g) st =
  (Ok tt,
   set_ui (fun a => with_table
             (batch_table a ++ rows (g (ui st)) (List.filter (is_valid_file (os st)) items)) a)
          st).
Proof.
  intros Hg. revert st.
  induction items as [|item items IH]; intros st.
  - destruct st as [[t m th] w tr]. unfold set_ui, with_table. simpl.
    now rewrite app_nil_r.
  - simpl. unfold bind at 1. unfold keep_valid at 1. unfold bind, get.
    destruct (is_valid_file (os st) item) eqn:Hv.
    + unfold append_row, modify. rewrite IH.
      destruct st as [[t m th] w tr]. unfold set_ui. simpl.
      rewrite (Hg (App t m th)). unfold with_table. simpl.
      now rewrite <- app_assoc.
    + unfold ret. apply IH.
Qed.

(** ** Saving and loading the batch list *)

Lemma save_batch_list_writable st :
  batch_list_file ∉ readonly (os st) ->
  save_batch_list st =
  (Ok tt,
   State (ui st) (saved_world st)
         (trace st ++ [FileWritten batch_list_file (Json (JArr (paths st)));
                       Logged INFO "Saved batch list"])).
Proof.
  intros Hw. unfold save_batch_list, try_except, write_file, bind, get.
  rewrite bool_decide_eq_false_2 by exact Hw.
  unfold logger_info, emit, modify, set_os, saved_world. simpl.
  now rewrite <- app_assoc.
Qed.

Lemma save_batch_list_refused st :
  batch_list_file ∈ readonly (os st) ->
  exists msg,
    save_batch_list st =
    (Ok tt,
     State (ui st) (os st)
           (trace st ++ [Logged ERROR ("Failed to save batch list: " +:+ msg);
                         MessageBox Critical "Error" ("Failed to save batch list: " +:+ msg)])).
Proof.
  intros Hw. eexists. unfold save_batch_list, try_except, write_file, bind, get.
  rewrite bool_decide_eq_true_2 by exact Hw.
  unfold raise, logger_error, QMessageBox_critical, emit, modify. simpl.
  now rewrite <- app_assoc.
Qed.

(** Saving never raises and touches neither the table, the tracking map
    nor the theme. *)
Lemma save_batch_list_ui st :
  (save_batch_list st).1 = Ok tt /\ ui (save_batch_list st).2 = ui st.
Proof.
  destruct (decide (batch_list_file ∈ readonly (os st))) as [H|H].
  - destruct (save_batch_list_refused st H) as [msg ->]. auto.
  - rewrite (save_batch_list_writable st H). auto.
Qed.

Lemma batch_list_file_not_executable : approved_extension batch_list_file = false.
Proof. reflexivity. Qed.

Lemma is_valid_file_saved st p :
  is_valid_file (saved_world st) p = is_valid_file (os st) p.
Proof. apply is_valid_file_write, batch_list_file_not_executable. Qed.

Lemma tracked_status_table a t : tracked_status (with_table t a) = tracked_status a.
Proof. reflexivity. Qed.

(** Loading a batch file that holds a JSON document: the table becomes the
    valid items of the document, in order. *)
Lemma load_batch_list_json st j :
  files (os st) !! batch_list_file = Some (Json j) ->
  (load_batch_list st).1 = Ok tt
  /\ os (load_batch_list st).2 = os st
  /\ processes (ui (load_batch_list st).2) = processes (ui st)
  /\ current_theme (ui (load_batch_list st).2) = current_theme (ui st)
  /\ batch_table (ui (load_batch_list st).2) =
     rows (tracked_status (ui st)) (List.filter (is_valid_file (os st)) (items_of j)).
Proof.
  intros Hf. destruct st as [[t m th] w tr]. simpl in Hf.
  assert (Hex : path_exists w batch_list_file = true).
  { unfold path_exists. rewrite Hf. apply bool_decide_eq_true_2. eauto. }
  unfold load_batch_list, json_load, clear_rows, iterate. run_m.
  rewrite Hex. run_m. rewrite Hf. run_m.
  destruct j as [|s|items|members]; run_m; [by simpl | ..];
    rewrite load_item_keep_valid, (for_each_keep_valid _ _ _ tracked_status_table);
    run_m; by simpl.
Qed.

(** Loading when the batch file is missing or unreadable leaves the
    application state and the operating system as they were. *)
Lemma load_batch_list_unread st :
  files (os st) !! batch_list_file = None \/ files (os st) !! batch_list_file = Some Blob ->
  (load_batch_list st).1 = Ok tt
  /\ ui (load_batch_list st).2 = ui st /\ os (load_batch_list st).2 = os st.
Proof.
  intros Hf. destruct st as [[t m th] w tr]. simpl in Hf.
  unfold load_batch_list, json_load, path_exists. run_m.
  destruct Hf as [Hf|Hf]; rewrite Hf.
  - rewrite bool_decide_eq_false_2 by apply is_Some_None. by simpl.
  - rewrite bool_decide_eq_true_2 by eauto. run_m. rewrite Hf. by run_m.
Qed.

(** The same for a batch file that holds a text that is not JSON. *)
Lemma load_batch_list_text st text :
  files (os st) !! batch_list_file = Some (Text text) ->
  (load_batch_list st).1 = Ok tt
  /\ ui (load_batch_list st).2 = ui st /\ os (load_batch_list st).2 = os st.
Proof.
  intros Hf. destruct st as [[t m th] w tr]. simpl in Hf.
  unfold load_batch_list, json_load, path_exists. run_m. rewrite Hf.
  rewrite bool_decide_eq_true_2 by eauto. run_m. rewrite Hf. by run_m.
Qed.

Lemma filter_all_true {A} (f : A -> bool) (l : list A) :
  Forall (fun x => f x = true) l -> List.filter f l = l.
Proof.
  induction 1 as [|x l Hx _ IH]; simpl; [reflexivity|]. now rewrite Hx, IH.
Qed.

Lemma save_then_load_paths st :
  batch_list_file ∉ readonly (os st) ->
  paths (save_then_load st) = List.filter (is_valid_file (os st)) (paths st).
Proof.
  intros Hw. unfold save_then_load. rewrite (save_batch_list_writable st Hw).
  cbn [snd].
  match goal with |- paths (load_batch_list ?s).2 = _ =>
    destruct (load_batch_list_json s (JArr (paths st))) as (_ & _ & _ & _ & Ht)
  end.
  { unfold saved_world. simpl. apply lookup_insert_eq. }
  unfold paths at 1. rewrite Ht. cbn [os ui items_of].
  rewrite rows_paths. apply filter_ext. intros p. apply is_valid_file_saved.
Qed.

(** C1, as stated: the round trip fails on the one-element list
    [[gone_exe]], whose file does not exist: the list is non-empty, has no
    duplicates, is written, and [Load] brings back the empty list. *)
Lemma save_load_roundtrip_fails_on_missing_file :
  paths st_gone <> []
  /\ NoDup (paths st_gone)
  /\ files (os (save_batch_list st_gone).2) !! batch_list_file
     = Some (Json (JArr (paths st_gone)))
  /\ paths (save_then_load st_gone) = []
  /\ paths (save_then_load st_gone) <> paths st_gone.
Proof.
  split; [discriminate|]. split.
  { apply NoDup_cons. split; [apply not_elem_of_nil | apply NoDup_nil_2]. }
  split; [by vm_compute|]. split; [by vm_compute|].
  vm_compute. discriminate.
Qed.

(** C1, amended: when [Save] writes the file, [Load] returns the paths of
    the saved list that pass [is_valid_file], in the saved order; it
    returns the saved list itself when all its paths pass. *)
Theorem save_load_roundtrip_valid (st : state) :
  batch_list_file ∉ readonly (os st) ->
  paths (save_then_load st) = List.filter (is_valid_file (os st)) (paths st)
  /\ (Forall (fun p => is_valid_file (os st) p = true) (paths st) ->
      paths (save_then_load st) = paths st).
Proof.
  intros Hw. split.
  - apply save_then_load_paths, Hw.
  - intros Hall. rewrite (save_then_load_paths st Hw). now apply filter_all_true.
Qed.

Lemma save_load_roundtrip_valid_witness :
  (batch_list_file ∉ readonly (os st_good))
  /\ Forall (fun p => is_valid_file (os st_good) p = true) (paths st_good)
  /\ paths (save_then_load st_good) = [good_exe].
Proof.
  assert (Hw : batch_list_file ∉ readonly (os st_good)) by apply not_elem_of_empty.
  assert (Hall : Forall (fun p => is_valid_file (os st_good) p = true) (paths st_good)).
  { repeat constructor. }
  split; [exact Hw|]. split; [exact Hall|].
  exact (proj2 (save_load_roundtrip_valid st_good Hw) Hall).
Defined.

(** ** Importing settings *)

Lemma save_theme_ui st :
  (save_theme st).1 = Ok tt /\ ui (save_theme st).2 = ui st.
Proof.
  unfold save_theme, write_file. run_m.
  destruct (bool_decide (config_file ∈ readonly (os st))); run_m; auto.
Qed.

Lemma members_get_present key ms d v :
  members_get key ms JScalar = v -> v <> JScalar -> members_get key ms d = v.
Proof.
  induction ms as [|[k x] ms IH]; simpl; intros H Hv.
  - congruence.
  - destruct (String.eqb k key); auto.
Qed.

(** An import from an object whose batch list can be iterated over. *)
Lemma import_settings_object st f members :
  f <> EmptyString ->
  files (os st) !! f = Some (Json (JObj members)) ->
  members_get "batch_list" members (JArr []) <> JScalar ->
  (import_settings f st).1 = Ok tt
  /\ batch_table (ui (import_settings f st).2) =
     rows (fun _ => Stopped)
          (List.filter (is_valid_file (os st))
                       (items_of (members_get "batch_list" members (JArr []))))
  /\ processes (ui (import_settings f st).2) = processes (ui st)
  /\ current_theme (ui (import_settings f st).2) =
     imported_theme (members_get "theme" members (JStr "light")) (current_theme (ui st))
  /\ last (trace (import_settings f st).2) = Some success_box.
Proof.
  intros Hne Hf Hv.
  unfold import_settings. rewrite (proj2 (String.eqb_neq f EmptyString) Hne).
  unfold json_load, clear_rows, dict_get. run_m. rewrite Hf. run_m.
  assert (Hit : iterate (members_get "batch_list" members (JArr [])) =
                ret (items_of (members_get "batch_list" members (JArr [])))).
  { destruct (members_get "batch_list" members (JArr [])); [congruence | reflexivity..]. }
  rewrite Hit. run_m.
  rewrite import_item_keep_valid,
    (for_each_keep_valid (fun _ _ => Stopped) _ _ (fun _ _ => eq_refl)).
  run_m.
  match goal with |- context [save_batch_list ?s] =>
    destruct (save_batch_list_ui s) as [Hr Hu];
    destruct (save_batch_list s) as [r [u1 w1 tr1]]
  end.
  cbn [fst snd ui] in Hr, Hu. subst r u1. run_m.
  unfold imported_theme, success_box.
  destruct (members_get "theme" members (JStr "light")) as [|t0|?|?]; run_m;
    try (rewrite last_snoc; by simpl).
  destruct (String.eqb t0 "light" || String.eqb t0 "dark"); run_m;
    try (rewrite last_snoc; by simpl).
  unfold apply_theme. run_m.
  match goal with |- context [save_theme ?s] =>
    destruct (save_theme_ui s) as [Hr Hu];
    destruct (save_theme s) as [r [u1 w1' tr1']]
  end.
  cbn [fst snd ui] in Hr, Hu. subst r u1. run_m.
  rewrite last_snoc. by simpl.
Qed.

Lemma filter_valid_Forall w items :
  Forall (fun p => is_valid_file w p = true) (List.filter (is_valid_file w) items).
Proof.
  apply List.Forall_forall. intros p Hp. now apply filter_In in Hp.
Qed.

(** Whatever JSON document an import reads, the rows it leaves in the
    table are valid paths. *)
Lemma import_settings_json_valid st f j :
  f <> EmptyString ->
  files (os st) !! f = Some (Json j) ->
  Forall (fun p => is_valid_file (os st) p = true) (paths (import_settings f st).2).
Proof.
  intros Hne Hf.
  assert (Hempty :
    forall members, j = JObj members ->
      members_get "batch_list" members (JArr []) <> JScalar ->
      Forall (fun p => is_valid_file (os st) p = true) (paths (import_settings f st).2)).
  { intros members -> Hv.
    destruct (import_settings_object st f members Hne Hf Hv) as (_ & Ht & _).
    unfold paths. rewrite Ht.
    change (map fst ?l) with (l.*1). rewrite rows_paths. apply filter_valid_Forall. }
  destruct j as [|s|items|members];
    try (unfold import_settings; rewrite (proj2 (String.eqb_neq f EmptyString) Hne);
         unfold json_load, clear_rows, dict_get; run_m; rewrite Hf; run_m;
         by constructor).
  destruct (members_get "batch_list" members (JArr [])) eqn:Hb;
    try (apply (Hempty members eq_refl); rewrite Hb; discriminate).
  unfold import_settings. rewrite (proj2 (String.eqb_neq f EmptyString) Hne).
  unfold json_load, clear_rows, dict_get. run_m. rewrite Hf. run_m.
  rewrite Hb. unfold iterate. run_m. by constructor.
Qed.

(** An import that cannot read a JSON document leaves the table alone. *)
Lemma import_settings_unread st f :
  f = EmptyString \/ files (os st) !! f = None \/ files (os st) !! f = Some Blob ->
  (import_settings f st).1 = Ok tt
  /\ ui (import_settings f st).2 = ui st
  /\ os (import_settings f st).2 = os st.
Proof.
  intros H. unfold import_settings.
  destruct (String.eqb f EmptyString) eqn:He; [by run_m|].
  destruct H as [->|H]; [discriminate|].
  unfold json_load. run_m. destruct H as [-> | ->]; by run_m.
Qed.

(** The same for a file that holds a text that is not JSON. *)
Lemma import_settings_text st f text :
  f <> EmptyString ->
  files (os st) !! f = Some (Text text) ->
  (import_settings f st).1 = Ok tt
  /\ ui (import_settings f st).2 = ui st
  /\ os (import_settings f st).2 = os st.
Proof.
  intros Hne Hf. unfold import_settings.
  rewrite (proj2 (String.eqb_neq f EmptyString) Hne).
  unfold json_load. run_m. rewrite Hf. by run_m.
Qed.

(** ** Adding a file to the batch *)

Lemma add_batch_file_invalid st p :
  is_valid_file (os st) p = false -> add_batch_file p st = (Ok tt, st).
Proof.
  intros Hv. unfold add_batch_file. run_m. rewrite Hv, andb_false_r. by run_m.
Qed.

Lemma is_valid_file_nonempty w p : is_valid_file w p = true -> p <> EmptyString.
Proof.
  intros Hv ->. rewrite is_valid_file_spec in Hv.
  change (approved_extension EmptyString) with false in Hv.
  now rewrite andb_false_r in Hv.
Qed.

(** On an empty table, [add_batch_file] lists [p] exactly when [p] is valid. *)
Lemma add_batch_file_empty_table st p :
  In p (paths (add_batch_file p (set_ui (with_table []) st)).2)
  <-> is_valid_file (os st) p = true.
Proof.
  unfold add_batch_file. run_m.
  destruct (is_valid_file (os st) p) eqn:Hv.
  - rewrite (proj2 (String.eqb_neq p EmptyString) (is_valid_file_nonempty _ _ Hv)).
    cbn [negb andb existsb map]. run_m.
    match goal with |- context [save_batch_list ?s] =>
      destruct (save_batch_list_ui s) as [Hr Hu];
      destruct (save_batch_list s) as [r [u1 w1 tr1]]
    end.
    cbn [fst snd ui] in Hr, Hu. subst r u1. run_m. simpl. tauto.
  - rewrite andb_false_r. run_m. simpl. split; [tauto | discriminate].
Qed.

(** What [export_settings] writes is a well-formed bundle of the table and
    the theme. *)
Lemma export_settings_well_formed st f :
  f <> EmptyString ->
  f ∉ readonly (os st) ->
  exists j,
    files (os (export_settings f st).2) !! f = Some (Json j)
    /\ well_formed_bundle j (paths st) (current_theme (ui st)).
Proof.
  intros Hne Hw. unfold export_settings, write_file.
  rewrite (proj2 (String.eqb_neq f EmptyString) Hne). run_m.
  rewrite (bool_decide_eq_false_2 _ Hw). run_m.
  cbn [files with_files]. rewrite lookup_insert_eq.
  eexists. split; [reflexivity|]. eexists. split; [reflexivity|]. split; reflexivity.
Qed.

(** ** Claims about importing, loading and adding *)

(** C8: from a well-formed bundle, the import does not fail, the table
    holds exactly the entries of the bundle that pass [is_valid_file], in
    order; an entry is kept exactly when [add_batch_file] would list it in
    an empty table; a theme other than [light] and [dark] leaves the
    current theme as it was, and [light] or [dark] becomes the theme. *)
Theorem import_keeps_valid_entries
    (st : state) (f : string) (j : json) (items : list string) (theme : string) :
  f <> EmptyString ->
  files (os st) !! f = Some (Json j) ->
  well_formed_bundle j items theme ->
  (import_settings f st).1 = Ok tt
  /\ last (trace (import_settings f st).2) = Some success_box
  /\ paths (import_settings f st).2 = List.filter (is_valid_file (os st)) items
  /\ (forall p, In p items ->
        (In p (paths (import_settings f st).2)
         <-> In p (paths (add_batch_file p (set_ui (with_table []) st)).2)))
  /\ (theme <> "light" -> theme <> "dark" ->
        current_theme (ui (import_settings f st).2) = current_theme (ui st))
  /\ (theme = "light" \/ theme = "dark" ->
        current_theme (ui (import_settings f st).2) = theme).
Proof.
  intros Hne Hf (members & -> & Hb & Ht).
  apply (members_get_present _ _ (JArr [])) in Hb; [|discriminate].
  apply (members_get_present _ _ (JStr "light")) in Ht; [|discriminate].
  destruct (import_settings_object st f members Hne Hf) as (Hr & Htab & _ & Hth & Hlast).
  { rewrite Hb. discriminate. }
  rewrite Hb in Htab. rewrite Ht in Hth. cbn [items_of] in Htab.
  assert (Hp : paths (import_settings f st).2 = List.filter (is_valid_file (os st)) items).
  { unfold paths. rewrite Htab. change (map fst ?l) with (l.*1). apply rows_paths. }
  repeat split; try assumption.
  - rewrite Hp. intros Hin. apply add_batch_file_empty_table.
    now apply filter_In in Hin.
  - rewrite Hp. intros Hin. apply add_batch_file_empty_table in Hin.
    apply filter_In. tauto.
  - intros Hl Hd. rewrite Hth. unfold imported_theme.
    rewrite (proj2 (String.eqb_neq theme "light") Hl),
            (proj2 (String.eqb_neq theme "dark") Hd).
    reflexivity.
  - intros Hld. rewrite Hth. unfold imported_theme.
    destruct Hld as [-> | ->]; reflexivity.
Qed.

Lemma import_keeps_valid_entries_witness :
  settings_file <> EmptyString
  /\ files (os st_import) !! settings_file = Some (Json example_bundle)
  /\ well_formed_bundle example_bundle [good_exe; "C:\missing.txt"] "dark"
  /\ paths (import_settings settings_file st_import).2 = [good_exe]
  /\ current_theme (ui (import_settings settings_file st_import).2) = "dark".
Proof.
  assert (Hne : settings_file <> EmptyString) by discriminate.
  assert (Hf : files (os st_import) !! settings_file = Some (Json example_bundle))
    by (vm_compute; reflexivity).
  assert (Hwf : well_formed_bundle example_bundle [good_exe; "C:\missing.txt"] "dark").
  { eexists. split; [reflexivity|]. split; reflexivity. }
  destruct (import_keeps_valid_entries st_import settings_file example_bundle
              _ _ Hne Hf Hwf) as (_ & _ & Hp & _ & _ & Hth).
  split; [exact Hne|]. split; [exact Hf|]. split; [exact Hwf|]. split.
  - rewrite Hp. vm_compute. reflexivity.
  - apply Hth. right. reflexivity.
Defined.



(** C9: a path with one of the characters [<], [>], [|], [&] is rejected
    by [is_valid_file] whatever is on disk and whatever its extension; so
    [add_batch_file] leaves everything as it was, and neither a load nor an
    import that reads a JSON document leaves the path in the table; a load
    or import can leave it there only if it was there before. *)
Theorem forbidden_character_paths_are_dropped (st : state) (p : string) (c : ascii) :
  In c forbidden ->
  In c (list_ascii_of_string p) ->
  is_valid_file (os st) p = false
  /\ add_batch_file p st = (Ok tt, st)
  /\ (forall j, files (os st) !! batch_list_file = Some (Json j) ->
        ~ In p (paths (load_batch_list st).2))
  /\ (forall f j, f <> EmptyString -> files (os st) !! f = Some (Json j) ->
        ~ In p (paths (import_settings f st).2))
  /\ (In p (paths (load_batch_list st).2) -> In p (paths st))
  /\ (forall f, In p (paths (import_settings f st).2) -> In p (paths st)).
Proof.
  intros Hc Hp.
  pose proof (forbidden_char_invalid (os st) c p Hc Hp) as Hinv.
  assert (Hload : forall j, files (os st) !! batch_list_file = Some (Json j) ->
                    ~ In p (paths (load_batch_list st).2)).
  { intros j Hf Hin.
    destruct (load_batch_list_json st j Hf) as (_ & _ & _ & _ & Ht).
    unfold paths in Hin. rewrite Ht in Hin.
    change (map fst ?l) with (l.*1) in Hin. rewrite rows_paths in Hin.
    apply filter_In in Hin. destruct Hin as [_ Hv]. congruence. }
  assert (Himp : forall f j, f <> EmptyString -> files (os st) !! f = Some (Json j) ->
                   ~ In p (paths (import_settings f st).2)).
  { intros f j Hne Hf Hin.
    pose proof (import_settings_json_valid st f j Hne Hf) as Hall.
    rewrite List.Forall_forall in Hall. specialize (Hall p Hin). congruence. }
  split; [exact Hinv|]. split; [now apply add_batch_file_invalid|].
  split; [exact Hload|]. split; [exact Himp|]. split.
  - intros Hin. destruct (files (os st) !! batch_list_file) as [[j| |text]|] eqn:Hf.
    + destruct (Hload j eq_refl Hin).
    + destruct (load_batch_list_unread st (or_intror Hf)) as (_ & Hu & _).
      unfold paths in *. now rewrite Hu in Hin.
    + destruct (load_batch_list_text st text Hf) as (_ & Hu & _).
      unfold paths in *. now rewrite Hu in Hin.
    + destruct (load_batch_list_unread st (or_introl Hf)) as (_ & Hu & _).
      unfold paths in *. now rewrite Hu in Hin.
  - intros f Hin.
    assert (Hun : f = EmptyString \/ files (os st) !! f = None
                  \/ files (os st) !! f = Some Blob -> In p (paths st)).
    { intros H. destruct (import_settings_unread st f H) as (_ & Hu & _).
      unfold paths in *. now rewrite Hu in Hin. }
    destruct (string_dec f EmptyString) as [He|He]; [auto|].
    destruct (files (os st) !! f) as [[j| |text]|] eqn:Hf; [|auto| |auto].
    + destruct (Himp f j He Hf Hin).
    + destruct (import_settings_text st f text He Hf) as (_ & Hu & _).
      unfold paths in *. now rewrite Hu in Hin.
Qed.

Lemma forbidden_character_paths_are_dropped_witness :
  In "&"%char forbidden
  /\ In "&"%char (list_ascii_of_string amp_exe)
  /\ path_exists (os st_import) amp_exe = true
  /\ approved_extension amp_exe = true
  /\ is_valid_file (os st_import) amp_exe = false
  /\ ~ In amp_exe (paths (load_batch_list st_import).2).
Proof.
  assert (Hc : In "&"%char forbidden) by (vm_compute; tauto).
  assert (Hp : In "&"%char (list_ascii_of_string amp_exe)) by (vm_compute; tauto).
  destruct (forbidden_character_paths_are_dropped st_import amp_exe "&" Hc Hp)
    as (Hinv & _ & Hload & _).
  split; [exact Hc|]. split; [exact Hp|].
  split; [vm_compute; reflexivity|]. split; [vm_compute; reflexivity|].
  split; [exact Hinv|].
  apply (Hload (JArr [amp_exe; good_exe])). vm_compute. reflexivity.
Defined.

(** ** Reordering the batch table *)

Lemma emitted_unchanged {A} (m : M A) (st : state) :
  (m st).2 = st -> emitted m st = [].
Proof. intros H. unfold emitted. rewrite H. apply drop_all. Qed.

(** C6: a move of row [i] to row [j] with [j = i] or [j = i + 1] returns
    at once: the state is what it was, table, files and trace included, so
    the order is unchanged and nothing is written; the same holds for the
    drop event whose target row resolves to such a [j]. *)
Theorem reorder_same_or_next_is_noop (st : state) (i j : nat) :
  j = i \/ j = i + 1 ->
  reorder i j st = (Ok tt, st)
  /\ paths (reorder i j st).2 = paths st
  /\ files (os (reorder i j st).2) !! batch_list_file = files (os st) !! batch_list_file
  /\ emitted (reorder i j) st = []
  /\ (forall rest rowAt,
        default (length (batch_table (ui st))) rowAt = j ->
        dropEvent (i :: rest) rowAt st = (Ok tt, st)).
Proof.
  intros Hj.
  assert (Hr : reorder i j st = (Ok tt, st)).
  { unfold reorder.
    replace ((i =? j)%nat || (i + 1 =? j)%nat) with true; [reflexivity|].
    symmetry. apply orb_true_iff.
    destruct Hj as [-> | ->]; [left | right]; apply Nat.eqb_refl. }
  split; [exact Hr|]. rewrite Hr. cbn [snd].
  split; [reflexivity|]. split; [reflexivity|].
  split; [apply emitted_unchanged; now rewrite Hr|].
  intros rest rowAt Hd. unfold dropEvent. run_m.
  destruct rowAt as [r|]; simpl in Hd; subst j; exact Hr.
Qed.

Lemma reorder_same_or_next_is_noop_witness :
  (1 = 0 \/ 1 = 0 + 1)
  /\ reorder 0 1 st_two = (Ok tt, st_two)
  /\ dropEvent [1] None st_two = (Ok tt, st_two).
Proof.
  split; [right; reflexivity|].
  split.
  - apply (reorder_same_or_next_is_noop st_two 0 1). right. reflexivity.
  - apply (proj2 (proj2 (proj2 (proj2
             (reorder_same_or_next_is_noop st_two 1 2 (or_intror eq_refl))))) [] None).
    reflexivity.
Defined.

(** The example of the specification: moving row 0 of [a; b] to the end
    gives [b; a], and the new order is written to the batch file. *)
Lemma reorder_example :
  paths (reorder 0 2 st_two).2 = ["C:\b.exe"; "C:\a.exe"]
  /\ files (os (reorder 0 2 st_two).2) !! batch_list_file
     = Some (Json (JArr ["C:\b.exe"; "C:\a.exe"])).
Proof. split; vm_compute; reflexivity. Qed.

(** ** Stopping the batch *)

Lemma delete_keys_lookup l (m : gmap string string) k :
  delete_keys l m !! k = if bool_decide (k ∈ l.*1) then None else m !! k.
Proof.
  revert m. induction l as [|[k' v] l IH]; intros m.
  - cbn [delete_keys]. case_bool_decide as H; [|reflexivity].
    rewrite fmap_nil in H. by apply elem_of_nil in H.
  - cbn [delete_keys]. rewrite IH, fmap_cons. cbn [fst].
    destruct (decide (k = k')) as [->|Hne].
    + rewrite lookup_delete_eq.
      rewrite (bool_decide_eq_true_2 (k' ∈ k' :: l.*1)) by apply list_elem_of_here.
      by case_bool_decide.
    + rewrite lookup_delete_ne by congruence.
      destruct (decide (k ∈ l.*1)) as [Hin|Hin].
      * rewrite (bool_decide_eq_true_2 _ Hin).
        rewrite (bool_decide_eq_true_2 (k ∈ k' :: l.*1)); [reflexivity|].
        by apply list_elem_of_further.
      * rewrite (bool_decide_eq_false_2 _ Hin).
        rewrite (bool_decide_eq_false_2 (k ∈ k' :: l.*1)); [reflexivity|].
        intros [?|?]%elem_of_cons; contradiction.
Qed.

Lemma delete_keys_all (m : gmap string string) : delete_keys (map_to_list m) m = ∅.
Proof.
  apply map_empty. intros k. rewrite delete_keys_lookup.
  destruct (m !! k) as [v|] eqn:Hk.
  - rewrite bool_decide_eq_true_2; [reflexivity|].
    apply list_elem_of_fmap. exists (k, v). split; [reflexivity|].
    now apply elem_of_map_to_list.
  - now destruct (bool_decide _).
Qed.

(** One turn of the loop on a tracked path: whatever taskkill does, the
    turn ends normally and the path is no longer tracked. *)
Lemma stop_one_tracked st k v :
  is_Some (processes (ui st) !! k) ->
  exists tr,
    stop_one (k, v) st =
    (Ok tt,
     State (with_processes (delete k (processes (ui st))) (ui st)) (os st)
           (trace st ++ tr)).
Proof.
  intros [x Hx]. unfold stop_one, taskkill, spawn_shell, untrack. run_m.
  destruct (shell_available (os st)); run_m;
    [destruct (taskkill_outcome (os st) (length (trace st)) v) as [rc err|e]; run_m;
       [destruct (negb (rc =? 0)%Z); run_m|]|];
    rewrite Hx; run_m; eexists; rewrite <- ?app_assoc; reflexivity.
Qed.

Lemma stop_loop l : forall st,
  NoDup l.*1 ->
  (forall k, k ∈ l.*1 -> is_Some (processes (ui st) !! k)) ->
  exists tr,
    for_each l stop_one st =
    (Ok tt,
     State (with_processes (delete_keys l (processes (ui st))) (ui st)) (os st)
           (trace st ++ tr)).
Proof.
  induction l as [|[k v] l IH]; intros st Hnd Hin.
  - exists []. destruct st as [[t m th] w tr]. simpl. now rewrite app_nil_r.
  - rewrite fmap_cons in Hnd, Hin. cbn [fst] in Hnd, Hin.
    apply NoDup_cons in Hnd as [Hk Hnd].
    destruct (stop_one_tracked st k v) as [tr1 H1].
    { apply Hin. apply list_elem_of_here. }
    cbn [for_each delete_keys]. unfold bind. rewrite H1.
    edestruct IH as [tr2 H2]; [exact Hnd| |rewrite H2].
    + intros k' Hk'. cbn [ui with_processes processes].
      rewrite lookup_delete_ne by (intros ->; contradiction).
      apply Hin. now apply list_elem_of_further.
    + exists (tr1 ++ tr2)%list. unfold with_processes.
      cbn [ui os trace processes batch_table current_theme fst].
      now rewrite app_assoc.
Qed.

Lemma set_status_loop (s : status) rows : forall st,
  exists t,
    for_each rows (fun row => set_status row s) st =
    (Ok tt, State (with_table t (ui st)) (os st) (trace st)).
Proof.
  induction rows as [|row rows IH]; intros st.
  - exists (batch_table (ui st)). now destruct st as [[t m th] w tr].
  - cbn [for_each]. unfold bind. unfold set_status at 1. unfold modify.
    edestruct IH as [t Ht]. rewrite Ht. eexists. reflexivity.
Qed.

(** C4: [stop_all_batch] ends normally and leaves the tracking map empty,
    from every state and whatever the terminate requests report (a zero or
    non-zero exit code, or an exception). *)
Theorem stop_all_empties_tracking_map (st : state) :
  (stop_all_batch st).1 = Ok tt
  /\ processes (ui (stop_all_batch st).2) = ∅.
Proof.
  unfold stop_all_batch. run_m.
  match goal with |- context [for_each (map_to_list ?m) stop_one ?s] =>
    destruct (stop_loop (map_to_list m) s) as [tr1 H1]
  end.
  { apply NoDup_fst_map_to_list. }
  { intros k [[k' v] [-> Hkv]]%list_elem_of_fmap. cbn [ui processes].
    apply elem_of_map_to_list in Hkv. eauto. }
  rewrite H1. run_m. rewrite delete_keys_all.
  match goal with |- context [for_each ?rows ?body ?s] =>
    destruct (set_status_loop Stopped rows s) as [t2 H2];
    change body with (fun row => set_status row Stopped)
  end.
  rewrite H2. unfold load_logs. run_m. auto.
Qed.

(** A terminate request that fails is reported, and the path is untracked
    all the same. *)
Lemma stop_all_after_failed_terminate :
  processes (ui (stop_all_batch st_stubborn).2) = ∅
  /\ batch_table (ui (stop_all_batch st_stubborn).2) = [(good_exe, Stopped)]
  /\ In (MessageBox Warning "Warning"
           "Could not stop good.exe: ERROR: The process was not found.")
        (emitted stop_all_batch st_stubborn).
Proof.
  split; [vm_compute; reflexivity|]. split; [vm_compute; reflexivity|].
  vm_compute. tauto.
Qed.

(** ** Starting the batch *)

(** One turn of the loop when the command interpreter is available: the
    launch does not raise, whether or not the file of the row exists. *)
Lemma start_row_with_shell done r rest m th w tr :
  shell_available w = true ->
  start_row (length done) (State (App (done ++ r :: rest) m th) w tr) =
  (Ok tt,
   State (App ((done ++ [set_running r]) ++ rest) (<[r.1 := Py.basename r.1]> m) th) w
         (tr ++ [ShellCommand r.1;
                 Logged INFO ("Started batch process: " +:+ Py.basename r.1)])).
Proof.
  intros Hs. unfold start_row, Popen_shell, spawn_shell. run_m.
  rewrite list_lookup_middle by reflexivity. destruct r as [p s]. run_m.
  rewrite Hs. run_m.
  rewrite alter_app_r_alt, Nat.sub_diag by reflexivity. cbn [alter list_alter].
  unfold set_running. cbn [fst]. now rewrite <- !app_assoc.
Qed.

Lemma start_rows_with_shell rest : forall done m th w tr,
  shell_available w = true ->
  exists tr',
    for_each (seq (length done) (length rest)) start_row
             (State (App (done ++ rest) m th) w tr) =
    (Ok tt,
     State (App (done ++ map set_running rest) (track_all rest m) th) w (tr ++ tr'))
    /\ Forall (fun e => is_error_box e = false) tr'.
Proof.
  induction rest as [|r rest IH]; intros done m th w tr Hs.
  - exists []. rewrite !app_nil_r. split; [reflexivity | constructor].
  - cbn [length seq for_each]. unfold bind.
    rewrite (start_row_with_shell done r rest m th w tr Hs).
    destruct (IH (done ++ [set_running r])%list (<[r.1 := Py.basename r.1]> m) th w
                 (tr ++ [ShellCommand r.1;
                         Logged INFO ("Started batch process: " +:+ Py.basename r.1)])%list
                 Hs)
      as (tr' & Hrun & Hok).
    rewrite length_app, Nat.add_1_r in Hrun. rewrite Hrun.
    eexists. split.
    + cbn [map track_all foldl]. rewrite <- !app_assoc. reflexivity.
    + repeat constructor. exact Hok.
Qed.

Lemma track_all_lookup t : forall (m : gmap string string) p,
  track_all t m !! p =
  if bool_decide (p ∈ t.*1) then Some (Py.basename p) else m !! p.
Proof.
  induction t as [|[q s] t IH]; intros m p.
  - cbn. rewrite bool_decide_eq_false_2 by apply not_elem_of_nil. reflexivity.
  - unfold track_all in *. cbn [foldl fst]. rewrite IH, fmap_cons. cbn [fst].
    destruct (decide (p ∈ t.*1)) as [Hin|Hin].
    + rewrite (bool_decide_eq_true_2 _ Hin).
      rewrite (bool_decide_eq_true_2 (p ∈ q :: t.*1)); [reflexivity|].
      by apply list_elem_of_further.
    + rewrite (bool_decide_eq_false_2 _ Hin).
      destruct (decide (p = q)) as [->|Hne].
      * rewrite lookup_insert_eq.
        rewrite (bool_decide_eq_true_2 (q ∈ q :: t.*1)); [reflexivity|].
        apply list_elem_of_here.
      * rewrite lookup_insert_ne by congruence.
        rewrite (bool_decide_eq_false_2 (p ∈ q :: t.*1)); [reflexivity|].
        intros [?|?]%elem_of_cons; contradiction.
Qed.

(** X8: with a command interpreter, [start_all_batch] reports every row
    [Running], tracks exactly the paths of the table, each under its base
    name and whatever was tracked before, and reports no failure: whether
    the files exist plays no part. *)
Lemma start_all_with_shell st :
  shell_available (os st) = true ->
  (start_all_batch st).1 = Ok tt
  /\ batch_table (ui (start_all_batch st).2) = map set_running (batch_table (ui st))
  /\ (forall p, processes (ui (start_all_batch st).2) !! p =
                if bool_decide (p ∈ paths st) then Some (Py.basename p) else None)
  /\ Forall (fun e => is_error_box e = false) (emitted start_all_batch st).
Proof.
  intros Hs. destruct st as [[t m th] w tr]. cbn [os] in Hs.
  unfold emitted, start_all_batch. run_m.
  destruct (start_rows_with_shell t [] ∅ th w
              (tr ++ [Logged INFO "Starting all batch processes"])%list Hs)
    as (tr' & Hrun & Hok).
  cbn [length List.app] in Hrun. rewrite Hrun. unfold load_logs. run_m.
  split; [reflexivity|]. split; [reflexivity|]. split.
  - intros p. rewrite track_all_lookup. reflexivity.
  - rewrite <- !app_assoc, drop_app_length.
    constructor; [reflexivity|]. apply Forall_app. split; [exact Hok|].
    repeat constructor.
Qed.

(** C2, at the batch [[good_exe; gone_exe]] where only [good_exe] exists:
    the launch of the missing file goes through the command interpreter
    and does not raise, so both rows are reported [Running], both paths
    are tracked, and no failure is reported. *)
Theorem start_all_tracks_missing_file :
  path_exists (os st_batch) good_exe = true
  /\ path_exists (os st_batch) gone_exe = false
  /\ (start_all_batch st_batch).1 = Ok tt
  /\ batch_table (ui (start_all_batch st_batch).2)
     = [(good_exe, Running); (gone_exe, Running)]
  /\ processes (ui (start_all_batch st_batch).2) !! good_exe = Some "good.exe"
  /\ processes (ui (start_all_batch st_batch).2) !! gone_exe = Some "gone.exe"
  /\ size (processes (ui (start_all_batch st_batch).2)) = 2
  /\ Forall (fun e => is_error_box e = false) (trace (start_all_batch st_batch).2).
Proof.
  repeat split; try (vm_compute; reflexivity).
  vm_compute. repeat constructor.
Qed.

(** When a launch does raise, here because the command interpreter cannot
    be started, the loop goes on: every row is attempted, each failure is
    reported, every row is [Stopped] and nothing is tracked. *)
Lemma start_all_continues_after_failure :
  (start_all_batch st_no_shell).1 = Ok tt
  /\ batch_table (ui (start_all_batch st_no_shell).2)
     = [(good_exe, Stopped); (gone_exe, Stopped)]
  /\ processes (ui (start_all_batch st_no_shell).2) = ∅
  /\ List.filter is_backend_call (trace (start_all_batch st_no_shell).2)
     = [ShellCommand good_exe; ShellCommand gone_exe]
  /\ length (List.filter is_error_box (trace (start_all_batch st_no_shell).2)) = 2.
Proof. repeat split; vm_compute; reflexivity. Qed.

(** ** Validation of application names *)

Lemma all_name_chars_In s c :
  all_name_chars s = true -> In c (list_ascii_of_string s) -> name_char c = true.
Proof.
  induction s as [|d s IH]; simpl; [tauto|].
  rewrite andb_true_iff. intros [Hd Hs] [<-|Hin]; auto.
Qed.

Lemma skip_name_chars_all s : all_name_chars s = true -> skip_name_chars s = EmptyString.
Proof.
  induction s as [|c s IH]; simpl; [reflexivity|].
  rewrite andb_true_iff. intros [-> Hs]. auto.
Qed.

Lemma skip_name_chars_app body r :
  all_name_chars body = true -> skip_name_chars (body +:+ r) = skip_name_chars r.
Proof.
  induction body as [|c body IH]; simpl; [reflexivity|].
  rewrite andb_true_iff. intros [-> Hs]. auto.
Qed.

Lemma skip_name_chars_empty s : skip_name_chars s = EmptyString -> all_name_chars s = true.
Proof.
  induction s as [|c s IH]; simpl; [reflexivity|].
  destruct (name_char c); [auto | discriminate].
Qed.

Lemma skip_name_chars_last s d :
  skip_name_chars s = String d EmptyString ->
  exists body, s = body +:+ String d EmptyString /\ all_name_chars body = true.
Proof.
  induction s as [|c s IH]; simpl; [discriminate|].
  destruct (name_char c) eqn:Hc.
  - intros H. destruct (IH H) as (body & -> & Hb).
    exists (String c body). simpl. now rewrite Hc, Hb.
  - intros [= -> ->]. now exists EmptyString.
Qed.

(** The names the pattern accepts: a non-empty run of characters of the
    class, alone or followed by one newline. *)
Lemma re_match_app_name_spec s :
  re_match_app_name s = true <->
  exists body, body <> EmptyString /\ all_name_chars body = true
               /\ (s = body \/ s = body +:+ nl).
Proof.
  split.
  - destruct s as [|c s0]; [discriminate|].
    unfold re_match_app_name. rewrite andb_true_iff. intros [Hc Hm].
    destruct (skip_name_chars (String c s0)) as [|d [|? ?]] eqn:Hs; [| |discriminate].
    + exists (String c s0). split; [discriminate|].
      split; [now apply skip_name_chars_empty | now left].
    + apply Ascii.eqb_eq in Hm. subst d.
      destruct (skip_name_chars_last _ _ Hs) as (body & Hbody & Hall).
      exists body. split; [|split; [exact Hall | now right]].
      intros ->. simpl in Hbody. injection Hbody as -> _. discriminate.
  - intros (body & Hne & Hall & [-> | ->]).
    + destruct body as [|c b]; [congruence|].
      unfold re_match_app_name. rewrite (skip_name_chars_all _ Hall).
      simpl in Hall. apply andb_true_iff in Hall as [-> _]. reflexivity.
    + destruct body as [|c b]; [congruence|].
      unfold re_match_app_name.
      change (String c b +:+ nl) with (String c (b +:+ nl)).
      change (String c (b +:+ nl)) with (String c b +:+ nl) at 2.
      rewrite (skip_name_chars_app _ nl Hall).
      simpl in Hall. apply andb_true_iff in Hall as [-> _]. reflexivity.
Qed.

(** A name with a character outside the class is rejected, unless it is a
    run of characters of the class followed by one newline. *)
Lemma validate_app_name_rejects name c :
  In c (list_ascii_of_string name) ->
  name_char c = false ->
  (forall body, all_name_chars body = true -> name <> body +:+ nl) ->
  (validate_app_name name).1 = false.
Proof.
  intros Hin Hc Hnl. unfold validate_app_name.
  destruct (String.eqb name EmptyString); [reflexivity|].
  destruct (re_match_app_name name) eqn:Hm; [|reflexivity].
  apply re_match_app_name_spec in Hm as (body & _ & Hall & [-> | ->]).
  - rewrite (all_name_chars_In _ _ Hall Hin) in Hc. discriminate.
  - destruct (Hnl body Hall eq_refl).
Qed.

Lemma validate_app_name_empty : (validate_app_name EmptyString).1 = false.
Proof. reflexivity. Qed.

(** A name that ends in a newline after characters of the class passes. *)
Lemma validate_app_name_trailing_newline body :
  body <> EmptyString -> all_name_chars body = true ->
  validate_app_name (body +:+ nl) = (true, EmptyString).
Proof.
  intros Hne Hall. unfold validate_app_name.
  assert (Hm : re_match_app_name (body +:+ nl) = true).
  { apply re_match_app_name_spec. exists body. auto. }
  rewrite Hm. destruct body; [congruence | reflexivity].
Qed.

(** ** Adding an autostart entry *)

(** A name that fails validation, or a missing file path, ends the
    operation with an error box before any request to a backend: the
    stores and the application state are what they were. *)
Lemma add_to_autostart_rejected st token file_path app_name run_as_admin :
  (validate_app_name app_name).1 = false ->
  (add_to_autostart token file_path app_name run_as_admin st).1 = Ok tt
  /\ ui (add_to_autostart token file_path app_name run_as_admin st).2 = ui st
  /\ os (add_to_autostart token file_path app_name run_as_admin st).2 = os st
  /\ Forall (fun e => is_backend_call e = false)
            (emitted (add_to_autostart token file_path app_name run_as_admin) st)
  /\ Exists (fun e => is_error_box e = true)
            (emitted (add_to_autostart token file_path app_name run_as_admin) st).
Proof.
  intros Hv. unfold emitted, add_to_autostart.
  destruct (validate_app_name app_name) as [ok msg]. cbn [fst] in Hv. subst ok.
  destruct (String.eqb file_path EmptyString); cbn [negb]; run_m;
    rewrite <- app_assoc, drop_app_length;
    (repeat split; [repeat constructor | apply Exists_cons_tl, Exists_cons_hd; reflexivity]).
Qed.

(** C5, at the name [abc] followed by a newline: the newline is outside
    the class, yet the name passes validation and the entry is written to
    the Run key under that name. *)
Theorem add_accepts_name_with_trailing_newline :
  In Py.newline (list_ascii_of_string name_with_newline)
  /\ name_char Py.newline = false
  /\ validate_app_name name_with_newline = (true, EmptyString)
  /\ run_key (os st_good) = Some ∅
  /\ run_key (os (add_to_autostart "0a1b2c3d" good_exe name_with_newline false st_good).2)
     = Some {[ name_with_newline := dq +:+ good_exe +:+ dq ]}
  /\ In (RegSetValue name_with_newline (dq +:+ good_exe +:+ dq))
        (emitted (add_to_autostart "0a1b2c3d" good_exe name_with_newline false) st_good)
  /\ Forall (fun e => is_error_box e = false)
            (emitted (add_to_autostart "0a1b2c3d" good_exe name_with_newline false) st_good).
Proof.
  split; [vm_compute; tauto|].
  repeat split; try (vm_compute; reflexivity).
  - vm_compute. tauto.
  - vm_compute. repeat constructor.
Qed.

(** ** Removing an autostart entry *)

Lemma try_except_total (body : M unit) (handler : exn -> M unit) st :
  (forall e s, (handler e s).1 = Ok tt) ->
  (try_except body handler st).1 = Ok tt.
Proof.
  intros Hh. unfold try_except. destruct (body st) as [[[]|e] s]; [reflexivity | apply Hh].
Qed.

(** Refreshing the autostart table changes neither the application state
    nor the operating system. *)
Lemma load_autostart_processes_frame st :
  exists r tr,
    load_autostart_processes st = (r, State (ui st) (os st) (trace st ++ tr)).
Proof.
  unfold load_autostart_processes, winreg_OpenKey, spawn_shell, not_found. run_m.
  destruct (run_key (os st)); run_m; cbn [exc_type]; run_m;
    destruct (shell_available (os st)); run_m;
    do 2 eexists; rewrite <- ?app_assoc; reflexivity.
Qed.

Lemma with_run_key_same w values :
  run_key w = Some values -> with_run_key (Some values) w = w.
Proof. destruct w. simpl. now intros ->. Qed.

Lemma with_tasks_same w : with_tasks (tasks w) w = w.
Proof. now destruct w. Qed.

Lemma remove_process_never_raises st reply source name :
  (remove_process reply source name st).1 = Ok tt.
Proof.
  unfold remove_process. destruct reply; [|reflexivity].
  apply try_except_total. reflexivity.
Qed.

Ltac after_load :=
  match goal with
  | |- context [load_autostart_processes ?s] =>
      let r := fresh "r" in let tr := fresh "tr" in let Hl := fresh "Hl" in
      destruct (load_autostart_processes_frame s) as (r & tr & Hl);
      rewrite Hl; destruct r as [[]|?]; run_m
  end.

(** Removing a Run value that is not there: the backend raises, the error
    is shown, and nothing changes. *)
Lemma remove_registry_absent st name values :
  run_key (os st) = Some values ->
  values !! name = None ->
  remove_process true "Registry" name st =
  (Ok tt,
   State (ui st) (os st)
         (trace st ++ [RegOpenKey; RegDeleteValue name;
                       Logged ERROR ("Failed to remove from autostart: " +:+ name
                                     +:+ " - " +:+ exc_str not_found);
                       remove_failed_box not_found])).
Proof.
  intros Hk Hn. unfold remove_process, winreg_OpenKey, winreg_DeleteValue.
  cbn [negb String.eqb Ascii.eqb Bool.eqb]. run_m. rewrite Hk. run_m.
  rewrite Hk. cbn [mbind option_bind]. rewrite Hn. run_m.
  unfold remove_failed_box. now rewrite <- !app_assoc.
Qed.

(** Removing a Run value that is there: it is deleted and success is shown. *)
Lemma remove_registry_present st name values command :
  run_key (os st) = Some values ->
  values !! name = Some command ->
  exists tr,
    remove_process true "Registry" name st =
    (Ok tt,
     State (ui st) (with_run_key (Some (delete name values)) (os st))
           (trace st ++ [RegOpenKey; RegDeleteValue name;
                         Logged INFO ("Removed from autostart: " +:+ name
                                      +:+ " (" +:+ "Registry" +:+ ")");
                         MessageBox Information "Success"
                           ("Application '" +:+ name +:+ "' removed from autostart!")]
                     ++ tr)).
Proof.
  intros Hk Hn. unfold remove_process, winreg_OpenKey, winreg_DeleteValue.
  cbn [negb String.eqb Ascii.eqb Bool.eqb]. run_m. rewrite Hk. run_m.
  rewrite Hk. cbn [mbind option_bind]. rewrite Hn. run_m.
  after_load; rewrite Hk; cbn [fmap option_fmap option_map];
    eexists; rewrite <- !app_assoc; cbn [List.app]; reflexivity.
Qed.

(** The effect of a confirmed removal on the operating system. *)
Lemma remove_process_os st source name :
  os (remove_process true source name st).2 = after_remove source name (os st).
Proof.
  unfold after_remove.
  destruct (String.eqb source "Registry") eqn:Hreg.
  - apply String.eqb_eq in Hreg. subst source.
    destruct (run_key (os st)) as [values|] eqn:Hk.
    + destruct (values !! name) as [command|] eqn:Hn.
      * destruct (remove_registry_present st name values command Hk Hn) as [tr ->].
        reflexivity.
      * rewrite (remove_registry_absent st name values Hk Hn). cbn [snd os].
        rewrite (delete_id _ _ Hn). symmetry. now apply with_run_key_same.
    + unfold remove_process, winreg_OpenKey.
      cbn [negb String.eqb Ascii.eqb Bool.eqb]. run_m. rewrite Hk. by run_m.
  - unfold remove_process. cbn [negb]. rewrite Hreg.
    destruct (String.eqb source "Scheduler").
    + unfold schtasks_delete, spawn_shell. run_m.
      destruct (shell_available (os st)); run_m; [|reflexivity].
      destruct (sched_denied (os st)); run_m; [after_load; reflexivity|].
      destruct (tasks (os st) !! name) eqn:Ht; run_m; after_load;
        try reflexivity; rewrite (delete_id _ _ Ht); symmetry; apply with_tasks_same.
    + run_m. after_load; reflexivity.
Qed.

Lemma after_remove_idempotent source name w :
  after_remove source name (after_remove source name w) = after_remove source name w.
Proof.
  unfold after_remove.
  destruct (String.eqb source "Registry").
  - destruct (run_key w) as [values|] eqn:Hk; [|now rewrite Hk].
    destruct w. cbn. now rewrite delete_delete_eq.
  - destruct (String.eqb source "Scheduler"); [|reflexivity].
    destruct (shell_available w) eqn:Hs; [|now rewrite Hs].
    destruct (sched_denied w) eqn:Hd.
    + now rewrite Hs, Hd.
    + destruct w. cbn in *. rewrite Hs, Hd. now rewrite delete_delete_eq.
Qed.

(** With a command interpreter, refreshing the autostart table raises
    nothing and shows no box. *)
Lemma load_autostart_processes_with_shell st :
  shell_available (os st) = true ->
  load_autostart_processes st =
  (Ok tt,
   State (ui st) (os st)
         (trace st ++ [RegOpenKey; ShellCommand "schtasks /Query /FO CSV /V";
                       Logged INFO "Loaded autostart processes"])).
Proof.
  intros Hs. unfold load_autostart_processes, winreg_OpenKey, spawn_shell, not_found. run_m.
  destruct (run_key (os st)); run_m; cbn [exc_type]; run_m;
    rewrite Hs; run_m; rewrite <- !app_assoc; reflexivity.
Qed.

(** A removal from the Scheduler, with a command interpreter, reports
    success and no error whatever the scheduler answers, and leaves the
    command interpreter available. *)
Lemma remove_scheduler_reports_success st name :
  shell_available (os st) = true ->
  shell_available (os (remove_process true "Scheduler" name st).2) = true
  /\ Exists (fun e => is_success_box e = true)
            (emitted (remove_process true "Scheduler" name) st)
  /\ Forall (fun e => is_error_box e = false)
            (emitted (remove_process true "Scheduler" name) st).
Proof.
  intros Hs. unfold emitted, remove_process, schtasks_delete, spawn_shell.
  cbn [negb String.eqb Ascii.eqb Bool.eqb]. run_m. rewrite Hs. run_m.
  destruct (sched_denied (os st)) as [err|]; run_m;
    [|destruct (tasks (os st) !! name); run_m];
    rewrite load_autostart_processes_with_shell by exact Hs; run_m;
    cbn [with_tasks shell_available];
    (split; [exact Hs|]);
    rewrite <- !app_assoc, drop_app_length;
    (split; [do 2 apply Exists_cons_tl; apply Exists_cons_hd; reflexivity
            | repeat constructor]).
Qed.

(** C3, as stated: with [MyApp] in the Run key, the first removal reports
    success, and the second removal in a row, of a name that is no longer
    there, reports the backend's error and no success. *)
Lemma second_registry_removal_reports_error :
  Exists (fun e => is_success_box e = true)
         (emitted (remove_process true "Registry" "MyApp") st_registry)
  /\ run_key (os (remove_process true "Registry" "MyApp" st_registry).2) = Some ∅
  /\ Forall (fun e => is_success_box e = false)
            (emitted (remove_process true "Registry" "MyApp")
                     (remove_process true "Registry" "MyApp" st_registry).2)
  /\ In (remove_failed_box not_found)
        (emitted (remove_process true "Registry" "MyApp")
                 (remove_process true "Registry" "MyApp" st_registry).2).
Proof.
  split; [vm_compute; do 3 apply Exists_cons_tl; apply Exists_cons_hd; reflexivity|].
  split; [vm_compute; reflexivity|].
  split; [vm_compute; repeat constructor|].
  vm_compute. tauto.
Qed.

(** C3, amended: a removal never raises, and a second removal of the same
    name in a row changes nothing in the autostart stores.  On the
    Scheduler backend, with a command interpreter, every removal reports
    success and no error, that of a name that does not exist and the
    second of two removals in a row included.  On the Registry backend,
    removing a name that is in the Run key deletes it and reports success;
    removing a name that is not there reports the backend's error instead
    of success and leaves the operating system as it was. *)
Theorem remove_process_outcomes (st : state) (reply : bool) (source name : string) :
  (remove_process reply source name st).1 = Ok tt
  /\ os (remove_process true source name (remove_process true source name st).2).2
     = os (remove_process true source name st).2
  /\ (forall values command,
        run_key (os st) = Some values -> values !! name = Some command ->
        run_key (os (remove_process true "Registry" name st).2) = Some (delete name values)
        /\ Exists (fun e => is_success_box e = true)
                  (emitted (remove_process true "Registry" name) st))
  /\ (forall values,
        run_key (os st) = Some values -> values !! name = None ->
        os (remove_process true "Registry" name st).2 = os st
        /\ Forall (fun e => is_success_box e = false)
                  (emitted (remove_process true "Registry" name) st)
        /\ In (remove_failed_box not_found)
              (emitted (remove_process true "Registry" name) st))
  /\ (shell_available (os st) = true ->
      Exists (fun e => is_success_box e = true)
             (emitted (remove_process true "Scheduler" name) st)
      /\ Forall (fun e => is_error_box e = false)
                (emitted (remove_process true "Scheduler" name) st)
      /\ Exists (fun e => is_success_box e = true)
                (emitted (remove_process true "Scheduler" name)
                         (remove_process true "Scheduler" name st).2)
      /\ Forall (fun e => is_error_box e = false)
                (emitted (remove_process true "Scheduler" name)
                         (remove_process true "Scheduler" name st).2)).
Proof.
  split; [apply remove_process_never_raises|].
  split; [rewrite !remove_process_os; apply after_remove_idempotent|].
  split; [|split]; cycle 2.
  { intros Hs.
    destruct (remove_scheduler_reports_success st name Hs) as (Hs' & Hok & Hno).
    destruct (remove_scheduler_reports_success _ name Hs') as (_ & Hok' & Hno').
    auto. }
  - intros values command Hk Hn.
    destruct (remove_registry_present st name values command Hk Hn) as [tr Hr].
    unfold emitted. rewrite Hr. cbn [snd os trace]. split; [reflexivity|].
    rewrite drop_app_length. do 3 apply Exists_cons_tl. apply Exists_cons_hd. reflexivity.
  - intros values Hk Hn. unfold emitted.
    rewrite (remove_registry_absent st name values Hk Hn). cbn [snd os trace].
    rewrite drop_app_length. split; [reflexivity|]. split.
    + repeat constructor.
    + simpl. tauto.
Qed.

Lemma remove_process_outcomes_witness :
  run_key (os st_registry) = Some {[ "MyApp" := dq +:+ good_exe +:+ dq ]}
  /\ ({[ "MyApp" := dq +:+ good_exe +:+ dq ]} : gmap string string) !! "MyApp"
     = Some (dq +:+ good_exe +:+ dq)
  /\ run_key (os (remove_process true "Registry" "MyApp" st_registry).2) = Some ∅
  /\ (∅ : gmap string string) !! "MyApp" = None
  /\ shell_available (os st_denied) = true
  /\ In (remove_failed_box not_found)
        (emitted (remove_process true "Registry" "MyApp")
                 (remove_process true "Registry" "MyApp" st_registry).2)
  /\ Exists (fun e => is_success_box e = true)
            (emitted (remove_process true "Scheduler" my_app_task)
                     (remove_process true "Scheduler" my_app_task st_denied).2).
Proof.
  assert (Hk : run_key (os st_registry) = Some {[ "MyApp" := dq +:+ good_exe +:+ dq ]})
    by reflexivity.
  assert (Hn : ({[ "MyApp" := dq +:+ good_exe +:+ dq ]} : gmap string string) !! "MyApp"
               = Some (dq +:+ good_exe +:+ dq)) by (vm_compute; reflexivity).
  assert (Hk' : run_key (os (remove_process true "Registry" "MyApp" st_registry).2) = Some ∅)
    by (vm_compute; reflexivity).
  assert (Hn' : (∅ : gmap string string) !! "MyApp" = None) by reflexivity.
  split; [exact Hk|]. split; [exact Hn|]. split; [exact Hk'|]. split; [exact Hn'|].
  assert (Hs : shell_available (os st_denied) = true) by reflexivity.
  split; [exact Hs|].
  pose proof (remove_process_outcomes st_registry true "Registry" "MyApp")
    as (_ & _ & Hp & _ & _).
  pose proof (remove_process_outcomes
                (remove_process true "Registry" "MyApp" st_registry).2
                true "Registry" "MyApp") as (_ & _ & _ & Ha & _).
  pose proof (remove_process_outcomes st_denied true "Scheduler" my_app_task)
    as (_ & _ & _ & _ & Hsch).
  destruct (Hp _ _ Hk Hn) as [_ _].
  split; [exact (proj2 (proj2 (Ha ∅ Hk' Hn')))|].
  destruct (Hsch Hs) as (_ & _ & Hok & _). exact Hok.
Defined.

(** ** Failures of backend commands *)

(** C7, at the removal of a scheduled task on a machine whose scheduler
    refuses the request: the delete command exits with 1 and a diagnostic,
    the task is still there, and the operation reports success; the
    diagnostic appears in no log record and in no message box. *)
Theorem scheduler_delete_failure_is_silent :
  (schtasks_delete my_app_task st_denied).1 = Ok (1%Z, "ERROR: Access is denied.")
  /\ tasks (os (remove_process true "Scheduler" my_app_task st_denied).2)
     = tasks (os st_denied)
  /\ tasks (os st_denied) !! my_app_task = Some (dq +:+ good_exe +:+ dq)
  /\ emitted (remove_process true "Scheduler" my_app_task) st_denied
     = [ShellCommand ("schtasks /Delete /TN " +:+ dq +:+ my_app_task +:+ dq +:+ " /F");
        Logged INFO ("Removed from autostart: " +:+ my_app_task +:+ " (Scheduler)");
        MessageBox Information "Success"
          ("Application '" +:+ my_app_task +:+ "' removed from autostart!");
        RegOpenKey;
        ShellCommand "schtasks /Query /FO CSV /V";
        Logged INFO "Loaded autostart processes"].
Proof. repeat split; vm_compute; reflexivity. Qed.

(** X7: the sibling commands do surface the diagnostic.  A terminate
    request that exits with a non-zero code is reported in a warning box
    that carries its stderr. *)
Lemma stop_one_surfaces_stderr st k v rc err :
  shell_available (os st) = true ->
  taskkill_outcome (os st) (length (trace st)) v = Completed rc err ->
  rc <> 0%Z ->
  In (MessageBox Warning "Warning" ("Could not stop " +:+ v +:+ ": " +:+ err))
     (emitted (stop_one (k, v)) st).
Proof.
  intros Hs Ho Hrc. unfold emitted, stop_one, taskkill, spawn_shell, untrack. run_m.
  rewrite Hs. run_m. rewrite Ho. run_m.
  rewrite (proj2 (Z.eqb_neq rc 0) Hrc). cbn [negb]. run_m.
  destruct (processes (ui st) !! k) eqn:Hp; run_m; rewrite ?Hp; run_m;
    rewrite <- !app_assoc, drop_app_length; simpl; tauto.
Qed.

(** X6: a task creation that the scheduler refuses is reported in an
    error box that carries the scheduler's stderr, and no task is created. *)
Lemma add_to_task_scheduler_surfaces_stderr st token file_path app_name err :
  file_path <> EmptyString ->
  (validate_app_name app_name).1 = true ->
  path_exists (os st) file_path = true ->
  (("Autostart_" +:+ app_name +:+ "_" +:+ token) +:+ ".xml") ∉ readonly (os st) ->
  shell_available (os st) = true ->
  sched_denied (os st) = Some err ->
  In (MessageBox Critical "Error"
        ("Failed to add to autostart: " +:+ "Task creation error: " +:+ err))
     (emitted (add_to_autostart token file_path app_name true) st)
  /\ tasks (os (add_to_autostart token file_path app_name true st).2) = tasks (os st).
Proof.
  intros Hne Hv Hex Hw Hs Hd. unfold emitted, add_to_autostart.
  rewrite (proj2 (String.eqb_neq file_path EmptyString) Hne).
  destruct (validate_app_name app_name) as [ok msg]. cbn [fst] in Hv. subst ok.
  cbn [negb]. run_m. rewrite Hex. cbn [negb].
  unfold add_to_task_scheduler, write_file, schtasks_create, spawn_shell, os_remove.
  run_m. rewrite (bool_decide_eq_false_2 _ Hw). run_m.
  cbn [shell_available with_files sched_denied]. rewrite Hs. run_m.
  cbn [shell_available with_files sched_denied]. rewrite Hd. run_m.
  cbn [Z.eqb negb Pos.eqb]. run_m.
  unfold path_exists. cbn [files with_files]. rewrite lookup_insert_eq.
  rewrite bool_decide_eq_true_2 by eauto. run_m.
  cbn [files with_files]. rewrite lookup_insert_eq. run_m.
  cbn [exc_str tasks with_files]. split; [|reflexivity].
  rewrite <- !app_assoc, drop_app_length. simpl. tauto.
Qed.

(** * Further properties of the code *)

(** ** Names and paths *)

(** X1: [validate_app_name] accepts exactly the names made of one or more
    characters of [[a-zA-Z0-9_-]], alone or followed by one newline. *)
Theorem validate_app_name_accepts_iff (name : string) :
  (validate_app_name name).1 = true <->
  exists body, body <> EmptyString /\ all_name_chars body = true
               /\ (name = body \/ name = body +:+ nl).
Proof.
  unfold validate_app_name.
  destruct (String.eqb name EmptyString) eqn:He.
  - apply String.eqb_eq in He. subst name. split; [discriminate|].
    intros (body & Hne & _ & [H|H]); [congruence|].
    destruct body; [congruence | discriminate].
  - rewrite <- re_match_app_name_spec.
    destruct (re_match_app_name name); cbn; split; congruence.
Qed.

Lemma length_append a b :
  String.length (a +:+ b) = (String.length a + String.length b)%nat.
Proof. induction a as [|c a IH]; simpl; [reflexivity | now rewrite IH]. Qed.

Lemma length_lower s : String.length (Py.lower s) = String.length s.
Proof. induction s as [|c s IH]; simpl; [reflexivity | now rewrite IH]. Qed.

Lemma lower_append a b : Py.lower (a +:+ b) = Py.lower a +:+ Py.lower b.
Proof. induction a as [|c a IH]; simpl; [reflexivity | now rewrite IH]. Qed.

Lemma substring_whole s : substring 0 (String.length s) s = s.
Proof. induction s as [|c s IH]; simpl; [reflexivity | now rewrite IH]. Qed.

Lemma substring_after a b :
  substring (String.length a) (String.length b) (a +:+ b) = b.
Proof. induction a as [|c a IH]; simpl; [apply substring_whole | exact IH]. Qed.

Lemma substring_split s : forall k,
  (k <= String.length s)%nat ->
  s = substring 0 k s +:+ substring k (String.length s - k) s.
Proof.
  induction s as [|c s IH]; intros k Hk.
  - destruct k; reflexivity.
  - destruct k as [|k].
    + cbn [substring String.append]. cbn [String.length Nat.sub].
      now rewrite substring_whole.
    + cbn [substring String.length Nat.sub].
      change (String c ?a +:+ ?b) with (String c (a +:+ b)).
      f_equal. apply IH. simpl in Hk. lia.
Qed.

Lemma length_substring s : forall k m,
  (k + m <= String.length s)%nat -> String.length (substring k m s) = m.
Proof.
  induction s as [|c s IH]; intros k m H.
  - simpl in H. destruct k, m; try reflexivity; lia.
  - destruct k as [|k].
    + destruct m as [|m]; [reflexivity|]. cbn [substring String.length].
      f_equal. apply (IH 0). simpl in H. lia.
    + cbn [substring]. apply IH. simpl in H. lia.
Qed.

(** [p.lower().endswith(suffix)] holds exactly when [p] ends in some text
    whose lower-case form is [suffix]. *)
Lemma endswith_lower_iff p suffix :
  Py.endswith (Py.lower p) suffix = true <->
  exists stem ext, p = stem +:+ ext /\ Py.lower ext = suffix.
Proof.
  unfold Py.endswith. rewrite length_lower, andb_true_iff, Nat.leb_le, String.eqb_eq.
  split.
  - intros [Hle Hsub].
    pose proof (substring_split p (String.length p - String.length suffix)) as Hp.
    replace (String.length p - (String.length p - String.length suffix))%nat
      with (String.length suffix) in Hp by lia.
    specialize (Hp ltac:(lia)).
    set (stem := substring 0 (String.length p - String.length suffix) p) in *.
    set (ext := substring (String.length p - String.length suffix)
                          (String.length suffix) p) in *.
    exists stem, ext. split; [exact Hp|].
    assert (Hstem : String.length stem = (String.length p - String.length suffix)%nat).
    { apply length_substring. lia. }
    assert (Hext : String.length ext = String.length suffix).
    { apply length_substring. lia. }
    clearbody stem ext.
    rewrite <- Hstem, <- Hext in Hsub.
    rewrite Hp, lower_append in Hsub.
    rewrite <- (length_lower stem), <- (length_lower ext) in Hsub.
    now rewrite substring_after in Hsub.
  - intros (stem & ext & -> & Hext).
    assert (Hlen : String.length suffix = String.length ext).
    { now rewrite <- Hext, length_lower. }
    rewrite length_append. split; [lia|].
    rewrite lower_append, Hext.
    replace (String.length stem + String.length ext - String.length suffix)%nat
      with (String.length (Py.lower stem)) by (rewrite length_lower; lia).
    apply substring_after.
Qed.

Lemma any_in_forbidden_false p :
  Py.any_in "<>|&" p = false <->
  forall c, In c forbidden -> ~ In c (list_ascii_of_string p).
Proof.
  split.
  - intros H c Hc Hin. now rewrite (forbidden_char_found c p Hc Hin) in H.
  - intros H. cbn [Py.any_in].
    assert (Hno : forall c, In c forbidden -> Py.contains c p = false).
    { intros c Hc. destruct (Py.contains c p) eqn:E; [|reflexivity].
      apply contains_In in E. destruct (H c Hc E). }
    rewrite !Hno by (unfold forbidden; simpl; tauto). reflexivity.
Qed.

(** X2: [is_valid_file] accepts a path exactly when the file exists, the
    path ends in [.exe], [.bat] or [.cmd] in any mix of upper and lower
    case, and none of the characters [<], [>], [|], [&] occurs in it. *)
Theorem is_valid_file_iff (w : world) (p : string) :
  is_valid_file w p = true <->
  is_Some (files w !! p)
  /\ (exists stem ext,
        p = stem +:+ ext
        /\ (Py.lower ext = ".exe" \/ Py.lower ext = ".bat" \/ Py.lower ext = ".cmd"))
  /\ (forall c, In c forbidden -> ~ In c (list_ascii_of_string p)).
Proof.
  unfold is_valid_file, path_exists.
  rewrite !andb_true_iff, !orb_true_iff, negb_true_iff, bool_decide_eq_true,
    !endswith_lower_iff, any_in_forbidden_false.
  split.
  - intros [[He Hx] Hf]. split; [exact He|]. split; [|exact Hf].
    destruct Hx as [[(s & e & H1 & H2)|(s & e & H1 & H2)]|(s & e & H1 & H2)];
      exists s, e; tauto.
  - intros (He & (s & e & H1 & Hx) & Hf). split; [split; [exact He|]|exact Hf].
    destruct Hx as [H2|[H2|H2]]; [left; left | left; right | right]; eauto.
Qed.

(** ** Adding autostart entries *)

(** X3: [add_to_autostart] with an empty file path, a name that fails
    validation, or a file that does not exist ends with an error box and
    without a request to any backend; the application state and the
    operating system are what they were. *)
Theorem add_to_autostart_precondition_failure
    (st : state) (token file_path app_name : string) (run_as_admin : bool) :
  file_path = EmptyString
  \/ (validate_app_name app_name).1 = false
  \/ path_exists (os st) file_path = false ->
  (add_to_autostart token file_path app_name run_as_admin st).1 = Ok tt
  /\ ui (add_to_autostart token file_path app_name run_as_admin st).2 = ui st
  /\ os (add_to_autostart token file_path app_name run_as_admin st).2 = os st
  /\ Forall (fun e => is_backend_call e = false)
            (emitted (add_to_autostart token file_path app_name run_as_admin) st)
  /\ Exists (fun e => is_error_box e = true)
            (emitted (add_to_autostart token file_path app_name run_as_admin) st).
Proof.
  intros H. unfold emitted, add_to_autostart.
  destruct (String.eqb file_path EmptyString) eqn:He.
  - run_m. rewrite <- app_assoc, drop_app_length.
    repeat split; [repeat constructor | apply Exists_cons_tl, Exists_cons_hd; reflexivity].
  - destruct (validate_app_name app_name) as [[|] msg]; cbn [negb fst] in *.
    + run_m. destruct H as [->|[H|H]]; [discriminate He | discriminate H |].
      rewrite H. cbn [negb]. run_m. rewrite <- app_assoc, drop_app_length.
      repeat split; [repeat constructor | apply Exists_cons_tl, Exists_cons_hd; reflexivity].
    + run_m. rewrite <- app_assoc, drop_app_length.
      repeat split; [repeat constructor | apply Exists_cons_tl, Exists_cons_hd; reflexivity].
Qed.

Lemma add_to_autostart_precondition_failure_witness :
  path_exists (os st_good) gone_exe = false
  /\ os (add_to_autostart "0a1b2c3d" gone_exe "MyApp" true st_good).2 = os st_good
  /\ Exists (fun e => is_error_box e = true)
            (emitted (add_to_autostart "0a1b2c3d" gone_exe "MyApp" true) st_good).
Proof.
  assert (H : path_exists (os st_good) gone_exe = false) by (vm_compute; reflexivity).
  destruct (add_to_autostart_precondition_failure st_good "0a1b2c3d" gone_exe "MyApp" true
              (or_intror (or_intror H))) as (_ & _ & Ho & _ & He).
  split; [exact H|]. split; assumption.
Defined.

(** X4: with a valid name, an existing file and a Run key that opens, a
    non-elevated [add_to_autostart] leaves the Run key with the name bound
    to the quoted path (replacing what the name was bound to) and every
    other value as it was, touches neither files nor scheduled tasks, and
    shows the success box. *)
Theorem add_registry_entry_visible
    (st : state) (token file_path app_name : string) (values : gmap string string) :
  file_path <> EmptyString ->
  (validate_app_name app_name).1 = true ->
  path_exists (os st) file_path = true ->
  run_key (os st) = Some values ->
  (add_to_autostart token file_path app_name false st).1 = Ok tt
  /\ run_key (os (add_to_autostart token file_path app_name false st).2)
     = Some (<[app_name := dq +:+ file_path +:+ dq]> values)
  /\ files (os (add_to_autostart token file_path app_name false st).2) = files (os st)
  /\ tasks (os (add_to_autostart token file_path app_name false st).2) = tasks (os st)
  /\ In (added_box app_name) (emitted (add_to_autostart token file_path app_name false) st).
Proof.
  intros Hne Hv Hex Hk. unfold emitted, add_to_autostart.
  rewrite (proj2 (String.eqb_neq file_path EmptyString) Hne).
  destruct (validate_app_name app_name) as [ok msg]. cbn [fst] in Hv. subst ok.
  cbn [negb]. run_m. rewrite Hex. cbn [negb].
  unfold add_to_registry, winreg_OpenKey, winreg_SetValueEx. run_m.
  rewrite Hk. run_m. unfold added_box.
  after_load; rewrite Hk; cbn [fmap option_fmap option_map run_key files tasks with_run_key];
    rewrite <- !app_assoc, drop_app_length; (repeat split; try reflexivity);
    simpl; tauto.
Qed.

Lemma add_registry_entry_visible_witness :
  good_exe <> EmptyString
  /\ (validate_app_name "MyApp").1 = true
  /\ path_exists (os st_registry) good_exe = true
  /\ run_key (os (add_to_autostart "0a1b2c3d" good_exe "MyApp" false st_registry).2)
     = Some (<[ "MyApp" := dq +:+ good_exe +:+ dq ]>
               {[ "MyApp" := dq +:+ good_exe +:+ dq ]}).
Proof.
  assert (Hne : good_exe <> EmptyString) by discriminate.
  assert (Hv : (validate_app_name "MyApp").1 = true) by reflexivity.
  assert (Hex : path_exists (os st_registry) good_exe = true) by (vm_compute; reflexivity).
  assert (Hk : run_key (os st_registry) = Some {[ "MyApp" := dq +:+ good_exe +:+ dq ]})
    by reflexivity.
  split; [exact Hne|]. split; [exact Hv|]. split; [exact Hex|].
  exact (proj1 (proj2 (add_registry_entry_visible st_registry "0a1b2c3d" good_exe "MyApp"
                         _ Hne Hv Hex Hk))).
Defined.

(** The [finally] block of [add_to_task_scheduler], once the definition
    has been written to a path that held no file. *)
Ltac remove_definition Htmp :=
  run_m; cbn [files with_files with_tasks run_key tasks];
  rewrite lookup_insert_eq; rewrite bool_decide_eq_true_2 by eauto; run_m;
  cbn [files with_files with_tasks run_key tasks]; rewrite lookup_insert_eq; run_m;
  cbn [files with_files with_tasks run_key tasks];
  rewrite delete_insert_eq, (delete_id _ _ Htmp).

(** X5: an elevated [add_to_autostart] with a valid name and an existing
    file, when no file of the name of its task definition exists yet, never
    raises and, whatever the scheduler answers, leaves the files and the
    Run key as they were: the task definition it writes is removed again.
    When the definition can be written, the command interpreter and the
    scheduler are willing and the task name is free, the outcome is the
    scheduler's reading of the definition, into which the path was pasted
    between double quotes as it is: if the scheduler reads a command from
    it, the task [Autostart_<name>_<token>] is created with that command
    and the success box is shown; if it rejects the document, no task is
    created and its diagnostic is shown in an error box instead. *)
Theorem add_scheduler_entry
    (st : state) (token file_path app_name : string) :
  file_path <> EmptyString ->
  (validate_app_name app_name).1 = true ->
  path_exists (os st) file_path = true ->
  files (os st) !! (task_name_of app_name token +:+ ".xml") = None ->
  (add_to_autostart token file_path app_name true st).1 = Ok tt
  /\ files (os (add_to_autostart token file_path app_name true st).2) = files (os st)
  /\ run_key (os (add_to_autostart token file_path app_name true st).2) = run_key (os st)
  /\ ((task_name_of app_name token +:+ ".xml") ∉ readonly (os st) ->
      shell_available (os st) = true ->
      sched_denied (os st) = None ->
      tasks (os st) !! task_name_of app_name token = None ->
      match read_definition (os st) (Text (task_xml (login (os st)) file_path app_name)) with
      | Runs command =>
          tasks (os (add_to_autostart token file_path app_name true st).2)
          = <[task_name_of app_name token := command]> (tasks (os st))
          /\ In (added_box app_name)
                (emitted (add_to_autostart token file_path app_name true) st)
      | Rejected err =>
          tasks (os (add_to_autostart token file_path app_name true st).2) = tasks (os st)
          /\ In (MessageBox Critical "Error"
                   ("Failed to add to autostart: " +:+ "Task creation error: " +:+ err))
                (emitted (add_to_autostart token file_path app_name true) st)
          /\ Forall (fun e => is_success_box e = false)
                    (emitted (add_to_autostart token file_path app_name true) st)
      end).
Proof.
  intros Hne Hv Hex Htmp. unfold task_name_of in *. unfold emitted, add_to_autostart.
  rewrite (proj2 (String.eqb_neq file_path EmptyString) Hne).
  destruct (validate_app_name app_name) as [ok msg]. cbn [fst] in Hv. subst ok.
  cbn [negb]. run_m. rewrite Hex. cbn [negb].
  unfold add_to_task_scheduler, write_file, schtasks_create, spawn_shell, os_remove,
    path_exists, added_box.
  run_m.
  destruct (bool_decide (("Autostart_" +:+ app_name +:+ "_" +:+ token) +:+ ".xml"
                         ∈ readonly (os st))) eqn:Hro; run_m.
  { (* the definition cannot be written *)
    rewrite Htmp. rewrite bool_decide_eq_false_2 by apply is_Some_None. run_m.
    do 3 (split; [reflexivity|]).
    intros Hw. apply bool_decide_eq_true in Hro. contradiction. }
  cbn [shell_available sched_denied tasks files with_files with_tasks].
  destruct (shell_available (os st)) eqn:Hs; run_m;
    cbn [shell_available sched_denied tasks files with_files with_tasks].
  2:{ (* no command interpreter *)
    remove_definition Htmp.
    do 3 (split; [reflexivity|]). intros _ [=]. }
  destruct (sched_denied (os st)) as [err|] eqn:Hd; run_m;
    cbn [shell_available sched_denied tasks files with_files with_tasks Z.eqb negb].
  { (* the scheduler refuses *)
    run_m. remove_definition Htmp.
    do 3 (split; [reflexivity|]). intros _ _ [=]. }
  rewrite lookup_insert_eq. cbn [read_definition with_files].
  destruct (read_definition (os st) (Text (task_xml (login (os st)) file_path app_name)))
    as [err|command] eqn:Hr; run_m;
    cbn [shell_available sched_denied tasks files with_files with_tasks Z.eqb negb
         run_key]; run_m.
  { (* the scheduler rejects the definition *)
    remove_definition Htmp.
    do 3 (split; [reflexivity|]). intros _ _ _ _.
    split; [reflexivity|].
    rewrite <- !app_assoc, drop_app_length. split; [simpl; tauto|].
    repeat constructor. }
  destruct (tasks (os st) !! ("Autostart_" +:+ app_name +:+ "_" +:+ token)) eqn:Ht; run_m;
    cbn [shell_available sched_denied tasks files with_files with_tasks Z.eqb negb
         run_key]; run_m.
  { (* the name is taken *)
    remove_definition Htmp.
    do 3 (split; [reflexivity|]). intros _ _ _ [=]. }
  (* the task is created *)
  cbn [files with_files with_tasks run_key tasks].
  rewrite lookup_insert_eq. rewrite bool_decide_eq_true_2 by eauto. run_m.
  cbn [files with_files with_tasks run_key tasks]. rewrite lookup_insert_eq. run_m.
  after_load;
    cbn [files with_files with_tasks run_key tasks];
    rewrite delete_insert_eq, (delete_id _ _ Htmp);
    do 3 (split; [reflexivity|]); intros _ _ _ _; (split; [reflexivity|]);
    rewrite <- !app_assoc, drop_app_length; simpl; tauto.
Qed.

Lemma add_scheduler_entry_witness :
  good_exe <> EmptyString
  /\ (validate_app_name "MyApp").1 = true
  /\ path_exists (os st_good) good_exe = true
  /\ files (os st_good) !! (task_name_of "MyApp" "0a1b2c3d" +:+ ".xml") = None
  /\ read_definition (os st_good) (Text (task_xml (login (os st_good)) good_exe "MyApp"))
     = Runs (dq +:+ good_exe +:+ dq)
  /\ files (os (add_to_autostart "0a1b2c3d" good_exe "MyApp" true st_good).2)
     = files (os st_good)
  /\ tasks (os (add_to_autostart "0a1b2c3d" good_exe "MyApp" true st_good).2)
     = <[my_app_task := dq +:+ good_exe +:+ dq]> (tasks (os st_good)).
Proof.
  assert (Hne : good_exe <> EmptyString) by discriminate.
  assert (Hv : (validate_app_name "MyApp").1 = true) by reflexivity.
  assert (Hex : path_exists (os st_good) good_exe = true) by (vm_compute; reflexivity).
  assert (Htmp : files (os st_good) !! (task_name_of "MyApp" "0a1b2c3d" +:+ ".xml") = None)
    by (vm_compute; reflexivity).
  assert (Hr : read_definition (os st_good)
                 (Text (task_xml (login (os st_good)) good_exe "MyApp"))
               = Runs (dq +:+ good_exe +:+ dq)) by (vm_compute; reflexivity).
  destruct (add_scheduler_entry st_good "0a1b2c3d" good_exe "MyApp" Hne Hv Hex Htmp)
    as (_ & Hf & _ & Ht).
  split; [exact Hne|]. split; [exact Hv|]. split; [exact Hex|]. split; [exact Htmp|].
  split; [exact Hr|]. split; [exact Hf|].
  assert (Hfree : tasks (os st_good) !! task_name_of "MyApp" "0a1b2c3d" = None)
    by (vm_compute; reflexivity).
  specialize (Ht (not_elem_of_empty _) eq_refl eq_refl Hfree).
  rewrite Hr in Ht. exact (proj1 Ht).
Defined.

(** On the sample machine, whose scheduler rejects a [Command] that holds
    an ampersand, the existing file [R&D.exe] cannot be registered: the
    path reaches the task definition as it is. *)
Example add_scheduler_entry_ampersand :
  path_exists (os st_import) amp_exe = true
  /\ tasks (os (add_to_autostart "0a1b2c3d" amp_exe "MyApp" true st_import).2)
     = tasks (os st_import)
  /\ In (MessageBox Critical "Error"
           ("Failed to add to autostart: " +:+ "Task creation error: "
            +:+ "ERROR: The task XML is malformed."))
        (emitted (add_to_autostart "0a1b2c3d" amp_exe "MyApp" true) st_import).
Proof.
  split; [vm_compute; reflexivity|]. split; [vm_compute; reflexivity|].
  vm_compute. tauto.
Qed.

Lemma add_to_task_scheduler_surfaces_stderr_witness :
  In (MessageBox Critical "Error"
        ("Failed to add to autostart: " +:+ "Task creation error: "
         +:+ "ERROR: Access is denied."))
     (emitted (add_to_autostart "0a1b2c3d" good_exe "MyApp" true) st_denied)
  /\ tasks (os (add_to_autostart "0a1b2c3d" good_exe "MyApp" true st_denied).2)
     = tasks (os st_denied).
Proof.
  apply (add_to_task_scheduler_surfaces_stderr st_denied "0a1b2c3d" good_exe "MyApp").
  - discriminate.
  - reflexivity.
  - vm_compute. reflexivity.
  - apply not_elem_of_empty.
  - reflexivity.
  - reflexivity.
Defined.

Lemma stop_one_surfaces_stderr_witness :
  In (MessageBox Warning "Warning"
        ("Could not stop " +:+ "good.exe" +:+ ": " +:+ "ERROR: The process was not found."))
     (emitted (stop_one (good_exe, "good.exe")) st_stubborn).
Proof.
  apply (stop_one_surfaces_stderr st_stubborn good_exe "good.exe" 128).
  - reflexivity.
  - reflexivity.
  - discriminate.
Defined.

Lemma start_all_with_shell_witness :
  shell_available (os st_batch) = true
  /\ batch_table (ui (start_all_batch st_batch).2)
     = map set_running (batch_table (ui st_batch)).
Proof.
  assert (Hs : shell_available (os st_batch) = true) by reflexivity.
  split; [exact Hs|].
  exact (proj1 (proj2 (start_all_with_shell st_batch Hs))).
Defined.

(** ** The batch when launches fail, and after a stop *)

Lemma start_row_without_shell done r rest m th w tr :
  shell_available w = false ->
  start_row (length done) (State (App (done ++ r :: rest) m th) w tr) =
  (Ok tt,
   State (App ((done ++ [set_stopped r]) ++ rest) m th) w
         (tr ++ [ShellCommand r.1;
                 Logged ERROR ("Failed to start batch process: " +:+ Py.basename r.1
                               +:+ " - " +:+ exc_str not_found);
                 MessageBox Critical "Error"
                   ("Failed to start " +:+ Py.basename r.1 +:+ ": "
                    +:+ exc_str not_found)])).
Proof.
  intros Hs. unfold start_row, Popen_shell, spawn_shell. run_m.
  rewrite list_lookup_middle by reflexivity. destruct r as [p s]. run_m.
  rewrite Hs. run_m.
  rewrite alter_app_r_alt, Nat.sub_diag by reflexivity. cbn [alter list_alter].
  unfold set_stopped. cbn [fst]. now rewrite <- !app_assoc.
Qed.

Lemma start_rows_without_shell rest : forall done m th w tr,
  shell_available w = false ->
  exists tr',
    for_each (seq (length done) (length rest)) start_row
             (State (App (done ++ rest) m th) w tr) =
    (Ok tt, State (App (done ++ map set_stopped rest) m th) w (tr ++ tr'))
    /\ List.filter is_backend_call tr' = map (fun r => ShellCommand r.1) rest
    /\ length (List.filter is_error_box tr') = length rest.
Proof.
  induction rest as [|r rest IH]; intros done m th w tr Hs.
  - exists []. rewrite !app_nil_r. repeat split; reflexivity.
  - cbn [length seq for_each]. unfold bind.
    rewrite (start_row_without_shell done r rest m th w tr Hs).
    edestruct (IH (done ++ [set_stopped r])%list m th w) as (tr' & Hrun & Hcalls & Herr);
      [exact Hs|].
    rewrite length_app, Nat.add_1_r in Hrun. rewrite Hrun.
    eexists. split; [|split].
    + cbn [map]. rewrite <- !app_assoc. reflexivity.
    + cbn [List.app List.filter is_backend_call map]. now rewrite Hcalls.
    + cbn [List.app List.filter is_error_box length]. now rewrite Herr.
Qed.

(** X9: when no launch can be made (the command interpreter cannot be
    started), [start_all_batch] still ends normally: every row is
    attempted, in table order, each failure is shown in its own error box,
    every row is reported [Stopped] and nothing is tracked. *)
Theorem start_all_without_shell (st : state) :
  shell_available (os st) = false ->
  (start_all_batch st).1 = Ok tt
  /\ batch_table (ui (start_all_batch st).2) = map set_stopped (batch_table (ui st))
  /\ processes (ui (start_all_batch st).2) = ∅
  /\ List.filter is_backend_call (emitted start_all_batch st) = map ShellCommand (paths st)
  /\ length (List.filter is_error_box (emitted start_all_batch st)) = length (paths st).
Proof.
  intros Hs. destruct st as [[t m th] w tr]. cbn [os] in Hs.
  unfold emitted, start_all_batch. run_m.
  destruct (start_rows_without_shell t [] ∅ th w
              (tr ++ [Logged INFO "Starting all batch processes"])%list Hs)
    as (tr' & Hrun & Hcalls & Herr).
  cbn [length List.app] in Hrun. rewrite Hrun. unfold load_logs. run_m.
  do 3 (split; [reflexivity|]).
  rewrite <- !app_assoc, drop_app_length.
  cbn [List.app List.filter is_backend_call is_error_box].
  rewrite !List.filter_app. cbn [List.filter is_backend_call is_error_box].
  rewrite !app_nil_r, Hcalls, Herr, length_map, List.map_map. split; reflexivity.
Qed.

Lemma start_all_without_shell_witness :
  shell_available (os st_no_shell) = false
  /\ batch_table (ui (start_all_batch st_no_shell).2)
     = map set_stopped (batch_table (ui st_no_shell))
  /\ processes (ui (start_all_batch st_no_shell).2) = ∅.
Proof.
  assert (Hs : shell_available (os st_no_shell) = false) by reflexivity.
  destruct (start_all_without_shell st_no_shell Hs) as (_ & Ht & Hp & _).
  split; [exact Hs|]. split; assumption.
Defined.

Lemma set_status_rows (s : status) rest : forall done m th w tr,
  for_each (seq (length done) (length rest)) (fun row => set_status row s)
           (State (App (done ++ rest) m th) w tr) =
  (Ok tt, State (App (done ++ map (fun r => (r.1, s)) rest) m th) w tr).
Proof.
  induction rest as [|r rest IH]; intros done m th w tr.
  - now rewrite !app_nil_r.
  - cbn [length seq for_each]. unfold bind. unfold set_status at 1. run_m.
    rewrite alter_app_r_alt, Nat.sub_diag by reflexivity. cbn [alter list_alter].
    match goal with |- context [for_each _ ?body _] =>
      change body with (fun row => set_status row s)
    end.
    pose proof (IH (done ++ [(r.1, s)])%list m th w tr) as Hrun.
    rewrite length_app, Nat.add_1_r, <- app_assoc in Hrun. cbn [List.app] in Hrun.
    rewrite Hrun. cbn [map]. now rewrite <- app_assoc.
Qed.

(** X10: after [stop_all_batch] every row of the table is reported
    [Stopped], with the paths and their order unchanged, whatever the
    terminate requests report. *)
Theorem stop_all_marks_rows_stopped (st : state) :
  batch_table (ui (stop_all_batch st).2) = map set_stopped (batch_table (ui st))
  /\ paths (stop_all_batch st).2 = paths st
  /\ current_theme (ui (stop_all_batch st).2) = current_theme (ui st).
Proof.
  unfold stop_all_batch. run_m.
  match goal with |- context [for_each (map_to_list ?m) stop_one ?s] =>
    destruct (stop_loop (map_to_list m) s) as [tr1 H1]
  end.
  { apply NoDup_fst_map_to_list. }
  { intros k [[k' v] [-> Hkv]]%list_elem_of_fmap. cbn [ui processes].
    apply elem_of_map_to_list in Hkv. eauto. }
  rewrite H1. run_m.
  match goal with |- context [for_each _ ?body ?s] =>
    change body with (fun row => set_status row Stopped)
  end.
  pose proof (set_status_rows Stopped (batch_table (ui st)) []) as Hrows.
  cbn [length List.app] in Hrows. rewrite Hrows. unfold load_logs. run_m.
  split; [reflexivity|]. split; [|reflexivity].
  unfold set_stopped. rewrite List.map_map. reflexivity.
Qed.

(** ** Loading the batch list *)



Lemma In_rows g items p s : In (p, s) (rows g items) <-> In p items /\ s = g p.
Proof.
  unfold rows. rewrite in_map_iff. split.
  - intros (q & [= <- <-] & Hq). auto.
  - intros [Hp ->]. eauto.
Qed.

(** X12: loading a batch file that holds a list of paths fills the table
    with the valid paths of the list, in order; a row is [Running] exactly
    when its path is in the tracking map, so with nothing tracked, as at
    the start of a session, every row is [Stopped]. *)
Theorem load_reconciles_status (st : state) (items : list string) :
  files (os st) !! batch_list_file = Some (Json (JArr items)) ->
  paths (load_batch_list st).2 = List.filter (is_valid_file (os st)) items
  /\ (forall p s, In (p, s) (batch_table (ui (load_batch_list st).2)) ->
        (s = Running <-> is_Some (processes (ui st) !! p)))
  /\ (processes (ui st) = ∅ ->
        Forall (fun r => r.2 = Stopped) (batch_table (ui (load_batch_list st).2))).
Proof.
  intros Hf. destruct (load_batch_list_json st _ Hf) as (_ & _ & _ & _ & Ht).
  cbn [items_of] in Ht. split; [|split].
  - unfold paths. rewrite Ht. change (map fst ?l) with (l.*1). apply rows_paths.
  - intros p s Hin. rewrite Ht in Hin. apply In_rows in Hin as [_ ->].
    unfold tracked_status. case_bool_decide; split; intros; congruence || assumption.
  - intros He. rewrite Ht. apply List.Forall_forall. intros [p s] Hin.
    apply In_rows in Hin as [_ ->]. unfold tracked_status. rewrite He, lookup_empty.
    rewrite bool_decide_eq_false_2 by apply is_Some_None. reflexivity.
Qed.

Lemma load_reconciles_status_witness :
  files (os st_tracking) !! batch_list_file = Some (Json (JArr [good_exe; gone_exe]))
  /\ paths (load_batch_list st_tracking).2 = [good_exe]
  /\ batch_table (ui (load_batch_list st_tracking).2) = [(good_exe, Running)].
Proof.
  assert (Hf : files (os st_tracking) !! batch_list_file
               = Some (Json (JArr [good_exe; gone_exe]))) by (vm_compute; reflexivity).
  destruct (load_reconciles_status st_tracking _ Hf) as (Hp & _ & _).
  split; [exact Hf|]. split.
  - rewrite Hp. vm_compute. reflexivity.
  - vm_compute. reflexivity.
Defined.

(** X13: loading twice in a row gives the application state of loading
    once, whatever the batch file holds. *)
Theorem load_batch_list_twice (st : state) :
  ui (load_batch_list (load_batch_list st).2).2 = ui (load_batch_list st).2.
Proof.
  destruct (files (os st) !! batch_list_file) as [[j| |text]|] eqn:Hf.
  - destruct (load_batch_list_json st j Hf) as (_ & Ho & Hp & Hth & Ht).
    assert (Hf' : files (os (load_batch_list st).2) !! batch_list_file = Some (Json j))
      by now rewrite Ho.
    destruct (load_batch_list_json _ j Hf') as (_ & _ & Hp' & Hth' & Ht').
    rewrite Ho in Ht'.
    assert (Hts : tracked_status (ui (load_batch_list st).2) = tracked_status (ui st)).
    { unfold tracked_status. now rewrite Hp. }
    rewrite Hts, <- Ht in Ht'.
    destruct (ui (load_batch_list (load_batch_list st).2).2),
             (ui (load_batch_list st).2). cbn in *. congruence.
  - destruct (load_batch_list_unread st (or_intror Hf)) as (_ & Hu & Ho).
    assert (Hf' : files (os (load_batch_list st).2) !! batch_list_file = Some Blob)
      by now rewrite Ho.
    now destruct (load_batch_list_unread _ (or_intror Hf')) as (_ & -> & _).
  - destruct (load_batch_list_text st text Hf) as (_ & Hu & Ho).
    assert (Hf' : files (os (load_batch_list st).2) !! batch_list_file = Some (Text text))
      by now rewrite Ho.
    now destruct (load_batch_list_text _ text Hf') as (_ & -> & _).
  - destruct (load_batch_list_unread st (or_introl Hf)) as (_ & Hu & Ho).
    assert (Hf' : files (os (load_batch_list st).2) !! batch_list_file = None)
      by now rewrite Ho.
    now destruct (load_batch_list_unread _ (or_introl Hf')) as (_ & -> & _).
Qed.

(** ** Adding files to the batch *)

Lemma existsb_eqb_In p l : existsb (String.eqb p) l = true <-> In p l.
Proof.
  rewrite existsb_exists. split.
  - intros (q & Hq & He). apply String.eqb_eq in He. now subst.
  - intros H. exists p. split; [exact H | apply String.eqb_refl].
Qed.

Lemma save_batch_list_paths st : paths (save_batch_list st).2 = paths st.
Proof. unfold paths. now rewrite (proj2 (save_batch_list_ui st)). Qed.

(** What [add_batch_file] does to the table. *)
Lemma add_batch_file_paths st p :
  paths (add_batch_file p st).2 =
  if is_valid_file (os st) p && negb (existsb (String.eqb p) (paths st))
  then (paths st ++ [p])%list else paths st.
Proof.
  unfold add_batch_file. run_m.
  destruct (is_valid_file (os st) p) eqn:Hv.
  - rewrite (proj2 (String.eqb_neq p EmptyString) (is_valid_file_nonempty _ _ Hv)).
    cbn [negb andb].
    destruct (existsb (String.eqb p) (map fst (batch_table (ui st)))); cbn [negb]; run_m;
      [reflexivity|].
    match goal with |- context [save_batch_list ?s] =>
      pose proof (save_batch_list_paths s) as Hs;
      destruct (save_batch_list_ui s) as [Hr _];
      destruct (save_batch_list s) as [r s1]
    end.
    cbn [fst snd] in *. subst r. run_m. unfold paths in Hs. rewrite Hs. run_m.
    now rewrite map_app.
  - rewrite andb_false_r. reflexivity.
Qed.

(** X14: [add_batch_file] appends a path, with status [Stopped], exactly
    when the path is valid and not yet in the table, also when the batch
    file cannot be written; a path that is not valid or is already in the
    table changes nothing, in the table or on disk; and a table without
    duplicates stays without duplicates. *)
Theorem add_batch_file_keeps_paths_distinct (st : state) (p : string) :
  (is_valid_file (os st) p = true -> ~ In p (paths st) ->
     batch_table (ui (add_batch_file p st).2) = (batch_table (ui st) ++ [(p, Stopped)])%list)
  /\ (is_valid_file (os st) p = false \/ In p (paths st) ->
        ui (add_batch_file p st).2 = ui st /\ os (add_batch_file p st).2 = os st)
  /\ (NoDup (paths st) -> NoDup (paths (add_batch_file p st).2)).
Proof.
  split; [|split].
  - intros Hv Hin. unfold add_batch_file. run_m. rewrite Hv.
    rewrite (proj2 (String.eqb_neq p EmptyString) (is_valid_file_nonempty _ _ Hv)).
    cbn [negb andb].
    destruct (existsb (String.eqb p) (map fst (batch_table (ui st)))) eqn:He.
    { apply existsb_eqb_In in He. contradiction. }
    run_m.
    match goal with |- context [save_batch_list ?s] =>
      destruct (save_batch_list_ui s) as [Hr Hu];
      destruct (save_batch_list s) as [r [u1 w1 tr1]]
    end.
    cbn [fst snd ui] in Hr, Hu. subst r u1. run_m. reflexivity.
  - intros [Hv|Hin]; [rewrite (add_batch_file_invalid st p Hv); split; reflexivity|].
    unfold add_batch_file. run_m. unfold paths in Hin.
    destruct (negb (String.eqb p EmptyString) && is_valid_file (os st) p);
      [|split; reflexivity].
    rewrite (proj2 (existsb_eqb_In p _) Hin). run_m. split; reflexivity.
  - intros Hnd. rewrite add_batch_file_paths.
    destruct (is_valid_file (os st) p && negb (existsb (String.eqb p) (paths st))) eqn:Hc;
      [|exact Hnd].
    apply andb_true_iff in Hc as [_ Hc]. apply negb_true_iff in Hc.
    apply NoDup_app. split; [exact Hnd|]. split; [|apply NoDup_singleton].
    intros q Hq Hq'. apply list_elem_of_singleton in Hq'. subst q.
    apply list_elem_of_In in Hq. apply existsb_eqb_In in Hq. congruence.
Qed.

Lemma add_batch_file_keeps_paths_distinct_witness :
  is_valid_file (os st_import) good_exe = true
  /\ In good_exe (paths st_import)
  /\ NoDup (paths st_import)
  /\ os (add_batch_file good_exe st_import).2 = os st_import
  /\ NoDup (paths (add_batch_file good_exe st_import).2).
Proof.
  assert (Hin : In good_exe (paths st_import)) by (left; reflexivity).
  assert (Hnd : NoDup (paths st_import)).
  { apply NoDup_cons. split; [apply not_elem_of_nil | apply NoDup_nil_2]. }
  destruct (add_batch_file_keeps_paths_distinct st_import good_exe) as (_ & Hdup & Hkeep).
  split; [vm_compute; reflexivity|]. split; [exact Hin|]. split; [exact Hnd|].
  split; [exact (proj2 (Hdup (or_intror Hin))) | exact (Hkeep Hnd)].
Defined.

(** ** Removing rows from the batch *)

Lemma insert_desc_elem x y l : y ∈ insert_desc x l <-> y = x \/ y ∈ l.
Proof.
  induction l as [|z l IH]; cbn [insert_desc].
  - rewrite list_elem_of_singleton, elem_of_nil. tauto.
  - destruct (z <? x)%nat; [apply elem_of_cons|].
    destruct (x =? z)%nat eqn:E.
    + apply Nat.eqb_eq in E. subst z. rewrite elem_of_cons. tauto.
    + rewrite !elem_of_cons, IH. tauto.
Qed.

Lemma insert_desc_decreasing x l : decreasing l -> decreasing (insert_desc x l).
Proof.
  induction l as [|z l IH]; cbn [insert_desc decreasing].
  - intros _. split; [constructor | exact I].
  - intros [Hz Hl]. destruct (z <? x)%nat eqn:Hlt.
    + apply Nat.ltb_lt in Hlt. cbn [decreasing]. split; [|split; assumption].
      constructor; [exact Hlt|]. eapply Forall_impl; [exact Hz|]. cbn. lia.
    + apply Nat.ltb_ge in Hlt. destruct (x =? z)%nat eqn:E; [split; assumption|].
      apply Nat.eqb_neq in E. cbn [decreasing]. split; [|exact (IH Hl)].
      apply Forall_forall. intros y Hy.
      apply insert_desc_elem in Hy as [->|Hy]; [lia|].
      rewrite Forall_forall in Hz. now apply Hz.
Qed.

Lemma sorted_set_desc_elem l y : y ∈ sorted_set_desc l <-> y ∈ l.
Proof.
  induction l as [|x l IH]; cbn [sorted_set_desc foldr]; [tauto|].
  fold (sorted_set_desc l). rewrite insert_desc_elem, elem_of_cons, IH. tauto.
Qed.

Lemma sorted_set_desc_decreasing l : decreasing (sorted_set_desc l).
Proof.
  induction l as [|x l IH]; cbn [sorted_set_desc foldr]; [exact I|].
  now apply insert_desc_decreasing.
Qed.

Lemma omit_from_ext {A} sel sel' (t : list A) : forall i,
  (forall x, x ∈ sel <-> x ∈ sel') -> omit_from i sel t = omit_from i sel' t.
Proof.
  induction t as [|x t IH]; intros i H; cbn [omit_from]; [reflexivity|].
  rewrite (IH (S i) H). rewrite (bool_decide_ext _ _ (H i)). reflexivity.
Qed.

Lemma omit_from_below {A} sel (t : list A) : forall i,
  Forall (fun x => (x < i)%nat) sel -> omit_from i sel t = t.
Proof.
  induction t as [|x t IH]; intros i H; cbn [omit_from]; [reflexivity|].
  rewrite bool_decide_eq_false_2.
  - f_equal. apply IH. eapply Forall_impl; [exact H|]. cbn. lia.
  - intros Hin. rewrite Forall_forall in H. specialize (H i Hin). lia.
Qed.

(** Deleting the largest selected row first leaves the other selected rows
    where they were. *)
Lemma omit_from_largest {A} r sel (t : list A) : forall i,
  (i <= r)%nat ->
  Forall (fun x => (x < r)%nat) sel ->
  omit_from i (r :: sel) t = omit_from i sel (delete (r - i) t).
Proof.
  induction t as [|x t IH]; intros i Hi Hsel; [reflexivity|].
  cbn [omit_from]. destruct (decide (i = r)) as [->|Hne].
  - rewrite Nat.sub_diag. cbn [delete list_delete].
    rewrite bool_decide_eq_true_2 by apply list_elem_of_here.
    rewrite !omit_from_below; [reflexivity|exact Hsel|].
    constructor; [lia|]. eapply Forall_impl; [exact Hsel|]. cbn. lia.
  - replace (r - i)%nat with (S (r - S i)) by lia. cbn [delete list_delete omit_from].
    rewrite (bool_decide_ext (i ∈ r :: sel) (i ∈ sel)).
    2:{ rewrite elem_of_cons. split; [intros [?|?]; [congruence|assumption] | auto]. }
    rewrite (IH (S i)) by (assumption || lia). reflexivity.
Qed.

Lemma remove_rows rs : forall t m th w tr,
  decreasing rs ->
  Forall (fun r => (r < length t)%nat) rs ->
  exists tr',
    for_each rs remove_row (State (App t m th) w tr) =
    (Ok tt, State (App (omit rs t) m th) w (tr ++ tr'))
    /\ Forall (fun e => is_backend_call e = false) tr'.
Proof.
  unfold omit.
  induction rs as [|r rs IH]; intros t m th w tr Hd Hr.
  - exists []. rewrite app_nil_r, omit_from_below by constructor.
    split; [reflexivity | constructor].
  - destruct Hd as [Hlt Hd].
    apply Forall_cons in Hr as [Hr Hrs].
    destruct (lookup_lt_is_Some_2 t r Hr) as [[p s] Hp].
    cbn [for_each]. unfold bind. unfold remove_row at 1. run_m. rewrite Hp. run_m.
    edestruct (IH (delete r t) m th w) as (tr' & Hrun & Hev); [exact Hd| |].
    + rewrite Forall_forall in Hlt, Hrs. apply Forall_forall. intros x Hx.
      rewrite length_delete by eauto. specialize (Hlt x Hx). lia.
    + rewrite Hrun. eexists. split.
      * rewrite (omit_from_largest r rs t 0) by (lia || assumption).
        rewrite Nat.sub_0_r, <- app_assoc. reflexivity.
      * constructor; [reflexivity | exact Hev].
Qed.

(** X15: [remove_batch_file] with rows selected removes exactly the
    selected rows, keeps the others in order, and leaves the batch file in
    step with the table when it can be written.  With nothing selected it
    changes neither the table nor anything on disk. *)
Theorem remove_batch_file_removes_selected (st : state) (selected : list nat) :
  (selected = [] ->
     ui (remove_batch_file selected st).2 = ui st
     /\ os (remove_batch_file selected st).2 = os st)
  /\ (selected <> [] ->
      Forall (fun r => (r < length (batch_table (ui st)))%nat) selected ->
      (remove_batch_file selected st).1 = Ok tt
      /\ batch_table (ui (remove_batch_file selected st).2)
         = omit selected (batch_table (ui st))
      /\ (batch_list_file ∉ readonly (os st) -> in_sync (remove_batch_file selected st).2)).
Proof.
  split.
  - intros ->. unfold remove_batch_file. cbn [sorted_set_desc foldr]. run_m.
    split; reflexivity.
  - intros Hne Hsel. unfold remove_batch_file.
    destruct (sorted_set_desc selected) as [|r rs] eqn:Hs.
    { destruct selected as [|x l]; [congruence|].
      assert (Hx : x ∈ sorted_set_desc (x :: l))
        by (apply sorted_set_desc_elem, list_elem_of_here).
      rewrite Hs in Hx. now apply elem_of_nil in Hx. }
    rewrite <- Hs. clear r rs Hs. destruct st as [[t m th] w tr].
    cbn [ui os batch_table] in *.
    destruct (remove_rows (sorted_set_desc selected) t m th w tr) as (tr' & Hrun & _).
    { apply sorted_set_desc_decreasing. }
    { rewrite Forall_forall in Hsel. apply Forall_forall. intros x Hx.
      apply Hsel. now apply sorted_set_desc_elem. }
    unfold bind. rewrite Hrun. unfold omit.
    rewrite (omit_from_ext (sorted_set_desc selected) selected t 0
               (sorted_set_desc_elem selected)).
    match goal with |- context [save_batch_list ?s] =>
      destruct (save_batch_list_ui s) as [Hr Hu];
      pose proof (save_batch_list_writable s) as Hw
    end.
    split; [exact Hr|]. split; [now rewrite Hu|].
    intros Hro. rewrite (Hw Hro). unfold in_sync, saved_world.
    cbn [snd os files with_files]. apply lookup_insert_eq.
Qed.

Lemma remove_batch_file_removes_selected_witness :
  [0; 0] <> ([] : list nat)
  /\ Forall (fun r => (r < length (batch_table (ui st_two)))%nat) [0; 0]
  /\ batch_table (ui (remove_batch_file [0; 0] st_two).2) = [("C:\b.exe", Stopped)]
  /\ in_sync (remove_batch_file [0; 0] st_two).2.
Proof.
  assert (Hne : [0; 0] <> ([] : list nat)) by discriminate.
  assert (Hsel : Forall (fun r => (r < length (batch_table (ui st_two)))%nat) [0; 0]).
  { repeat constructor. }
  destruct (proj2 (remove_batch_file_removes_selected st_two [0; 0]) Hne Hsel)
    as (_ & Ht & Hsync).
  split; [exact Hne|]. split; [exact Hsel|]. split.
  - rewrite Ht. reflexivity.
  - apply Hsync. apply not_elem_of_empty.
Defined.

(** ** The batch file follows the table *)

Lemma in_sync_same st st' : ui st' = ui st -> os st' = os st -> in_sync st -> in_sync st'.
Proof. unfold in_sync, paths. now intros -> ->. Qed.

Lemma save_in_sync st :
  batch_list_file ∉ readonly (os st) ->
  in_sync (save_batch_list st).2
  /\ readonly (os (save_batch_list st).2) = readonly (os st).
Proof.
  intros Hro. rewrite (save_batch_list_writable st Hro). unfold in_sync, saved_world, paths.
  cbn [snd os ui files readonly with_files]. split; [apply lookup_insert_eq | reflexivity].
Qed.

(** After a save, whatever is logged next leaves the file in step. *)
Ltac saved_then_logged Hro :=
  match goal with
  | |- context [save_batch_list ?s] =>
      let Hsync := fresh "Hsync" in let Hro' := fresh "Hro'" in
      let Hr := fresh "Hr" in let r := fresh "r" in let s1 := fresh "s1" in
      destruct (save_in_sync s Hro) as [Hsync Hro'];
      destruct (save_batch_list_ui s) as [Hr _];
      destruct (save_batch_list s) as [r s1];
      cbn [fst snd] in Hsync, Hro', Hr; subst r; run_m
  end.

Lemma add_batch_file_sync st p :
  batch_list_file ∉ readonly (os st) -> in_sync st ->
  in_sync (add_batch_file p st).2
  /\ readonly (os (add_batch_file p st).2) = readonly (os st).
Proof.
  intros Hro Hs. unfold add_batch_file. run_m.
  destruct (negb (String.eqb p EmptyString) && is_valid_file (os st) p);
    [|split; [exact Hs | reflexivity]].
  destruct (existsb (String.eqb p) (map fst (batch_table (ui st)))); run_m.
  - split; [|reflexivity]. now apply (in_sync_same st).
  - saved_then_logged Hro. split; [now apply (in_sync_same s1) | exact Hro'].
Qed.

Lemma dropEvent_files_sync urls : forall st,
  batch_list_file ∉ readonly (os st) -> in_sync st ->
  in_sync (dropEvent_files urls st).2.
Proof.
  induction urls as [|p urls IH]; intros st Hro Hs; [exact Hs|].
  cbn [dropEvent_files]. run_m.
  destruct (is_valid_file (os st) p).
  - destruct (existsb (String.eqb p) (map fst (batch_table (ui st)))); run_m.
    + now apply (in_sync_same st).
    + saved_then_logged Hro. cbn [os] in Hro'. apply IH; [now rewrite Hro' | exact Hsync].
  - run_m. apply IH; [exact Hro|]. now apply (in_sync_same st).
Qed.

(** X16: starting from a batch file that can be written and that holds
    the paths of the table, adding a file, dropping files on the table,
    moving a row and removing all rows each leave the batch file holding
    the paths of the table as it then is. *)
Theorem batch_mutations_keep_file_in_sync (st : state) :
  batch_list_file ∉ readonly (os st) ->
  in_sync st ->
  (forall p, in_sync (add_batch_file p st).2)
  /\ (forall urls, in_sync (dropEvent_files urls st).2)
  /\ (forall selected_rows rowAt, in_sync (dropEvent selected_rows rowAt st).2)
  /\ (forall reply_yes, in_sync (remove_all_batch_files reply_yes st).2).
Proof.
  intros Hro Hs. split; [|split; [|split]].
  - intros p. now apply add_batch_file_sync.
  - intros urls. now apply dropEvent_files_sync.
  - intros [|from_row rest] rowAt; [exact Hs|].
    unfold dropEvent, reorder. run_m.
    destruct ((from_row =? default (length (batch_table (ui st))) rowAt)%nat
              || (from_row + 1 =? default (length (batch_table (ui st))) rowAt)%nat) eqn:E.
    + destruct rowAt; cbn [default from_option id] in E; rewrite E; exact Hs.
    + destruct rowAt; cbn [default from_option id] in E; rewrite E; run_m;
        (destruct (batch_table (ui st) !! from_row); [|exact Hs]); run_m;
        saved_then_logged Hro; exact Hsync.
  - intros [|]; [|exact Hs]. unfold remove_all_batch_files. run_m.
    saved_then_logged Hro. now apply (in_sync_same s1).
Qed.

Lemma batch_mutations_keep_file_in_sync_witness :
  (batch_list_file ∉ readonly (os (save_batch_list st_good).2))
  /\ in_sync (save_batch_list st_good).2
  /\ in_sync (remove_all_batch_files true (save_batch_list st_good).2).2
  /\ in_sync (dropEvent_files [good_exe; gone_exe] (save_batch_list st_good).2).2.
Proof.
  assert (Hro : batch_list_file ∉ readonly (os (save_batch_list st_good).2))
    by apply not_elem_of_empty.
  assert (Hs : in_sync (save_batch_list st_good).2) by (vm_compute; reflexivity).
  destruct (batch_mutations_keep_file_in_sync _ Hro Hs) as (_ & Hd & _ & Hr).
  split; [exact Hro|]. split; [exact Hs|]. split; [apply Hr | apply Hd].
Defined.

(** ** Moving a row *)

(** X17: a drop that moves the selected row, to a target row of the table
    or below its last row, leaves the table a rearrangement of what it was
    (no row is lost or repeated) with the moved row at the target position
    (one less when the row moved down), also when the batch file cannot be
    written. *)
Theorem dropEvent_moves_one_row
    (st : state) (from_row to_row : nat) (rest : list nat) (rowAt : option nat)
    (x : string * status) :
  batch_table (ui st) !! from_row = Some x ->
  to_row = default (length (batch_table (ui st))) rowAt ->
  (to_row <= length (batch_table (ui st)))%nat ->
  to_row <> from_row ->
  to_row <> (from_row + 1)%nat ->
  (dropEvent (from_row :: rest) rowAt st).1 = Ok tt
  /\ batch_table (ui (dropEvent (from_row :: rest) rowAt st).2) ≡ₚ batch_table (ui st)
  /\ batch_table (ui (dropEvent (from_row :: rest) rowAt st).2)
       !! (if (from_row <? to_row)%nat then to_row - 1 else to_row)%nat = Some x.
Proof.
  intros Hx Hto Hle Hne Hne1. unfold dropEvent, reorder. run_m.
  change (match rowAt with Some r => r | None => length (batch_table (ui st)) end)
    with (default (length (batch_table (ui st))) rowAt).
  rewrite <- Hto.
  rewrite (proj2 (Nat.eqb_neq from_row to_row)) by congruence.
  rewrite (proj2 (Nat.eqb_neq (from_row + 1) to_row)) by congruence.
  cbn [orb]. run_m. rewrite Hx. run_m.
  match goal with |- context [save_batch_list ?s] =>
    destruct (save_batch_list_ui s) as [Hr Hu];
    destruct (save_batch_list s) as [r [u1 w1 tr1]]
  end.
  cbn [fst snd ui] in Hr, Hu. subst r u1. cbn [fst snd ui batch_table].
  pose proof (lookup_lt_Some _ _ _ Hx) as Hlt.
  set (to' := if (from_row <? to_row)%nat then (to_row - 1)%nat else to_row).
  assert (Hto' : (to' <= length (delete from_row (batch_table (ui st))))%nat).
  { rewrite length_delete by eauto. subst to'.
    destruct (from_row <? to_row)%nat eqn:E;
      [apply Nat.ltb_lt in E | apply Nat.ltb_ge in E]; lia. }
  unfold insert_row. rewrite (proj2 (Nat.leb_le _ _) Hto').
  split; [reflexivity|]. split.
  - rewrite <- Permutation_middle, take_drop. symmetry. now apply delete_Permutation.
  - apply list_lookup_middle. rewrite length_take. lia.
Qed.

Lemma dropEvent_moves_one_row_witness :
  batch_table (ui st_two) !! 0 = Some ("C:\a.exe", Stopped)
  /\ 2 = default (length (batch_table (ui st_two))) None
  /\ batch_table (ui (dropEvent [0] None st_two).2)
     ≡ₚ batch_table (ui st_two)
  /\ batch_table (ui (dropEvent [0] None st_two).2) !! 1 = Some ("C:\a.exe", Stopped).
Proof.
  assert (Hx : batch_table (ui st_two) !! 0 = Some ("C:\a.exe", Stopped)) by reflexivity.
  assert (Hto : 2 = default (length (batch_table (ui st_two))) None) by reflexivity.
  destruct (dropEvent_moves_one_row st_two 0 2 [] None _ Hx Hto) as (_ & Hp & Hl);
    [apply Nat.le_refl | discriminate | discriminate |].
  split; [exact Hx|]. split; [exact Hto|]. split; [exact Hp | exact Hl].
Defined.

(** ** Dropping files on the table *)

Lemma save_batch_list_valid st p :
  is_valid_file (os (save_batch_list st).2) p = is_valid_file (os st) p.
Proof.
  destruct (decide (batch_list_file ∈ readonly (os st))) as [H|H].
  - destruct (save_batch_list_refused st H) as [msg ->]. reflexivity.
  - rewrite (save_batch_list_writable st H). apply is_valid_file_saved.
Qed.

Lemma dropEvent_files_paths urls : forall st,
  exists added,
    paths (dropEvent_files urls st).2 = (paths st ++ added)%list
    /\ Forall (fun p => In p urls /\ is_valid_file (os st) p = true
                        /\ ~ In p (paths st)) added
    /\ NoDup added.
Proof.
  induction urls as [|p urls IH]; intros st.
  - exists []. rewrite app_nil_r. repeat split; constructor.
  - cbn [dropEvent_files]. run_m.
    destruct (is_valid_file (os st) p) eqn:Hv.
    + destruct (existsb (String.eqb p) (map fst (batch_table (ui st)))) eqn:He; run_m.
      * exists []. rewrite app_nil_r. repeat split; constructor.
      * match goal with |- context [save_batch_list ?s] =>
          pose proof (save_batch_list_paths s) as Hp;
          pose proof (save_batch_list_valid s) as Hval;
          destruct (save_batch_list_ui s) as [Hr _];
          destruct (save_batch_list s) as [r s1]
        end.
        cbn [fst snd os] in Hp, Hval, Hr. subst r.
        unfold paths in Hp at 2. cbn [ui batch_table] in Hp. rewrite map_app in Hp.
        cbn [map fst] in Hp.
        run_m. destruct (IH s1) as (added & Hpaths & Hall & Hnd).
        unfold paths in Hpaths, Hall, Hp. rewrite Hp in Hpaths, Hall.
        assert (Hnot : ~ In p (map fst (batch_table (ui st)))).
        { intros Hin. apply existsb_eqb_In in Hin. congruence. }
        exists (p :: added). split; [|split].
        -- rewrite Hpaths, <- app_assoc. reflexivity.
        -- constructor; [split; [now left | split; assumption]|].
           eapply Forall_impl; [exact Hall|]. cbn. intros q (Hq & Hqv & Hqn).
           split; [now right|]. split; [now rewrite <- Hval|].
           intros Hin. apply Hqn, in_or_app. now left.
        -- apply NoDup_cons. split; [|exact Hnd].
           intros Hin. apply list_elem_of_In in Hin.
           rewrite List.Forall_forall in Hall. destruct (Hall p Hin) as (_ & _ & Hn).
           apply Hn, in_or_app. right. now left.
    + run_m.
      match goal with |- context [dropEvent_files urls ?s] =>
        destruct (IH s) as (added & Hpaths & Hall & Hnd)
      end.
      unfold paths in Hpaths, Hall. cbn [ui os] in Hpaths, Hall.
      exists added. split; [exact Hpaths|]. split; [|exact Hnd].
      eapply Forall_impl; [exact Hall|]. cbn. intros q (Hq & Hrest).
      split; [now right | exact Hrest].
Qed.

(** A drop with no valid file that is already in the table or dropped
    twice appends every valid file, in drop order. *)
Lemma dropEvent_files_all urls : forall st,
  Forall (fun p => is_valid_file (os st) p = true -> ~ In p (paths st)) urls ->
  NoDup (List.filter (is_valid_file (os st)) urls) ->
  paths (dropEvent_files urls st).2
  = (paths st ++ List.filter (is_valid_file (os st)) urls)%list.
Proof.
  induction urls as [|p urls IH]; intros st Hnew Hnd.
  - cbn. now rewrite app_nil_r.
  - apply Forall_cons in Hnew as [Hp Hnew].
    cbn [dropEvent_files List.filter] in *. run_m.
    destruct (is_valid_file (os st) p) eqn:Hv.
    + specialize (Hp eq_refl).
      destruct (existsb (String.eqb p) (map fst (batch_table (ui st)))) eqn:He.
      { apply existsb_eqb_In in He. contradiction. }
      run_m.
      match goal with |- context [save_batch_list ?s] =>
        pose proof (save_batch_list_paths s) as Hpaths;
        pose proof (save_batch_list_valid s) as Hval;
        destruct (save_batch_list_ui s) as [Hr _];
        destruct (save_batch_list s) as [r s1]
      end.
      cbn [fst snd os] in Hpaths, Hval, Hr. subst r.
      unfold paths in Hpaths at 2. cbn [ui batch_table] in Hpaths.
      rewrite map_app in Hpaths. cbn [map fst] in Hpaths.
      run_m.
      assert (Hfilter : List.filter (is_valid_file (os s1)) urls
                        = List.filter (is_valid_file (os st)) urls).
      { apply filter_ext. exact Hval. }
      apply NoDup_cons in Hnd as [Hfresh Hnd].
      change (paths (dropEvent_files urls s1).2
              = (paths st ++ p :: List.filter (is_valid_file (os st)) urls)%list).
      rewrite IH.
      * rewrite Hpaths, Hfilter, <- app_assoc. reflexivity.
      * rewrite List.Forall_forall in Hnew. apply List.Forall_forall.
        intros q Hq Hqv Hin. rewrite Hval in Hqv. rewrite Hpaths in Hin.
        apply in_app_or in Hin as [Hin|[->|[]]].
        -- exact (Hnew q Hq Hqv Hin).
        -- apply Hfresh, list_elem_of_In, filter_In. auto.
      * now rewrite Hfilter.
    + run_m.
      match goal with |- context [dropEvent_files urls ?s] =>
        change (paths (dropEvent_files urls s).2
                = (paths st ++ List.filter (is_valid_file (os st)) urls)%list);
        rewrite (IH s); [reflexivity | exact Hnew | exact Hnd]
      end.
Qed.

(** A valid file that is in the table, or that was dropped earlier in the
    same event, ends the event where it stands. *)
Lemma dropEvent_files_stops pre : forall st p rest,
  is_valid_file (os st) p = true ->
  In p (paths st) \/ In p pre ->
  ui (dropEvent_files (pre ++ p :: rest) st).2 = ui (dropEvent_files pre st).2
  /\ os (dropEvent_files (pre ++ p :: rest) st).2 = os (dropEvent_files pre st).2.
Proof.
  induction pre as [|q pre IH]; intros st p rest Hv Hin.
  - destruct Hin as [Hin|[]]. cbn [List.app dropEvent_files]. run_m. rewrite Hv.
    unfold paths in Hin. rewrite (proj2 (existsb_eqb_In p _) Hin). run_m.
    split; reflexivity.
  - cbn [List.app dropEvent_files]. run_m.
    destruct (is_valid_file (os st) q) eqn:Hq.
    + destruct (existsb (String.eqb q) (map fst (batch_table (ui st)))) eqn:He; run_m;
        [split; reflexivity|].
      match goal with |- context [save_batch_list ?s] =>
        pose proof (save_batch_list_paths s) as Hpaths;
        pose proof (save_batch_list_valid s) as Hval;
        destruct (save_batch_list_ui s) as [Hr _];
        destruct (save_batch_list s) as [r s1]
      end.
      cbn [fst snd os] in Hpaths, Hval, Hr. subst r.
      unfold paths in Hpaths at 2. cbn [ui batch_table] in Hpaths.
      rewrite map_app in Hpaths. cbn [map fst] in Hpaths.
      run_m. apply IH; [now rewrite Hval|].
      rewrite Hpaths. destruct Hin as [Hin|[->|Hin]].
      * left. apply in_or_app. now left.
      * left. apply in_or_app. right. now left.
      * now right.
    + run_m.
      match goal with |- context [dropEvent_files pre ?s] =>
        apply (IH s); [exact Hv|]
      end.
      destruct Hin as [Hin|[->|Hin]]; [now left | congruence | now right].
Qed.

(** X18: files dropped on the table are only ever appended: the rows that
    were there stay in place, every new row is one of the dropped files
    that is valid and was not in the table, no file is added twice, and a
    table without duplicates stays without duplicates.  When no valid
    dropped file is in the table or dropped twice, every valid dropped file
    is appended, in drop order.  A valid file that is already in the table,
    or that was dropped earlier in the same event, ends the event wherever
    it stands among the dropped files: the rows added before it stay and
    nothing after it is added. *)
Theorem dropEvent_files_appends_valid_new (st : state) (urls : list string) :
  (exists added,
     paths (dropEvent_files urls st).2 = (paths st ++ added)%list
     /\ Forall (fun p => In p urls /\ is_valid_file (os st) p = true
                         /\ ~ In p (paths st)) added
     /\ NoDup added)
  /\ (NoDup (paths st) -> NoDup (paths (dropEvent_files urls st).2))
  /\ (Forall (fun p => is_valid_file (os st) p = true -> ~ In p (paths st)) urls ->
      NoDup (List.filter (is_valid_file (os st)) urls) ->
      paths (dropEvent_files urls st).2
      = (paths st ++ List.filter (is_valid_file (os st)) urls)%list)
  /\ (forall pre p rest, urls = (pre ++ p :: rest)%list ->
        is_valid_file (os st) p = true ->
        In p (paths st) \/ In p pre ->
        ui (dropEvent_files urls st).2 = ui (dropEvent_files pre st).2
        /\ os (dropEvent_files urls st).2 = os (dropEvent_files pre st).2).
Proof.
  destruct (dropEvent_files_paths urls st) as (added & Hp & Hall & Hnd).
  split; [eauto|]. split; [|split].
  - intros Hst. rewrite Hp. apply NoDup_app. split; [exact Hst|]. split; [|exact Hnd].
    intros q Hq Hq'. apply list_elem_of_In in Hq, Hq'.
    rewrite List.Forall_forall in Hall. destruct (Hall q Hq') as (_ & _ & Hn). contradiction.
  - apply dropEvent_files_all.
  - intros pre p rest -> Hv Hin. now apply dropEvent_files_stops.
Qed.

Lemma dropEvent_files_appends_valid_new_witness :
  NoDup (paths st_import)
  /\ is_valid_file (os st_import) good_exe = true
  /\ In good_exe (paths st_import)
  /\ NoDup (paths (dropEvent_files [amp_exe; good_exe; gone_exe] st_import).2)
  /\ ui (dropEvent_files [amp_exe; good_exe; gone_exe] st_import).2
     = ui (dropEvent_files [amp_exe] st_import).2
  /\ Forall (fun p => is_valid_file (os st_registry) p = true
                      -> ~ In p (paths st_registry)) [gone_exe; good_exe]
  /\ NoDup (List.filter (is_valid_file (os st_registry)) [gone_exe; good_exe])
  /\ paths (dropEvent_files [gone_exe; good_exe] st_registry).2 = [good_exe].
Proof.
  assert (Hnd : NoDup (paths st_import)).
  { apply NoDup_cons. split; [apply not_elem_of_nil | apply NoDup_nil_2]. }
  assert (Hv : is_valid_file (os st_import) good_exe = true) by (vm_compute; reflexivity).
  assert (Hin : In good_exe (paths st_import)) by (left; reflexivity).
  assert (Hnew : Forall (fun p => is_valid_file (os st_registry) p = true
                                  -> ~ In p (paths st_registry)) [gone_exe; good_exe]).
  { repeat constructor; intros _ []. }
  assert (Hnd' : NoDup (List.filter (is_valid_file (os st_registry)) [gone_exe; good_exe])).
  { assert (He : List.filter (is_valid_file (os st_registry)) [gone_exe; good_exe]
                 = [good_exe]) by (vm_compute; reflexivity).
    rewrite He. apply NoDup_cons. split; [apply not_elem_of_nil | apply NoDup_nil_2]. }
  split; [exact Hnd|]. split; [exact Hv|]. split; [exact Hin|]. split; [|split].
  - exact (proj1 (proj2 (dropEvent_files_appends_valid_new st_import _)) Hnd).
  - exact (proj1 (proj2 (proj2 (proj2 (dropEvent_files_appends_valid_new st_import
                                  [amp_exe; good_exe; gone_exe])))
                   [amp_exe] good_exe [gone_exe] eq_refl Hv (or_introl Hin))).
  - split; [exact Hnew|]. split; [exact Hnd'|].
    pose proof (proj1 (proj2 (proj2 (dropEvent_files_appends_valid_new st_registry
                                       [gone_exe; good_exe]))) Hnew Hnd') as H.
    rewrite H. vm_compute. reflexivity.
Defined.

(** ** Import and export *)

(** X19: importing a JSON document that is not an object, or whose
    [batch_list] cannot be iterated over, is reported in an error box
    without raising; by then the table has been emptied, but nothing is
    written: the batch file, the theme and the tracking map are what they
    were. *)
Theorem import_without_batch_list_clears_table (st : state) (f : string) (j : json) :
  f <> EmptyString ->
  files (os st) !! f = Some (Json j) ->
  no_batch_list j ->
  (import_settings f st).1 = Ok tt
  /\ batch_table (ui (import_settings f st).2) = []
  /\ processes (ui (import_settings f st).2) = processes (ui st)
  /\ current_theme (ui (import_settings f st).2) = current_theme (ui st)
  /\ os (import_settings f st).2 = os st
  /\ Exists (fun e => is_error_box e = true) (emitted (import_settings f) st).
Proof.
  intros Hne Hf Hj. unfold emitted, import_settings.
  rewrite (proj2 (String.eqb_neq f EmptyString) Hne).
  unfold json_load, clear_rows, dict_get. run_m. rewrite Hf. run_m.
  destruct j as [|s|items|members]; run_m;
    try (do 5 (split; [reflexivity|]);
         rewrite <- app_assoc, drop_app_length;
         apply Exists_cons_tl, Exists_cons_hd; reflexivity).
  cbn [no_batch_list] in Hj. rewrite Hj. unfold iterate. run_m.
  do 5 (split; [reflexivity|]).
  rewrite <- app_assoc, drop_app_length. apply Exists_cons_tl, Exists_cons_hd. reflexivity.
Qed.

Lemma import_without_batch_list_clears_table_witness :
  batch_list_file <> EmptyString
  /\ files (os st_import) !! batch_list_file = Some (Json (JArr [amp_exe; good_exe]))
  /\ no_batch_list (JArr [amp_exe; good_exe])
  /\ batch_table (ui st_import) = [(good_exe, Stopped)]
  /\ batch_table (ui (import_settings batch_list_file st_import).2) = []
  /\ os (import_settings batch_list_file st_import).2 = os st_import.
Proof.
  assert (Hne : batch_list_file <> EmptyString) by discriminate.
  assert (Hf : files (os st_import) !! batch_list_file
               = Some (Json (JArr [amp_exe; good_exe]))) by (vm_compute; reflexivity).
  assert (Hj : no_batch_list (JArr [amp_exe; good_exe])) by exact I.
  destruct (import_without_batch_list_clears_table st_import batch_list_file _ Hne Hf Hj)
    as (_ & Ht & _ & _ & Ho & _).
  split; [exact Hne|]. split; [exact Hf|]. split; [exact Hj|].
  split; [reflexivity|]. split; assumption.
Defined.




(** ** The theme *)

(** X21: [toggle_theme] never raises, turns [light] into [dark] and
    everything else into [light], so two toggles bring [light] and [dark]
    back; it leaves the table and the tracking map alone, and when the
    configuration file can be written the file then holds the new theme. *)
Theorem toggle_theme_flips (st : state) :
  (toggle_theme st).1 = Ok tt
  /\ current_theme (ui (toggle_theme st).2) = other_theme (current_theme (ui st))
  /\ batch_table (ui (toggle_theme st).2) = batch_table (ui st)
  /\ processes (ui (toggle_theme st).2) = processes (ui st)
  /\ (config_file ∉ readonly (os st) ->
      files (os (toggle_theme st).2) !! config_file
      = Some (Json (JObj [("theme", JStr (other_theme (current_theme (ui st))))])))
  /\ (current_theme (ui st) = "light" \/ current_theme (ui st) = "dark" ->
      current_theme (ui (toggle_theme (toggle_theme st).2).2) = current_theme (ui st)).
Proof.
  assert (Hone : forall s,
    (toggle_theme s).1 = Ok tt
    /\ current_theme (ui (toggle_theme s).2) = other_theme (current_theme (ui s))
    /\ batch_table (ui (toggle_theme s).2) = batch_table (ui s)
    /\ processes (ui (toggle_theme s).2) = processes (ui s)
    /\ (config_file ∉ readonly (os s) ->
        files (os (toggle_theme s).2) !! config_file
        = Some (Json (JObj [("theme", JStr (other_theme (current_theme (ui s))))])))).
  { intros s. unfold toggle_theme, apply_theme, save_theme, write_file, other_theme. run_m.
    destruct (bool_decide (config_file ∈ readonly (os s))) eqn:Hro; run_m.
    - do 4 (split; [reflexivity|]). intros Hw.
      apply bool_decide_eq_true in Hro. contradiction.
    - do 4 (split; [reflexivity|]). intros _.
      cbn [files with_files]. apply lookup_insert_eq. }
  destruct (Hone st) as (H1 & H2 & H3 & H4 & H5).
  do 5 (split; [assumption|]).
  intros Hld. destruct (Hone (toggle_theme st).2) as (_ & H2' & _).
  rewrite H2', H2. unfold other_theme. destruct Hld as [-> | ->]; reflexivity.
Qed.

Lemma toggle_theme_flips_witness :
  (config_file ∉ readonly (os st_good))
  /\ current_theme (ui st_good) = "light"
  /\ files (os (toggle_theme st_good).2) !! config_file
     = Some (Json (JObj [("theme", JStr "dark")]))
  /\ current_theme (ui (toggle_theme (toggle_theme st_good).2).2) = "light".
Proof.
  assert (Hw : config_file ∉ readonly (os st_good)) by apply not_elem_of_empty.
  assert (Hl : current_theme (ui st_good) = "light") by reflexivity.
  destruct (toggle_theme_flips st_good) as (_ & _ & _ & _ & Hfile & Htwice).
  split; [exact Hw|]. split; [exact Hl|].
  split; [exact (Hfile Hw) | exact (Htwice (or_introl Hl))].
Defined.

(** ** The program's own autostart entry *)

Lemma with_run_key_run_key w k : run_key (with_run_key k w) = k.
Proof. reflexivity. Qed.

(** One call of [toggle_self_autostart]. *)
Lemma toggle_self_autostart_once
    (st : state) (current_exe : string) (reply_yes : bool) :
  (toggle_self_autostart current_exe reply_yes st).1 = Ok tt
  /\ files (os (toggle_self_autostart current_exe reply_yes st).2) = files (os st)
  /\ tasks (os (toggle_self_autostart current_exe reply_yes st).2) = tasks (os st)
  /\ (reply_yes = false ->
      os (toggle_self_autostart current_exe reply_yes st).2 = os st)
  /\ (forall values, run_key (os st) = Some values -> reply_yes = true ->
      run_key (os (toggle_self_autostart current_exe reply_yes st).2)
      = Some (match values !! self_name with
              | None => <[self_name := dq +:+ current_exe +:+ dq]> values
              | Some _ => delete self_name values
              end))
  /\ (run_key (os st) = None ->
      os (toggle_self_autostart current_exe reply_yes st).2 = os st
      /\ Exists (fun e => is_error_box e = true)
                (emitted (toggle_self_autostart current_exe reply_yes) st)).
Proof.
  unfold emitted, toggle_self_autostart, try_except_FileNotFoundError, winreg_OpenKey,
    winreg_QueryValueEx, winreg_DeleteValue, winreg_SetValueEx, self_name, not_found.
  run_m.
  destruct (run_key (os st)) as [values|] eqn:Hk; run_m.
  2:{ do 3 (split; [reflexivity|]). split; [reflexivity|]. split; [discriminate|].
      intros _. split; [reflexivity|].
      rewrite <- !app_assoc, drop_app_length. cbn [List.app].
      do 2 apply Exists_cons_tl. apply Exists_cons_hd. reflexivity. }
  cbn [mbind option_bind].
  destruct (values !! "AutostartManager") as [command|] eqn:Hv; destruct reply_yes;
    repeat (progress (run_m; rewrite ?Hk;
                      cbn [mbind option_bind fmap option_fmap option_map
                           run_key with_run_key exc_type];
                      rewrite ?Hv));
    after_load;
    cbn [files tasks run_key with_run_key];
    (do 3 (split; [reflexivity|])).
  all: split; [first [discriminate | intros _; reflexivity] |].
  all: split; [|discriminate].
  all: intros values' [= <-] Hyes; first [discriminate Hyes | rewrite Hv; reflexivity].
Qed.

(** X22: [toggle_self_autostart] never raises and never touches the files
    or the scheduled tasks.  With the Run key open and the question
    answered yes, it adds the value [AutostartManager], bound to the quoted
    path of the running program, when the value is absent, and deletes the
    value when it is present; so two confirmed calls in a row, starting
    without the value, leave the Run key as it was.  Answered no, it
    changes nothing.  When the Run key does not open it shows an error box
    and changes nothing. *)
Theorem toggle_self_autostart_outcomes
    (st : state) (current_exe : string) (reply_yes : bool) :
  (toggle_self_autostart current_exe reply_yes st).1 = Ok tt
  /\ files (os (toggle_self_autostart current_exe reply_yes st).2) = files (os st)
  /\ tasks (os (toggle_self_autostart current_exe reply_yes st).2) = tasks (os st)
  /\ (reply_yes = false ->
      os (toggle_self_autostart current_exe reply_yes st).2 = os st)
  /\ (forall values, run_key (os st) = Some values -> reply_yes = true ->
      run_key (os (toggle_self_autostart current_exe reply_yes st).2)
      = Some (match values !! self_name with
              | None => <[self_name := dq +:+ current_exe +:+ dq]> values
              | Some _ => delete self_name values
              end))
  /\ (forall values, run_key (os st) = Some values -> values !! self_name = None ->
      run_key (os (toggle_self_autostart current_exe true
                     (toggle_self_autostart current_exe true st).2).2)
      = Some values)
  /\ (run_key (os st) = None ->
      os (toggle_self_autostart current_exe reply_yes st).2 = os st
      /\ Exists (fun e => is_error_box e = true)
                (emitted (toggle_self_autostart current_exe reply_yes) st)).
Proof.
  destruct (toggle_self_autostart_once st current_exe reply_yes)
    as (H1 & H2 & H3 & H4 & H5 & H6).
  do 5 (split; [assumption|]). split; [|assumption].
  intros values Hk Hv.
  destruct (toggle_self_autostart_once st current_exe true) as (_ & _ & _ & _ & Hadd & _).
  specialize (Hadd values Hk eq_refl). rewrite Hv in Hadd.
  destruct (toggle_self_autostart_once (toggle_self_autostart current_exe true st).2
              current_exe true) as (_ & _ & _ & _ & Hdel & _).
  rewrite (Hdel _ Hadd eq_refl), lookup_insert_eq, delete_insert_eq.
  now rewrite (delete_id _ _ Hv).
Qed.

Lemma toggle_self_autostart_outcomes_witness :
  run_key (os st_good) = Some ∅
  /\ (∅ : gmap string string) !! self_name = None
  /\ run_key (os (toggle_self_autostart manager_exe true st_good).2)
     = Some {[ self_name := dq +:+ manager_exe +:+ dq ]}
  /\ run_key (os (toggle_self_autostart manager_exe true
                    (toggle_self_autostart manager_exe true st_good).2).2)
     = Some ∅.
Proof.
  assert (Hk : run_key (os st_good) = Some ∅) by reflexivity.
  assert (Hv : (∅ : gmap string string) !! self_name = None) by reflexivity.
  destruct (toggle_self_autostart_outcomes st_good manager_exe true)
    as (_ & _ & _ & _ & Hadd & Htwice & _).
  split; [exact Hk|]. split; [exact Hv|]. split.
  - rewrite (Hadd ∅ Hk eq_refl). reflexivity.
  - exact (Htwice ∅ Hk Hv).
Defined.

(** ** Adding and then removing an entry *)

Lemma add_registry_os st token file_path app_name values :
  file_path <> EmptyString ->
  (validate_app_name app_name).1 = true ->
  path_exists (os st) file_path = true ->
  run_key (os st) = Some values ->
  os (add_to_autostart token file_path app_name false st).2
  = with_run_key (Some (<[app_name := dq +:+ file_path +:+ dq]> values)) (os st).
Proof.
  intros Hne Hv Hex Hk. unfold add_to_autostart.
  rewrite (proj2 (String.eqb_neq file_path EmptyString) Hne).
  destruct (validate_app_name app_name) as [ok msg]. cbn [fst] in Hv. subst ok.
  cbn [negb]. run_m. rewrite Hex. cbn [negb].
  unfold add_to_registry, winreg_OpenKey, winreg_SetValueEx. run_m.
  rewrite Hk. run_m.
  after_load; rewrite Hk; reflexivity.
Qed.

Lemma with_files_same w f : with_files (files w) (with_files f w) = w.
Proof. now destruct w. Qed.

Lemma with_files_with_tasks w f t :
  with_files (files w) (with_tasks t (with_files f w)) = with_tasks t w.
Proof. now destruct w. Qed.

Lemma add_scheduler_os st token file_path app_name :
  file_path <> EmptyString ->
  (validate_app_name app_name).1 = true ->
  path_exists (os st) file_path = true ->
  files (os st) !! (task_name_of app_name token +:+ ".xml") = None ->
  (task_name_of app_name token +:+ ".xml") ∉ readonly (os st) ->
  shell_available (os st) = true ->
  sched_denied (os st) = None ->
  tasks (os st) !! task_name_of app_name token = None ->
  os (add_to_autostart token file_path app_name true st).2
  = match read_definition (os st) (Text (task_xml (login (os st)) file_path app_name)) with
    | Runs command =>
        with_tasks (<[task_name_of app_name token := command]> (tasks (os st))) (os st)
    | Rejected _ => os st
    end.
Proof.
  intros Hne Hv Hex Htmp Hro Hs Hd Ht. unfold task_name_of in *. unfold add_to_autostart.
  rewrite (proj2 (String.eqb_neq file_path EmptyString) Hne).
  destruct (validate_app_name app_name) as [ok msg]. cbn [fst] in Hv. subst ok.
  cbn [negb]. run_m. rewrite Hex. cbn [negb].
  unfold add_to_task_scheduler, write_file, schtasks_create, spawn_shell, os_remove,
    path_exists.
  run_m. rewrite (bool_decide_eq_false_2 _ Hro). run_m.
  cbn [shell_available sched_denied tasks files with_files with_tasks].
  rewrite Hs. run_m. cbn [shell_available sched_denied tasks files with_files with_tasks].
  rewrite Hd. run_m. cbn [shell_available sched_denied tasks files with_files with_tasks].
  rewrite lookup_insert_eq. cbn [read_definition with_files].
  destruct (read_definition (os st) (Text (task_xml (login (os st)) file_path app_name)))
    as [err|command]; run_m;
    cbn [shell_available sched_denied tasks files with_files with_tasks Z.eqb negb]; run_m.
  { remove_definition Htmp. apply with_files_same. }
  rewrite Ht. run_m. cbn [Z.eqb negb]. run_m.
  cbn [files with_files with_tasks]. rewrite lookup_insert_eq.
  rewrite bool_decide_eq_true_2 by eauto. run_m.
  cbn [files with_files with_tasks]. rewrite lookup_insert_eq. run_m.
  after_load; cbn [files with_files with_tasks];
    rewrite delete_insert_eq, (delete_id _ _ Htmp); apply with_files_with_tasks.
Qed.

(** X23: adding an entry and then removing it, with the removal
    confirmed, restores the store.  With a valid name and an existing
    file: a non-elevated add of a name that is not in the Run key,
    followed by the removal of that name from the Registry, leaves the Run
    key as it was; an elevated add that creates its task, followed by the
    removal of that task from the Scheduler, leaves the scheduled tasks as
    they were. *)
Theorem add_then_remove_restores
    (st : state) (token file_path app_name : string) :
  file_path <> EmptyString ->
  (validate_app_name app_name).1 = true ->
  path_exists (os st) file_path = true ->
  (forall values,
     run_key (os st) = Some values -> values !! app_name = None ->
     run_key (os (remove_process true "Registry" app_name
                    (add_to_autostart token file_path app_name false st).2).2)
     = Some values)
  /\ (files (os st) !! (task_name_of app_name token +:+ ".xml") = None ->
      (task_name_of app_name token +:+ ".xml") ∉ readonly (os st) ->
      shell_available (os st) = true ->
      sched_denied (os st) = None ->
      tasks (os st) !! task_name_of app_name token = None ->
      tasks (os (remove_process true "Scheduler" (task_name_of app_name token)
                   (add_to_autostart token file_path app_name true st).2).2)
      = tasks (os st)).
Proof.
  intros Hne Hv Hex. split.
  - intros values Hk Hn.
    rewrite remove_process_os, (add_registry_os st token file_path app_name values)
      by assumption.
    unfold after_remove. cbn [String.eqb Ascii.eqb Bool.eqb run_key with_run_key].
    now rewrite delete_insert_eq, (delete_id _ _ Hn).
  - intros Htmp Hro Hs Hd Ht.
    rewrite remove_process_os, (add_scheduler_os st token file_path app_name)
      by assumption.
    unfold after_remove.
    destruct (read_definition (os st) (Text (task_xml (login (os st)) file_path app_name)))
      as [err|command];
      cbn [String.eqb Ascii.eqb Bool.eqb shell_available sched_denied tasks with_tasks];
      rewrite Hs, Hd; cbn [tasks with_tasks].
    + apply (delete_id _ _ Ht).
    + now rewrite delete_insert_eq, (delete_id _ _ Ht).
Qed.

Lemma add_then_remove_restores_witness :
  good_exe <> EmptyString
  /\ (validate_app_name "MyApp").1 = true
  /\ path_exists (os st_good) good_exe = true
  /\ run_key (os st_good) = Some ∅
  /\ run_key (os (remove_process true "Registry" "MyApp"
                    (add_to_autostart "0a1b2c3d" good_exe "MyApp" false st_good).2).2)
     = Some ∅
  /\ tasks (os (remove_process true "Scheduler" my_app_task
                  (add_to_autostart "0a1b2c3d" good_exe "MyApp" true st_good).2).2)
     = tasks (os st_good).
Proof.
  assert (Hne : good_exe <> EmptyString) by discriminate.
  assert (Hv : (validate_app_name "MyApp").1 = true) by reflexivity.
  assert (Hex : path_exists (os st_good) good_exe = true) by (vm_compute; reflexivity).
  assert (Hk : run_key (os st_good) = Some ∅) by reflexivity.
  destruct (add_then_remove_restores st_good "0a1b2c3d" good_exe "MyApp" Hne Hv Hex)
    as [Hreg Hsch].
  split; [exact Hne|]. split; [exact Hv|]. split; [exact Hex|]. split; [exact Hk|].
  split.
  - apply Hreg; [exact Hk | reflexivity].
  - apply Hsch; [vm_compute; reflexivity | apply not_elem_of_empty | reflexivity
                | reflexivity | vm_compute; reflexivity].
Defined.

(** ** The terminate requests of a stop *)

Lemma stop_one_request st k v :
  is_Some (processes (ui st) !! k) ->
  exists tr,
    stop_one (k, v) st =
    (Ok tt,
     State (with_processes (delete k (processes (ui st))) (ui st)) (os st)
           (trace st ++ ShellCommand (taskkill_command v) :: tr))
    /\ List.filter is_backend_call tr = [].
Proof.
  intros [x Hx]. unfold stop_one, taskkill, spawn_shell, untrack, taskkill_command. run_m.
  destruct (shell_available (os st)); run_m;
    [destruct (taskkill_outcome (os st) (length (trace st)) v) as [rc err|e]; run_m;
       [destruct (negb (rc =? 0)%Z); run_m|]|];
    rewrite Hx; run_m; eexists; (split; [rewrite <- ?app_assoc; reflexivity | reflexivity]).
Qed.

Lemma stop_loop_requests l : forall st,
  NoDup l.*1 ->
  (forall k, k ∈ l.*1 -> is_Some (processes (ui st) !! k)) ->
  exists tr,
    (for_each l stop_one st).2 =
    State (with_processes (delete_keys l (processes (ui st))) (ui st)) (os st)
          (trace st ++ tr)
    /\ List.filter is_backend_call tr
       = map (fun kv => ShellCommand (taskkill_command kv.2)) l.
Proof.
  induction l as [|[k v] l IH]; intros st Hnd Hin.
  - exists []. destruct st as [[t m th] w tr]. simpl. now rewrite app_nil_r.
  - rewrite fmap_cons in Hnd, Hin. cbn [fst] in Hnd, Hin.
    apply NoDup_cons in Hnd as [Hk Hnd].
    destruct (stop_one_request st k v) as (tr1 & H1 & Hf1).
    { apply Hin. apply list_elem_of_here. }
    cbn [for_each delete_keys]. unfold bind. rewrite H1.
    edestruct IH as (tr2 & H2 & Hf2); [exact Hnd| |rewrite H2].
    + intros k' Hk'. cbn [ui with_processes processes].
      rewrite lookup_delete_ne by (intros ->; contradiction).
      apply Hin. now apply list_elem_of_further.
    + exists (ShellCommand (taskkill_command v) :: tr1 ++ tr2)%list. unfold with_processes.
      cbn [ui os trace processes batch_table current_theme fst snd]. split.
      * now rewrite <- app_assoc.
      * cbn [List.filter is_backend_call map snd]. rewrite List.filter_app, Hf1, Hf2.
        reflexivity.
Qed.

(** X24: [stop_all_batch] sends one terminate request for every tracked
    process, by its image name, and makes no other request to a backend. *)
Theorem stop_all_requests_every_tracked_process (st : state) :
  List.filter is_backend_call (emitted stop_all_batch st)
  ≡ₚ map (fun kv => ShellCommand (taskkill_command kv.2)) (map_to_list (processes (ui st)))
  /\ (forall file_path process_name,
        processes (ui st) !! file_path = Some process_name ->
        In (ShellCommand (taskkill_command process_name)) (emitted stop_all_batch st)).
Proof.
  assert (Heq : List.filter is_backend_call (emitted stop_all_batch st)
                = map (fun kv => ShellCommand (taskkill_command kv.2))
                      (map_to_list (processes (ui st)))).
  { unfold emitted, stop_all_batch. run_m.
    match goal with |- context [for_each (map_to_list ?m) stop_one ?s] =>
      destruct (stop_loop (map_to_list m) s) as [tr0 H0];
      [apply NoDup_fst_map_to_list
      |intros k [[k' v] [-> Hkv]]%list_elem_of_fmap; cbn [ui processes];
       apply elem_of_map_to_list in Hkv; eauto|];
      destruct (stop_loop_requests (map_to_list m) s) as (tr1 & H1 & Hf1);
      [apply NoDup_fst_map_to_list
      |intros k [[k' v] [-> Hkv]]%list_elem_of_fmap; cbn [ui processes];
       apply elem_of_map_to_list in Hkv; eauto|]
    end.
    rewrite H0 in H1 |- *. cbn [snd] in H1. injection H1 as Htr.
    apply app_inv_head in Htr. subst tr0. run_m.
    match goal with |- context [for_each ?rows ?body ?s] =>
      destruct (set_status_loop Stopped rows s) as [t2 H2];
      change body with (fun row => set_status row Stopped)
    end.
    rewrite H2. unfold load_logs. run_m.
    rewrite <- !app_assoc, drop_app_length.
    cbn [List.app List.filter is_backend_call].
    rewrite List.filter_app, Hf1. cbn [List.filter is_backend_call].
    apply app_nil_r. }
  split; [now rewrite Heq|].
  intros k v Hkv.
  assert (Hin : In (ShellCommand (taskkill_command v))
                   (List.filter is_backend_call (emitted stop_all_batch st))).
  { rewrite Heq. apply in_map_iff. exists (k, v). split; [reflexivity|].
    apply list_elem_of_In. now apply elem_of_map_to_list. }
  now apply filter_In in Hin.
Qed.

Lemma stop_all_requests_every_tracked_process_witness :
  processes (ui st_stubborn) !! good_exe = Some "good.exe"
  /\ In (ShellCommand (taskkill_command "good.exe")) (emitted stop_all_batch st_stubborn).
Proof.
  assert (Hk : processes (ui st_stubborn) !! good_exe = Some "good.exe")
    by (vm_compute; reflexivity).
  split; [exact Hk|].
  exact (proj2 (stop_all_requests_every_tracked_process st_stubborn) _ _ Hk).
Defined.
